(** * StudyMate timetable generator: a shallow embedding of
      [utils/timetableGenerator.js] and the properties of its scheduler.

    The file has two parts. The first translates the generator: the
    JavaScript primitives it relies on, the time helpers [formatTime] and
    [addMinutes], the data model, [calculatePriority], [shuffleArray],
    [generateTimetable] (its placement pass and its per-day rebuild) and
    [regenerateDay]. The second states and proves the properties.

    Conventions of the embedding.
    - Minute and hour quantities that the clock arithmetic manipulates are
      JavaScript integers: they are modelled as [Z], [Math.floor (x / 60)] as
      floor division [Z.div] and the remainder operator [%] as the truncating
      remainder [Z.rem].
    - Quantities that may be fractional ([weeklyHours], [dailyHours],
      [examPriority], the priority score) are modelled as exact rationals
      [Q]; [Math.floor] and [Math.ceil] are [Qfloor] and [Qceiling]. A
      division by [sessionDuration = 0], which JavaScript answers with
      [Infinity] or [NaN], is outside the model: the properties that involve
      the capacity or the demand assume a positive session duration.
    - An absent property ([undefined]) is [None]. The object literal
      [DIFFICULTY_WEIGHTS] is the finite map of its own keys together with
      the members it inherits from [Object.prototype]; a read that finds
      one of these yields an object, and a product with it [NaN].
    - A subject is a plain object: its properties are own properties, which
      the spread [{ ...subject }] copies.
    - Arrays are lists; an array mutated in place is threaded through the
      loop that mutates it, and [forEach] and [for] loops are folds over the
      elements or the indices.
    - [Array.prototype.sort] is the stable sort of the language standard.
    - [Math.random] is an explicit list of draws handed to the functions
      that shuffle. *)

From Stdlib Require Import ZArith QArith Qround Qminmax List String Ascii Bool Lia.
From Stdlib Require Import DecimalString.
Import ListNotations.

#[local] Open Scope string_scope.
#[local] Open Scope list_scope.
#[local] Open Scope Z_scope.

(* ------------------------------------------------------------------ *)
(** ** JavaScript primitives used by the generator *)

Module JS.

(** [Number.prototype.toString] on an integer. *)
Definition toString (n : Z) : string := NilZero.string_of_int (Z.to_int n).

Fixpoint repeat_string (s : string) (n : nat) : string :=
  match n with
  | O => EmptyString
  | S k => (s ++ repeat_string s k)%string
  end.

(** [s.padStart(len, fill)] for a one-character [fill]. *)
Definition padStart (s : string) (len : nat) (fill : string) : string :=
  (repeat_string fill (len - String.length s) ++ s)%string.

Definition is_digit (c : ascii) : bool :=
  let n := nat_of_ascii c in (48 <=? n)%nat && (n <=? 57)%nat.

(** The class [\s], restricted to the ASCII white space characters. *)
Definition is_space (c : ascii) : bool :=
  let n := nat_of_ascii c in
  (n =? 32)%nat || ((9 <=? n)%nat && (n <=? 13)%nat).

Definition upper (c : ascii) : ascii :=
  let n := nat_of_ascii c in
  if (97 <=? n)%nat && (n <=? 122)%nat then ascii_of_nat (n - 32) else c.

(** [parseInt] on a string of decimal digits. *)
Fixpoint parseDigits (acc : Z) (s : string) : Z :=
  match s with
  | EmptyString => acc
  | String c r => parseDigits (10 * acc + Z.of_nat (nat_of_ascii c - 48)) r
  end.

Definition parseInt (s : string) : Z := parseDigits 0 s.


(** [x || d] on a possibly absent number: [undefined] and [0] are falsy. *)
Definition orElse (x : option Q) (d : Q) : Q :=
  match x with
  | Some q => if Qeq_bool q 0 then d else q
  | None => d
  end.

(** [a[i] = v] for an index inside the array. *)
Fixpoint set_nth {A : Type} (i : nat) (v : A) (a : list A) : list A :=
  match a, i with
  | [], _ => []
  | _ :: r, O => v :: r
  | x :: r, S k => x :: set_nth k v r
  end.

(** [[a[i], a[j]] = [a[j], a[i]]]. *)
Definition swap {A : Type} (a : list A) (i j : nat) : list A :=
  match nth_error a i, nth_error a j with
  | Some x, Some y => set_nth j x (set_nth i y a)
  | _, _ => a
  end.

(** One step of insertion for [Array.prototype.sort]: [x] stood before every
    element of [l] and moves behind [y] only when the comparator is
    positive on [(x, y)]. *)
Fixpoint insert {A : Type} (cmp : A -> A -> Q) (x : A) (l : list A) : list A :=
  match l with
  | [] => [x]
  | y :: r => if Qle_bool (cmp x y) 0 then x :: l else y :: insert cmp x r
  end.

(** [a.sort(cmp)]: the sort is stable, elements the comparator does not
    separate keep their order. *)
Fixpoint sort {A : Type} (cmp : A -> A -> Q) (a : list A) : list A :=
  match a with
  | [] => []
  | x :: r => insert cmp x (sort cmp r)
  end.

(** Longest prefix of [s] whose characters satisfy [p], and the rest. *)
Fixpoint span (p : ascii -> bool) (s : string) : string * string :=
  match s with
  | EmptyString => (EmptyString, EmptyString)
  | String c r =>
      if p c then let '(a, b) := span p r in (String c a, b)
      else (EmptyString, s)
  end.

(** The pattern [(\d+):(\d+)\s*(AM|PM)] with flag [i], tried at the head of
    [s]; the three captured groups. *)
Definition matchTimeAt (s : string) : option (string * string * string) :=
  let '(h, r1) := span is_digit s in
  match h, r1 with
  | String _ _, String ":" r2 =>
      let '(m, r3) := span is_digit r2 in
      match m with
      | EmptyString => None
      | String _ _ =>
          let '(_, r4) := span is_space r3 in
          match r4 with
          | String a (String b _) =>
              if (Ascii.eqb (upper a) "A" || Ascii.eqb (upper a) "P")
                 && Ascii.eqb (upper b) "M"
              then Some (h, m, String a (String b EmptyString))
              else None
          | _ => None
          end
      end
  | _, _ => None
  end.

(** [s.match(/(\d+):(\d+)\s*(AM|PM)/i)]: the leftmost match. *)
Fixpoint matchTime (s : string) : option (string * string * string) :=
  match matchTimeAt s with
  | Some r => Some r
  | None =>
      match s with
      | EmptyString => None
      | String _ r => matchTime r
      end
  end.

Fixpoint toUpperCase (s : string) : string :=
  match s with
  | EmptyString => EmptyString
  | String c r => String (upper c) (toUpperCase r)
  end.

(** What a property read or a product yields in [calculatePriority]: a
    number, [NaN], an object (the functions and the object that
    [Object.prototype] holds) or [undefined]. *)
Inductive value :=
| number (q : Q)
| NaN
| object
| undefined.

(** The condition a value stands for: zero, [NaN] and [undefined] are falsy,
    an object is truthy. *)
Definition truthy (v : value) : bool :=
  match v with
  | number q => negb (Qeq_bool q 0)
  | NaN => false
  | object => true
  | undefined => false
  end.

(** [a || b] *)
Definition logicalOr (a b : value) : value := if truthy a then a else b.

(** [a * b]. An operand that is not a number is converted to one first:
    [undefined] to [NaN], and an object of the kind above, through the
    string of its source text or ["[object Object]"], to [NaN] as well. *)
Definition mul (a b : value) : value :=
  match a, b with
  | number x, number y => number (x * y)
  | _, _ => NaN
  end.

End JS.

(* ------------------------------------------------------------------ *)
(** ** Time arithmetic *)

Record Clock := mkClock { hours : Z; minutes : Z }.

(** [formatTime(hours, minutes)]: 24-hour time to the 12-hour AM/PM string. *)
Definition formatTime (hours minutes : Z) : string :=
  let period := if 12 <=? hours then "PM" else "AM" in
  let displayHours := if Z.rem hours 12 =? 0 then 12 else Z.rem hours 12 in
  let displayMinutes := JS.padStart (JS.toString minutes) 2 "0" in
  (JS.toString displayHours ++ ":" ++ displayMinutes ++ " " ++ period)%string.

(** [addMinutes(hours, minutes, addMins)]. *)
Definition addMinutes (hours minutes addMins : Z) : Clock :=
  let totalMinutes := hours * 60 + minutes + addMins in
  {| hours := Z.rem (totalMinutes / 60) 24;
     minutes := Z.rem totalMinutes 60 |}.

(** The clock reading of a number of minutes counted from midnight, one day
    being 1440 minutes. *)
Definition clockOfMinutes (t : Z) : Clock :=
  {| hours := (t mod 1440) / 60; minutes := (t mod 1440) mod 60 |}.

(* ------------------------------------------------------------------ *)
(** ** Data model *)

Inductive SessionType := study | break.

Module Subject.
(** A subject as the generator reads it, a plain object: its properties are
    own, enumerable data properties. A Mongoose document is not of this
    kind: its paths are accessors of its prototype, which a spread does not
    copy. *)
Record t := mk {
  _id : string;
  name : string;
  weeklyHours : Q;
  difficulty : string;
  examPriority : option Q;
  color : string
}.
End Subject.

Module Preferences.
(** A preference left out of the object is [None]; the generators fill in
    their defaults when they destructure it. *)
Record t := mk {
  dailyHours : option Q;
  sessionDuration : option Z;
  breakDuration : option Z
}.
End Preferences.

Module SubjectData.
(** [{ ...subject, sessionsNeeded, sessionsAssigned: 0, priority }], the
    spread holding the own properties of the plain object [subject]. *)
Record t := mk {
  subject : Subject.t;
  sessionsNeeded : Z;
  sessionsAssigned : Z;
  priority : Q
}.
End SubjectData.

Module Token.
(** An entry of [sessionPool]. *)
Record t := mk {
  subject : string;
  subjectId : string;
  color : string;
  difficulty : string;
  priority : Q
}.
End Token.

Module Session.
(** A placed session. The objects the generator pushes carry exactly these
    eight properties; in particular they have no [difficulty] property. *)
Record t := mk {
  subject : string;
  subjectId : option string;
  startTime : string;
  endTime : string;
  duration : Z;
  type : SessionType;
  completed : bool;
  color : string
}.

(** Reading [session.difficulty] yields [undefined]. *)
Definition difficulty (s : t) : option string := None.
End Session.

Module Day.
Record t := mk {
  dayOfWeek : nat;
  dayName : string;
  sessions : list Session.t;
  totalStudyMinutes : Z;
  totalBreakMinutes : Z
}.
End Day.

Definition DAYS : list string :=
  ["Monday"; "Tuesday"; "Wednesday"; "Thursday"; "Friday"; "Saturday"; "Sunday"].

(** The own properties of the object literal [DIFFICULTY_WEIGHTS]. *)
Definition DIFFICULTY_WEIGHTS : list (string * Q) :=
  [("easy", 1%Q); ("medium", (3 # 2)%Q); ("hard", 2%Q)].

(** The own property [key] of the object literal [table]; an [undefined] key
    finds nothing. *)
Fixpoint lookup (table : list (string * Q)) (key : string) : option Q :=
  match table with
  | [] => None
  | (k, v) :: r => if String.eqb k key then Some v else lookup r key
  end.

Definition lookupKey (table : list (string * Q)) (key : option string) : option Q :=
  match key with
  | Some k => lookup table k
  | None => None
  end.

(** The names of the properties of [Object.prototype], which every object
    literal inherits: each of them holds a function, [__proto__] the
    prototype object itself. *)
Definition OBJECT_PROTOTYPE : list string :=
  ["constructor"; "__defineGetter__"; "__defineSetter__"; "hasOwnProperty";
   "__lookupGetter__"; "__lookupSetter__"; "isPrototypeOf";
   "propertyIsEnumerable"; "toString"; "valueOf"; "__proto__";
   "toLocaleString"].

(** [table[key]] on the object literal [table]: an own property, else one
    inherited from [Object.prototype], else [undefined]. *)
Definition getProperty (table : list (string * Q)) (key : string) : JS.value :=
  match lookup table key with
  | Some v => JS.number v
  | None =>
      if existsb (String.eqb key) OBJECT_PROTOTYPE then JS.object
      else JS.undefined
  end.

(* ------------------------------------------------------------------ *)
(** ** Priority and demand *)

(** [calculatePriority(subject)]. *)
Definition calculatePriority (subject : Subject.t) : JS.value :=
  let difficultyWeight :=
    JS.logicalOr (getProperty DIFFICULTY_WEIGHTS (Subject.difficulty subject))
                 (JS.number 1) in
  let examWeight := (1 + JS.orElse (Subject.examPriority subject) 0 * (2 # 10))%Q in
  let hoursWeight := Qmin (Subject.weeklyHours subject / 10) 2 in
  JS.mul (JS.mul difficultyWeight (JS.number examWeight)) (JS.number hoursWeight).

(** A priority as the two sorts of the generator compare it. When the
    priority is [NaN] the comparator [b.priority - a.priority] answers [NaN]
    for every pair that holds it, and the language leaves the order of such
    a sort to the implementation. That case takes a difficulty that names a
    member of [Object.prototype], which the enum of the Subject schema
    refuses; it is outside the model of the sorts, where such a priority
    counts as 0. *)
Definition comparable (priority : JS.value) : Q :=
  match priority with
  | JS.number q => q
  | _ => 0
  end.

(** [Math.floor(dailyMinutes / sessionDuration)] with
    [dailyMinutes = dailyHours * 60]. *)
Definition maxSessionsOf (dailyHours : Q) (sessionDuration : Z) : Z :=
  let dailyMinutes := (dailyHours * 60)%Q in
  Qfloor (dailyMinutes / inject_Z sessionDuration).

(** [Math.ceil(weeklyMinutes / sessionDuration)] with
    [weeklyMinutes = subject.weeklyHours * 60]. *)
Definition sessionsNeededOf (subject : Subject.t) (sessionDuration : Z) : Z :=
  let weeklyMinutes := (Subject.weeklyHours subject * 60)%Q in
  Qceiling (weeklyMinutes / inject_Z sessionDuration).

(** The callback of [subjects.map] in [generateTimetable]. *)
Definition subjectDatum (sessionDuration : Z) (subject : Subject.t) : SubjectData.t :=
  {| SubjectData.subject := subject;
     SubjectData.sessionsNeeded := sessionsNeededOf subject sessionDuration;
     SubjectData.sessionsAssigned := 0;
     SubjectData.priority := comparable (calculatePriority subject) |}.

(** The object pushed on [sessionPool] for a subject. *)
Definition tokenOf (sd : SubjectData.t) : Token.t :=
  let subject := SubjectData.subject sd in
  {| Token.subject := Subject.name subject;
     Token.subjectId := Subject._id subject;
     Token.color := Subject.color subject;
     Token.difficulty := Subject.difficulty subject;
     Token.priority := SubjectData.priority sd |}.

(** The tokens one subject contributes to the pool: the inner [for] loop
    runs while [i < sessionsNeeded]. *)
Definition tokensOf (sd : SubjectData.t) : list Token.t :=
  repeat (tokenOf sd) (Z.to_nat (SubjectData.sessionsNeeded sd)).

(** The comparators [(a, b) => b.priority - a.priority] of the two sorts by
    priority. *)
Definition bySubjectPriority (a b : SubjectData.t) : Q :=
  (SubjectData.priority b - SubjectData.priority a)%Q.

Definition byPriority (a b : Token.t) : Q :=
  (Token.priority b - Token.priority a)%Q.

(* ------------------------------------------------------------------ *)
(** ** Shuffling *)

(** The loop of [shuffleArray], from index [i] down to 1. Each draw stands
    for one value of [Math.floor(Math.random() * (i + 1))], which lies in
    [0..i]; the draw is reduced modulo [i + 1] to stay there. *)
Fixpoint shuffleFrom {A : Type} (i : nat) (rnd : list nat) (shuffled : list A) : list A :=
  match i with
  | O => shuffled
  | S i' =>
      let j := (hd O rnd mod (i + 1))%nat in
      shuffleFrom i' (tl rnd) (JS.swap shuffled i j)
  end.

Definition shuffleArray {A : Type} (rnd : list nat) (array : list A) : list A :=
  shuffleFrom (List.length array - 1) rnd array.

(* ------------------------------------------------------------------ *)
(** ** The weekly allocator *)

Definition isStudy (s : Session.t) : bool :=
  match Session.type s with study => true | break => false end.

Definition isBreak (s : Session.t) : bool :=
  match Session.type s with break => true | study => false end.

(** [day.sessions.filter(s => s.type === 'study').length] *)
Definition studyCount (day : Day.t) : nat :=
  List.length (filter isStudy (Day.sessions day)).

(** The entry [DAYS.map] builds for one day. *)
Definition emptyDay (index : nat) (dayName : string) : Day.t :=
  {| Day.dayOfWeek := index;
     Day.dayName := dayName;
     Day.sessions := [];
     Day.totalStudyMinutes := 0;
     Day.totalBreakMinutes := 0 |}.

(** [DAYS.map((dayName, index) => ...)] *)
Definition initialTimetable : list Day.t :=
  map (fun p => emptyDay (fst p) (snd p)) (combine (seq 0 7) DAYS).

(** [timetable[d]]; the timetable always has the seven entries of [DAYS]. *)
Definition dayAt (timetable : list Day.t) (d : nat) : Day.t :=
  nth d timetable (emptyDay d "").

(** [count < minSessions], where [minSessions] starts as [Infinity]. *)
Definition belowMin (count : nat) (minSessions : option nat) : bool :=
  match minSessions with
  | None => true
  | Some m => (count <? m)%nat
  end.

(** One iteration of the scan [for (let d = 0; d < 7; d++)]; the state is
    [(targetDay, minSessions)]. *)
Definition scanDay (timetable : list Day.t) (maxSessionsPerDay : Z)
    (st : nat * option nat) (d : nat) : nat * option nat :=
  let count := studyCount (dayAt timetable d) in
  if Z.of_nat count <? maxSessionsPerDay then
    if belowMin count (snd st) then (d, Some count) else st
  else st.

(** The day a token is aimed at: the scan over the days 0..6, started from
    [targetDay = currentDay] and [minSessions = Infinity]. *)
Definition findTargetDay (timetable : list Day.t) (maxSessionsPerDay : Z)
    (currentDay : nat) : nat :=
  fst (fold_left (scanDay timetable maxSessionsPerDay) (seq 0 7) (currentDay, None)).

Definition startHour : Z := 8.

(** Where the next session of a day starts: the fixed start of the day when
    the day is empty, else the end time of its last session, read back from
    the formatted string. *)
Definition nextStart (day : Day.t) : Z * Z :=
  match rev (Day.sessions day) with
  | [] => (startHour, 0)
  | lastSession :: _ =>
      match JS.matchTime (Session.endTime lastSession) with
      | Some (h, m, period) =>
          let sessionStartHour := JS.parseInt h in
          let sessionStartMinute := JS.parseInt m in
          let sessionStartHour :=
            if String.eqb (JS.toUpperCase period) "PM" && negb (sessionStartHour =? 12)
            then sessionStartHour + 12 else sessionStartHour in
          let sessionStartHour :=
            if String.eqb (JS.toUpperCase period) "AM" && (sessionStartHour =? 12)
            then 0 else sessionStartHour in
          (sessionStartHour, sessionStartMinute)
      | None => (startHour, 0)
      end
  end.

Definition breakSession (startTime endTime : string) (breakDuration : Z) : Session.t :=
  {| Session.subject := "Break";
     Session.subjectId := None;
     Session.startTime := startTime;
     Session.endTime := endTime;
     Session.duration := breakDuration;
     Session.type := break;
     Session.completed := false;
     Session.color := "#9CA3AF" |}.

(** The state the callback of [sessionPool.forEach] works on. *)
Record Placement := mkPlacement {
  timetable : list Day.t;
  currentDay : nat
}.

(** The body of [sessionPool.forEach((sessionData, index) => ...)]. *)
Definition placeSession (sessionDuration breakDuration maxSessionsPerDay : Z)
    (st : Placement) (sessionData : Token.t) : Placement :=
  let targetDay := findTargetDay (timetable st) maxSessionsPerDay (currentDay st) in
  let day := dayAt (timetable st) targetDay in
  let currentStudySessions := studyCount day in
  if maxSessionsPerDay <=? Z.of_nat currentStudySessions then st
  else
    let '(sessionStartHour, sessionStartMinute) := nextStart day in
    let studyEnd := addMinutes sessionStartHour sessionStartMinute sessionDuration in
    let studySession :=
      {| Session.subject := Token.subject sessionData;
         Session.subjectId := Some (Token.subjectId sessionData);
         Session.startTime := formatTime sessionStartHour sessionStartMinute;
         Session.endTime := formatTime (hours studyEnd) (minutes studyEnd);
         Session.duration := sessionDuration;
         Session.type := study;
         Session.completed := false;
         Session.color := Token.color sessionData |} in
    let day1 :=
      {| Day.dayOfWeek := Day.dayOfWeek day;
         Day.dayName := Day.dayName day;
         Day.sessions := Day.sessions day ++ [studySession];
         Day.totalStudyMinutes := Day.totalStudyMinutes day + sessionDuration;
         Day.totalBreakMinutes := Day.totalBreakMinutes day |} in
    let day2 :=
      if Z.of_nat currentStudySessions <? maxSessionsPerDay - 1 then
        let breakEnd := addMinutes (hours studyEnd) (minutes studyEnd) breakDuration in
        {| Day.dayOfWeek := Day.dayOfWeek day1;
           Day.dayName := Day.dayName day1;
           Day.sessions :=
             Day.sessions day1 ++
             [breakSession (formatTime (hours studyEnd) (minutes studyEnd))
                           (formatTime (hours breakEnd) (minutes breakEnd))
                           breakDuration];
           Day.totalStudyMinutes := Day.totalStudyMinutes day1;
           Day.totalBreakMinutes := Day.totalBreakMinutes day1 + breakDuration |}
      else day1 in
    {| timetable := JS.set_nth targetDay day2 (timetable st);
       currentDay := ((currentDay st + 1) mod 7)%nat |}.

(** The placement pass: [sessionPool.forEach] over the ordered pool. *)
Definition placeSessions (sessionDuration breakDuration maxSessionsPerDay : Z)
    (sessionPool : list Token.t) : Placement :=
  fold_left (placeSession sessionDuration breakDuration maxSessionsPerDay)
            sessionPool
            {| timetable := initialTimetable; currentDay := O |}.

(** A destructuring default, [{ x = d } = preferences]. *)
Definition withDefault {A : Type} (x : option A) (d : A) : A :=
  match x with
  | Some v => v
  | None => d
  end.

(** The comparator of the per-day sort,
    [(DIFFICULTY_WEIGHTS[b.difficulty] || 1) - (DIFFICULTY_WEIGHTS[a.difficulty] || 1)]. *)
Definition byDifficulty (a b : Session.t) : Q :=
  let diffA := JS.orElse (lookupKey DIFFICULTY_WEIGHTS (Session.difficulty a)) 1 in
  let diffB := JS.orElse (lookupKey DIFFICULTY_WEIGHTS (Session.difficulty b)) 1 in
  (diffB - diffA)%Q.

(** The state of a layout loop: the sessions pushed so far and the clock. *)
Record Layout := mkLayout {
  sessions : list Session.t;
  currentHour : Z;
  currentMinute : Z
}.

(** Pushing the break that follows a study session, and moving the clock. *)
Definition pushBreak (breakDuration : Z) (st : Layout) : Layout :=
  let breakEnd := addMinutes (currentHour st) (currentMinute st) breakDuration in
  {| sessions :=
       sessions st ++
       [breakSession (formatTime (currentHour st) (currentMinute st))
                     (formatTime (hours breakEnd) (minutes breakEnd))
                     breakDuration];
     currentHour := hours breakEnd;
     currentMinute := minutes breakEnd |}.

(** A session with its two time strings replaced,
    [{ ...session, startTime, endTime }]. *)
Definition retimed (session : Session.t) (startTime endTime : string) : Session.t :=
  {| Session.subject := Session.subject session;
     Session.subjectId := Session.subjectId session;
     Session.startTime := startTime;
     Session.endTime := endTime;
     Session.duration := Session.duration session;
     Session.type := Session.type session;
     Session.completed := Session.completed session;
     Session.color := Session.color session |}.

(** The body of [studySessions.forEach((session, idx) => ...)] in the
    rebuild of a day; [count] is [studySessions.length]. *)
Definition layoutStudy (sessionDuration breakDuration : Z) (count : nat)
    (st : Layout) (entry : nat * Session.t) : Layout :=
  let '(idx, session) := entry in
  let studyEnd := addMinutes (currentHour st) (currentMinute st) sessionDuration in
  let st1 :=
    {| sessions :=
         sessions st ++
         [retimed session
                  (formatTime (currentHour st) (currentMinute st))
                  (formatTime (hours studyEnd) (minutes studyEnd))];
       currentHour := hours studyEnd;
       currentMinute := minutes studyEnd |} in
  if Z.of_nat idx <? Z.of_nat count - 1 then pushBreak breakDuration st1 else st1.

(** The callback of the closing [timetable.forEach(day => ...)]: the
    sessions of the day are rebuilt from its study sessions; the two totals
    of the day are not assigned. *)
Definition rebuildDay (sessionDuration breakDuration : Z) (day : Day.t) : Day.t :=
  let studySessions := JS.sort byDifficulty (filter isStudy (Day.sessions day)) in
  let count := List.length studySessions in
  let final :=
    fold_left (layoutStudy sessionDuration breakDuration count)
              (combine (seq 0 count) studySessions)
              {| sessions := []; currentHour := startHour; currentMinute := 0 |} in
  {| Day.dayOfWeek := Day.dayOfWeek day;
     Day.dayName := Day.dayName day;
     Day.sessions := sessions final;
     Day.totalStudyMinutes := Day.totalStudyMinutes day;
     Day.totalBreakMinutes := Day.totalBreakMinutes day |}.

(** The ordered pool: the subjects sorted by priority, one token per needed
    session, shuffled, then sorted by priority. *)
Definition sessionPoolOf (rnd : list nat) (subjects : list Subject.t)
    (sessionDuration : Z) : list Token.t :=
  let subjectData :=
    JS.sort bySubjectPriority (map (subjectDatum sessionDuration) subjects) in
  let sessionPool := flat_map tokensOf subjectData in
  let sessionPool := shuffleArray rnd sessionPool in
  JS.sort byPriority sessionPool.

(** [generateTimetable] up to the end of the placement pass. *)
Definition provisionalTimetable (rnd : list nat) (subjects : list Subject.t)
    (preferences : Preferences.t) : list Day.t :=
  let dailyHours := withDefault (Preferences.dailyHours preferences) 4%Q in
  let sessionDuration := withDefault (Preferences.sessionDuration preferences) 25 in
  let breakDuration := withDefault (Preferences.breakDuration preferences) 5 in
  let maxSessionsPerDay := maxSessionsOf dailyHours sessionDuration in
  timetable (placeSessions sessionDuration breakDuration maxSessionsPerDay
                           (sessionPoolOf rnd subjects sessionDuration)).

(** [generateTimetable(subjects, preferences)], with the draws of the
    shuffle as [rnd]. *)
Definition generateTimetable (rnd : list nat) (subjects : list Subject.t)
    (preferences : Preferences.t) : list Day.t :=
  let sessionDuration := withDefault (Preferences.sessionDuration preferences) 25 in
  let breakDuration := withDefault (Preferences.breakDuration preferences) 5 in
  map (rebuildDay sessionDuration breakDuration)
      (provisionalTimetable rnd subjects preferences).

(* ------------------------------------------------------------------ *)
(** ** The day regenerator *)

(** The body of the [for] loop of [regenerateDay]. *)
Definition regenerateStep (sessionDuration breakDuration maxSessions : Z)
    (shuffledSubjects : list Subject.t) (st : Layout) (i : nat) : Layout :=
  match nth_error shuffledSubjects (i mod List.length shuffledSubjects) with
  | None => st
  | Some subject =>
      let studyEnd := addMinutes (currentHour st) (currentMinute st) sessionDuration in
      let st1 :=
        {| sessions :=
             sessions st ++
             [{| Session.subject := Subject.name subject;
                 Session.subjectId := Some (Subject._id subject);
                 Session.startTime := formatTime (currentHour st) (currentMinute st);
                 Session.endTime := formatTime (hours studyEnd) (minutes studyEnd);
                 Session.duration := sessionDuration;
                 Session.type := study;
                 Session.completed := false;
                 Session.color := Subject.color subject |}];
           currentHour := hours studyEnd;
           currentMinute := minutes studyEnd |} in
      if Z.of_nat i <? maxSessions - 1 then pushBreak breakDuration st1 else st1
  end.

(** [regenerateDay(dayTimetable, subjects, preferences)], with the draws of
    the shuffle as [rnd]. The loop runs while
    [i < Math.min(maxSessions, shuffledSubjects.length)]. *)
Definition regenerateDay (rnd : list nat) (dayTimetable : Day.t)
    (subjects : list Subject.t) (preferences : Preferences.t) : list Session.t :=
  let sessionDuration := withDefault (Preferences.sessionDuration preferences) 25 in
  let breakDuration := withDefault (Preferences.breakDuration preferences) 5 in
  let dailyHours := withDefault (Preferences.dailyHours preferences) 4%Q in
  let shuffledSubjects := shuffleArray rnd subjects in
  let maxSessions := maxSessionsOf dailyHours sessionDuration in
  let bound := Z.min maxSessions (Z.of_nat (List.length shuffledSubjects)) in
  sessions
    (fold_left (regenerateStep sessionDuration breakDuration maxSessions shuffledSubjects)
               (seq 0 (Z.to_nat bound))
               {| sessions := []; currentHour := 8; currentMinute := 0 |}).

(* ------------------------------------------------------------------ *)
(** ** Derived quantities the properties speak about *)

Definition sumDurations (l : list Session.t) : Z :=
  fold_right (fun s acc => Session.duration s + acc) 0 l.

(** The sum of the durations of the sessions of one type. *)
Definition studyMinutes (l : list Session.t) : Z := sumDurations (filter isStudy l).
Definition breakMinutes (l : list Session.t) : Z := sumDurations (filter isBreak l).

Definition types (l : list Session.t) : list SessionType := map Session.type l.
Definition subjectsOf (l : list Session.t) : list string := map Session.subject l.


(* ------------------------------------------------------------------ *)
(** ** Predicates used to state the properties of the allocator *)

(** The state of the placement pass is well formed: seven days, each at the
    position of its [dayOfWeek], and the rotating index inside the week. *)
Definition wfPlacement (st : Placement) : Prop :=
  List.length (timetable st) = 7%nat
  /\ (currentDay st < 7)%nat
  /\ forall d, (d < 7)%nat -> Day.dayOfWeek (dayAt (timetable st) d) = d.

(** Day [t] is the least filled day of [tt] still under the capacity: no
    day under the capacity holds fewer study sessions, and the days that
    hold as many come later in the week. *)
Definition leastFilled (tt : list Day.t) (maxSessionsPerDay : Z) (t : nat) : Prop :=
  (t < 7)%nat
  /\ Z.of_nat (studyCount (dayAt tt t)) < maxSessionsPerDay
  /\ forall d, (d < 7)%nat ->
       Z.of_nat (studyCount (dayAt tt d)) < maxSessionsPerDay ->
       (studyCount (dayAt tt t) <= studyCount (dayAt tt d))%nat
       /\ (studyCount (dayAt tt d) = studyCount (dayAt tt t) -> (t <= d)%nat).

(** Every day of [tt] is at capacity. *)
Definition allFull (tt : list Day.t) (maxSessionsPerDay : Z) : Prop :=
  forall d, (d < 7)%nat -> maxSessionsPerDay <= Z.of_nat (studyCount (dayAt tt d)).


(** What the scan has established once the days below [a] are examined. *)
Definition scanInv (tt : list Day.t) (maxSessionsPerDay : Z) (cur a : nat)
    (st : nat * option nat) : Prop :=
  match snd st with
  | None =>
      fst st = cur
      /\ forall d, (d < a)%nat -> maxSessionsPerDay <= Z.of_nat (studyCount (dayAt tt d))
  | Some k =>
      k = studyCount (dayAt tt (fst st))
      /\ (fst st < a)%nat
      /\ Z.of_nat (studyCount (dayAt tt (fst st))) < maxSessionsPerDay
      /\ forall d, (d < a)%nat ->
           Z.of_nat (studyCount (dayAt tt d)) < maxSessionsPerDay ->
           (studyCount (dayAt tt (fst st)) <= studyCount (dayAt tt d))%nat
           /\ (studyCount (dayAt tt d) = studyCount (dayAt tt (fst st)) ->
               (fst st <= d)%nat)
  end.


(** The seven empty days, Monday first. *)
Definition emptyWeek : list Day.t :=
  [ emptyDay 0 "Monday"; emptyDay 1 "Tuesday"; emptyDay 2 "Wednesday";
    emptyDay 3 "Thursday"; emptyDay 4 "Friday"; emptyDay 5 "Saturday";
    emptyDay 6 "Sunday" ].

(** Both totals of a day agree with its session list. *)
Definition totalsMatch (day : Day.t) : Prop :=
  Day.totalStudyMinutes day = studyMinutes (Day.sessions day)
  /\ Day.totalBreakMinutes day = breakMinutes (Day.sessions day).

(** [n] study sessions with one break between each two of them, and no
    break at the end. *)
Fixpoint interleaved (n : nat) : list SessionType :=
  match n with
  | O => []
  | S k => study :: match k with O => [] | S _ => break :: interleaved k end
  end.

(** The types of the sessions iteration [i] of the loop of [regenerateDay]
    pushes. *)
Definition stepTypes (maxSessions : Z) (i : nat) : list SessionType :=
  study :: (if Z.of_nat i <? maxSessions - 1 then [break] else []).

(** Each session starts when the one before it ends, as the strings say. *)
Fixpoint contiguous (l : list Session.t) : Prop :=
  match l with
  | [] => True
  | a :: r =>
      match r with
      | [] => True
      | b :: _ => Session.endTime a = Session.startTime b
      end /\ contiguous r
  end.

(** The rebuild loop read as a recursion: what it pushes for the study
    sessions [l] when the clock stands at [h]:[m]. The loop of [rebuildDay]
    is proved to compute this list. *)
Fixpoint laidOut (sessionDuration breakDuration h m : Z) (l : list Session.t)
    : list Session.t :=
  match l with
  | [] => []
  | session :: r =>
      let studyEnd := addMinutes h m sessionDuration in
      retimed session (formatTime h m) (formatTime (hours studyEnd) (minutes studyEnd))
      :: match r with
         | [] => []
         | _ :: _ =>
             let breakEnd :=
               addMinutes (hours studyEnd) (minutes studyEnd) breakDuration in
             breakSession (formatTime (hours studyEnd) (minutes studyEnd))
                          (formatTime (hours breakEnd) (minutes breakEnd))
                          breakDuration
             :: laidOut sessionDuration breakDuration
                        (hours breakEnd) (minutes breakEnd) r
         end
  end.

(* ------------------------------------------------------------------ *)
(** ** Concrete inputs *)

Module Sample.

(** Four hours a day, 25-minute sessions, 5-minute breaks: nine sessions
    fit in a day. *)
Definition pomodoro : Preferences.t :=
  Preferences.mk (Some 4%Q) (Some 25) (Some 5).

(** Four hours a day, 60-minute sessions, 5-minute breaks: four sessions
    fit in a day. *)
Definition hourly : Preferences.t :=
  Preferences.mk (Some 4%Q) (Some 60) (Some 5).

(** Twenty minutes a day cannot hold one 25-minute session. *)
Definition tooShort : Preferences.t :=
  Preferences.mk (Some (1 # 3)%Q) (Some 25) (Some 5).

Definition math : Subject.t :=
  Subject.mk "s1" "Math" 5 "hard" (Some 5%Q) "#3B82F6".

(** An easy subject with an exam close by, seven hours a week. *)
Definition reading : Subject.t :=
  Subject.mk "s2" "Reading" 7 "easy" (Some 10%Q) "#10B981".

(** A hard subject with no exam in sight, one hour a week. *)
Definition physics : Subject.t :=
  Subject.mk "s3" "Physics" 1 "hard" (Some 0%Q) "#EF4444".

End Sample.

(* ------------------------------------------------------------------ *)
(** ** The remaining helper of the generator *)

From Stdlib Require Import Permutation Sorted Lqa.

(** [distribution[i]++], for an index inside the array. *)
Definition increment_nth (i : nat) (distribution : list Z) : list Z :=
  match nth_error distribution i with
  | Some v => JS.set_nth i (v + 1) distribution
  | None => distribution
  end.

(** [distributeSessionsPerDay(totalSessions, daysCount = 7)]. *)
Definition distributeSessionsPerDay (totalSessions : Z) (daysCount : option nat)
    : list Z :=
  let daysCount := withDefault daysCount 7%nat in
  let basePerDay := totalSessions / Z.of_nat daysCount in
  let remainder := Z.rem totalSessions (Z.of_nat daysCount) in
  fold_left (fun distribution i => increment_nth (i mod daysCount) distribution)
            (seq 0 (Z.to_nat remainder))
            (repeat basePerDay daysCount).

Definition sumZ (l : list Z) : Z := fold_right Z.add 0 l.

(* ------------------------------------------------------------------ *)
(** ** Predicates for the further properties of the generator *)


(** What [nextStart] reads from an end time string: the start computed for a
    day whose last session ends at [endTime]. *)
Definition readClock (endTime : string) : Z * Z :=
  nextStart {| Day.dayOfWeek := 0;
               Day.dayName := "";
               Day.sessions := [breakSession "" endTime 0];
               Day.totalStudyMinutes := 0;
               Day.totalBreakMinutes := 0 |}.

(** The formatted time of [h]:[m] is read back as [h]:[m]. *)
Definition readsBack (h m : nat) : bool :=
  let '(h', m') := readClock (formatTime (Z.of_nat h) (Z.of_nat m)) in
  (h' =? Z.of_nat h) && (m' =? Z.of_nat m).

(** The sessions of a day of the placement pass are laid out in time: they
    are contiguous, the first starts at 8:00 AM, and the last ends at a
    time of day. *)
Definition timed (day : Day.t) : Prop :=
  contiguous (Day.sessions day)
  /\ match Day.sessions day with
     | [] => True
     | first :: _ => Session.startTime first = "8:00 AM"
     end
  /\ match rev (Day.sessions day) with
     | [] => True
     | lastSession :: _ =>
         exists h m, 0 <= h < 24 /\ 0 <= m < 60
                     /\ Session.endTime lastSession = formatTime h m
     end.

(** The study sessions of a week are spread evenly: a later day never holds
    more of them than an earlier day, and never two fewer. *)
Definition balanced (tt : list Day.t) : Prop :=
  forall d d', (d <= d')%nat -> (d' < 7)%nat ->
    (studyCount (dayAt tt d') <= studyCount (dayAt tt d))%nat
    /\ (studyCount (dayAt tt d) <= studyCount (dayAt tt d') + 1)%nat.

(** The number of study sessions of a week. *)
Definition totalStudySessions (tt : list Day.t) : nat :=
  fold_right (fun day acc => (studyCount day + acc)%nat) O tt.


(** A session as the generator makes them: a study session of the
    configured length for one of the subjects, not completed, or the
    standard break of the configured length. *)
Definition generated (subjects : list Subject.t) (sessionDuration breakDuration : Z)
    (s : Session.t) : Prop :=
  Session.completed s = false
  /\ match Session.type s with
     | study =>
         Session.duration s = sessionDuration
         /\ exists subject,
              In subject subjects
              /\ Session.subject s = Subject.name subject
              /\ Session.subjectId s = Some (Subject._id subject)
              /\ Session.color s = Subject.color subject
     | break =>
         Session.duration s = breakDuration
         /\ Session.subject s = "Break"
         /\ Session.subjectId s = None
         /\ Session.color s = "#9CA3AF"
     end.

(* ------------------------------------------------------------------ *)
(** ** The sessions of a subject in a week *)

(** The number of study sessions of a day that carry the name [name]. *)
Definition sessionsOfSubject (name : string) (day : Day.t) : nat :=
  List.length
    (filter (fun s => isStudy s && String.eqb (Session.subject s) name)
            (Day.sessions day)).

(** The same count over the days of a week. *)
Definition weekCount (name : string) (tt : list Day.t) : nat :=
  fold_right (fun day acc => (sessionsOfSubject name day + acc)%nat) O tt.

(** The tokens of a pool that carry the name [name]. *)
Definition tokensNamed (name : string) (pool : list Token.t) : nat :=
  List.length (filter (fun tok => String.eqb (Token.subject tok) name) pool).

(* ------------------------------------------------------------------ *)
(** ** Predicate for the layout loop of the day regenerator *)

(** The sessions pushed so far are contiguous from 8:00 AM and the clock
    stands at the end of the last one. *)
Definition clocked (st : Layout) : Prop :=
  contiguous (sessions st)
  /\ match sessions st with
     | [] => True
     | first :: _ => Session.startTime first = "8:00 AM"
     end
  /\ match rev (sessions st) with
     | [] => formatTime (currentHour st) (currentMinute st) = "8:00 AM"
     | lastSession :: _ =>
         Session.endTime lastSession = formatTime (currentHour st) (currentMinute st)
     end.

(* ------------------------------------------------------------------ *)
(** ** Daily statistics: [models/StudyStats.js] *)

Module StudiedSubject.
(** An entry of [subjectsStudied]. *)
Record t := mk {
  subjectId : option string;
  subjectName : string;
  minutes : Z;
  sessions : Z
}.
End StudiedSubject.

Module StudyStats.
(** The statistics of one day. The streak computation reads [date] only after
    [setHours(0, 0, 0, 0)] and compares it through [getTime()]: the date is
    modelled by the number of its local calendar day, consecutive days having
    consecutive numbers, so that [setDate(getDate() - i)] subtracts [i]. *)
Record t := mk {
  date : Z;
  sessionsCompleted : Z;
  totalStudyMinutes : Z;
  subjectsStudied : list StudiedSubject.t;
  streakDay : bool
}.
End StudyStats.

(** The loop of [calculateStreak] from the index [i] on; [stats] holds the
    elements [stats[i]], [stats[i + 1]], ... that remain. *)
Fixpoint streakFrom (today : Z) (i : nat) (stats : list StudyStats.t) (streak : Z) : Z :=
  match stats with
  | [] => streak
  | stat :: rest =>
      let statDate := StudyStats.date stat in
      let expectedDate := today - Z.of_nat i in
      if (statDate =? expectedDate) && (0 <? StudyStats.sessionsCompleted stat)
      then streakFrom today (S i) rest (streak + 1)
      else if (i =? 0)%nat && negb (statDate =? expectedDate)
      then streakFrom today (S i) rest streak
      else streak
  end.

(** [StudyStats.calculateStreak]: [stats] is the result of the query, the
    statistics of the user with the most recent date first, and [today] the
    day of the call. *)
Definition calculateStreak (today : Z) (stats : list StudyStats.t) : Z :=
  streakFrom today 0 stats 0.

(** The stat is the one of the day [i] days before [today] and records at
    least one completed session. *)
Definition studiedOn (today : Z) (i : nat) (stat : StudyStats.t) : Prop :=
  StudyStats.date stat = today - Z.of_nat i
  /\ 0 < StudyStats.sessionsCompleted stat.

(** The order of the query, with the one document per day that the unique
    index on [(userId, date)] allows. *)
Definition mostRecentFirst (stats : list StudyStats.t) : Prop :=
  StronglySorted (fun a b => StudyStats.date b < StudyStats.date a) stats.

(* ------------------------------------------------------------------ *)
(** ** Marking a session: the statistics updates of
       [PUT /api/timetable/session/:day/:sessionId] *)

Module Statistics.
(** [user.statistics]; an instant is its number of milliseconds. *)
Record t := mk {
  completedSessions : Z;
  totalStudyMinutes : Z;
  streak : Z;
  lastStudyDate : option Z
}.
End Statistics.

(** [array.findIndex(p)], with [None] for [-1]. *)
Fixpoint findIndex {A : Type} (p : A -> bool) (a : list A) : option nat :=
  match a with
  | [] => None
  | x :: rest => if p x then Some O else option_map S (findIndex p rest)
  end.

Section Clock.

(** [d.setHours(0, 0, 0, 0)] on the instant [d]: the instant of the local
    midnight that starts the day of [d]. It depends on the time zone of the
    server. *)
Variable startOfDay : Z -> Z.

(** The branch [completed && !wasCompleted] on [user.statistics]; [now] and
    [now'] are the instants of its two [new Date()], in this order. *)
Definition markCompleted (now now' : Z) (session : Session.t)
    (statistics : Statistics.t) : Statistics.t :=
  let completedSessions := Statistics.completedSessions statistics + 1 in
  let totalStudyMinutes :=
    Statistics.totalStudyMinutes statistics + Session.duration session in
  let lastStudyDate := Some now in
  let today := startOfDay now' in
  let streak :=
    match lastStudyDate with
    | Some lastStudy =>
        let lastStudy := startOfDay lastStudy in
        let dayDiff := (today - lastStudy) / (1000 * 60 * 60 * 24) in
        if dayDiff <=? 1 then Statistics.streak statistics + 1 else 1
    | None => 1
    end in
  {| Statistics.completedSessions := completedSessions;
     Statistics.totalStudyMinutes := totalStudyMinutes;
     Statistics.streak := streak;
     Statistics.lastStudyDate := lastStudyDate |}.

(** The branch [!completed && wasCompleted] on [user.statistics]. *)
Definition markIncomplete (session : Session.t) (statistics : Statistics.t)
    : Statistics.t :=
  {| Statistics.completedSessions :=
       Z.max 0 (Statistics.completedSessions statistics - 1);
     Statistics.totalStudyMinutes :=
       Z.max 0 (Statistics.totalStudyMinutes statistics - Session.duration session);
     Statistics.streak := Statistics.streak statistics;
     Statistics.lastStudyDate := Statistics.lastStudyDate statistics |}.

(** What the handler does to [user.statistics]: [session] is the session as
    it was found, before [session.completed = completed]. *)
Definition updateStatistics (now now' : Z) (completed : bool) (session : Session.t)
    (statistics : Statistics.t) : Statistics.t :=
  let wasCompleted := Session.completed session in
  if isStudy session then
    if completed && negb wasCompleted then markCompleted now now' session statistics
    else if negb completed && wasCompleted then markIncomplete session statistics
    else statistics
  else statistics.

End Clock.

(** [session.completed = completed] *)
Definition setCompleted (completed : bool) (session : Session.t) : Session.t :=
  {| Session.subject := Session.subject session;
     Session.subjectId := Session.subjectId session;
     Session.startTime := Session.startTime session;
     Session.endTime := Session.endTime session;
     Session.duration := Session.duration session;
     Session.type := Session.type session;
     Session.completed := completed;
     Session.color := Session.color session |}.

(** The entry of a subject after one more session of it:
    [minutes += session.duration; sessions += 1]. *)
Definition studiedAgain (session : Session.t) (entry : StudiedSubject.t)
    : StudiedSubject.t :=
  {| StudiedSubject.subjectId := StudiedSubject.subjectId entry;
     StudiedSubject.subjectName := StudiedSubject.subjectName entry;
     StudiedSubject.minutes := StudiedSubject.minutes entry + Session.duration session;
     StudiedSubject.sessions := StudiedSubject.sessions entry + 1 |}.

(** "Add subject to today's stats": the entry of the subject of the session
    is updated, or pushed when there is none. *)
Definition addStudied (session : Session.t) (subjectsStudied : list StudiedSubject.t)
    : list StudiedSubject.t :=
  let subjectIdx :=
    findIndex (fun s => String.eqb (StudiedSubject.subjectName s) (Session.subject session))
              subjectsStudied in
  match subjectIdx with
  | Some subjectIdx =>
      match nth_error subjectsStudied subjectIdx with
      | Some entry => JS.set_nth subjectIdx (studiedAgain session entry) subjectsStudied
      | None => subjectsStudied
      end
  | None =>
      subjectsStudied ++
      [{| StudiedSubject.subjectId := Session.subjectId session;
          StudiedSubject.subjectName := Session.subject session;
          StudiedSubject.minutes := Session.duration session;
          StudiedSubject.sessions := 1 |}]
  end.

(** The branch [completed && !wasCompleted] on the statistics of the day. *)
Definition completeToday (session : Session.t) (todayStats : StudyStats.t)
    : StudyStats.t :=
  {| StudyStats.date := StudyStats.date todayStats;
     StudyStats.sessionsCompleted := StudyStats.sessionsCompleted todayStats + 1;
     StudyStats.totalStudyMinutes :=
       StudyStats.totalStudyMinutes todayStats + Session.duration session;
     StudyStats.subjectsStudied :=
       addStudied session (StudyStats.subjectsStudied todayStats);
     StudyStats.streakDay := true |}.

(** The branch [!completed && wasCompleted] on the statistics of the day. *)
Definition uncompleteToday (session : Session.t) (todayStats : StudyStats.t)
    : StudyStats.t :=
  {| StudyStats.date := StudyStats.date todayStats;
     StudyStats.sessionsCompleted :=
       Z.max 0 (StudyStats.sessionsCompleted todayStats - 1);
     StudyStats.totalStudyMinutes :=
       Z.max 0 (StudyStats.totalStudyMinutes todayStats - Session.duration session);
     StudyStats.subjectsStudied := StudyStats.subjectsStudied todayStats;
     StudyStats.streakDay := StudyStats.streakDay todayStats |}.

(** What the handler does to the statistics of the day. *)
Definition updateToday (completed : bool) (session : Session.t)
    (todayStats : StudyStats.t) : StudyStats.t :=
  let wasCompleted := Session.completed session in
  if isStudy session then
    if completed && negb wasCompleted then completeToday session todayStats
    else if negb completed && wasCompleted then uncompleteToday session todayStats
    else todayStats
  else todayStats.

(** The minutes and the sessions that the entries of [subjectsStudied] add
    up to. *)
Definition minutesStudied (l : list StudiedSubject.t) : Z :=
  sumZ (map StudiedSubject.minutes l).
Definition sessionsStudied (l : list StudiedSubject.t) : Z :=
  sumZ (map StudiedSubject.sessions l).

(** The totals of the day are those of its breakdown by subject. *)
Definition breakdownMatches (todayStats : StudyStats.t) : Prop :=
  StudyStats.totalStudyMinutes todayStats
  = minutesStudied (StudyStats.subjectsStudied todayStats)
  /\ StudyStats.sessionsCompleted todayStats
     = sessionsStudied (StudyStats.subjectsStudied todayStats).

(* ------------------------------------------------------------------ *)
(** ** Saving a day: the [pre('save')] hook of [models/Timetable.js] *)





(* ------------------------------------------------------------------ *)
(** ** Updating the preferences: [PUT /api/users/profile] *)

(** The preference fields of [updateData] for the [preferences] of the
    request body; a field the handler does not set is [None]. *)
Definition preferencesUpdate (preferences : option Preferences.t) : Preferences.t :=
  match preferences with
  | None =>
      {| Preferences.dailyHours := None;
         Preferences.sessionDuration := None;
         Preferences.breakDuration := None |}
  | Some preferences =>
      {| Preferences.dailyHours :=
           match Preferences.dailyHours preferences with
           | Some dailyHours =>
               if Qeq_bool dailyHours 0 then None
               else Some (Qmin 12 (Qmax 1 dailyHours))
           | None => None
           end;
         Preferences.sessionDuration :=
           match Preferences.sessionDuration preferences with
           | Some sessionDuration =>
               if sessionDuration =? 0 then None
               else if existsb (Z.eqb sessionDuration) [25; 45; 60]
               then Some sessionDuration else None
           | None => None
           end;
         Preferences.breakDuration :=
           match Preferences.breakDuration preferences with
           | Some breakDuration =>
               if breakDuration =? 0 then None
               else if existsb (Z.eqb breakDuration) [5; 10; 15]
               then Some breakDuration else None
           | None => None
           end |}
  end.

(** [{ $set: updateData }] on the stored preferences: the paths of
    [updateData] are overwritten, the others kept. *)
Definition setPreferences (stored updateData : Preferences.t) : Preferences.t :=
  let pick {A : Type} (new old : option A) : option A :=
    match new with Some v => Some v | None => old end in
  {| Preferences.dailyHours :=
       pick (Preferences.dailyHours updateData) (Preferences.dailyHours stored);
     Preferences.sessionDuration :=
       pick (Preferences.sessionDuration updateData) (Preferences.sessionDuration stored);
     Preferences.breakDuration :=
       pick (Preferences.breakDuration updateData) (Preferences.breakDuration stored) |}.

(** Preferences whose fields, where present, are in the ranges the profile
    route lets through. *)
Definition allowedPreferences (p : Preferences.t) : Prop :=
  match Preferences.dailyHours p with
  | Some dailyHours => (1 <= dailyHours <= 12)%Q
  | None => True
  end
  /\ match Preferences.sessionDuration p with
     | Some sessionDuration => In sessionDuration [25; 45; 60]
     | None => True
     end
  /\ match Preferences.breakDuration p with
     | Some breakDuration => In breakDuration [5; 10; 15]
     | None => True
     end.

(* ------------------------------------------------------------------ *)
(** ** Creating a subject: [POST /api/subjects] *)

Definition colorPalette : list string :=
  ["#3B82F6"; "#10B981"; "#F59E0B"; "#EF4444"; "#8B5CF6";
   "#EC4899"; "#06B6D4"; "#84CC16"; "#F97316"; "#6366F1"].

Module SubjectRequest.
(** The fields the route reads from the request body. *)
Record t := mk {
  name : option string;
  weeklyHours : option Q;
  difficulty : option string;
  color : option string;
  examPriority : option Q
}.
End SubjectRequest.

(** A string read as a condition: [undefined] and the empty string are
    falsy. *)
Definition truthyString (x : option string) : option string :=
  match x with
  | Some s => if String.eqb s "" then None else Some s
  | None => None
  end.

(** A number read as a condition: [undefined] and zero are falsy. *)
Definition truthyNumber (x : option Q) : option Q :=
  match x with
  | Some q => if Qeq_bool q 0 then None else Some q
  | None => None
  end.

Section NewSubject.

(** [String.prototype.trim], which the schema applies to [name] when the
    document is built. *)
Variable trim : string -> string.

(** The document [POST /api/subjects] builds, or [None] when it answers 400:
    [existingSubject] tells whether the query for a subject of the same name
    found one, [subjectCount] is the number of subjects of the user and
    [_id] the identifier the new document receives. *)
Definition newSubject (request : SubjectRequest.t) (existingSubject : bool)
    (subjectCount : nat) (_id : string) : option Subject.t :=
  match truthyString (SubjectRequest.name request),
        truthyNumber (SubjectRequest.weeklyHours request) with
  | Some name, Some weeklyHours =>
      if existingSubject then None
      else
        let assignedColor :=
          withDefault (truthyString (SubjectRequest.color request))
                      (nth (subjectCount mod List.length colorPalette) colorPalette "") in
        Some {| Subject._id := _id;
                Subject.name := trim name;
                Subject.weeklyHours := Qmin 40 (Qmax 1 weeklyHours);
                Subject.difficulty :=
                  withDefault (truthyString (SubjectRequest.difficulty request)) "medium";
                Subject.examPriority :=
                  Some (JS.orElse (SubjectRequest.examPriority request) 0);
                Subject.color := assignedColor |}
  | _, _ => None
  end.

End NewSubject.

(* ------------------------------------------------------------------ *)
(** ** The dashboard: the day indices of [js/app.js] *)

(** [today === 0 ? 6 : today - 1] in [renderTodaySchedule], for the value
    [today] of [getDay()]. *)
Definition dayIndexOf (today : nat) : nat :=
  if (today =? 0)%nat then 6%nat else (today - 1)%nat.

(** [index === 6 ? 0 : index + 1] in [renderWeeklyChart]: the value of
    [getDay()] the column [index] shows. *)
Definition getDayOf (index : nat) : nat :=
  if (index =? 6)%nat then 0%nat else (index + 1)%nat.

(** The labels of the columns of the weekly chart. *)
Definition chartDays : list string := ["Mon"; "Tue"; "Wed"; "Thu"; "Fri"; "Sat"; "Sun"].

(** Every day carries the name of its number, as the generator and the
    regenerate route label the days they build. *)
Definition labelled (timetable : list Day.t) : Prop :=
  Forall (fun day => Day.dayName day = nth (Day.dayOfWeek day) DAYS "") timetable.

(** [timetable.find(t => t.dayOfWeek === dayIndex)] *)
Definition todayTimetable (today : nat) (timetable : list Day.t) : option Day.t :=
  let dayIndex := dayIndexOf today in
  find (fun t => (Day.dayOfWeek t =? dayIndex)%nat) timetable.

(* ------------------------------------------------------------------ *)
(** ** Recording a session: [POST /api/stats/session] *)

(** What the handler does to [user.statistics], or [None] when it answers
    400 for a missing duration: [now] is the instant of its [new Date()],
    and [today] and [stats] are the day and the result of the query of
    [calculateStreak], which runs before the statistics of the day are
    updated. *)
Definition recordSession (now today : Z) (stats : list StudyStats.t) (duration : Z)
    (statistics : Statistics.t) : option Statistics.t :=
  if duration =? 0 then None
  else
    let streak := calculateStreak today stats in
    Some {| Statistics.completedSessions := Statistics.completedSessions statistics + 1;
            Statistics.totalStudyMinutes :=
              Statistics.totalStudyMinutes statistics + duration;
            Statistics.streak := streak + 1;
            Statistics.lastStudyDate := Some now |}.

(* ------------------------------------------------------------------ *)
(** ** The bearer token: [middleware/auth.js] *)

(** [s.startsWith(prefix)] *)
Fixpoint startsWith (s prefix : string) {struct prefix} : bool :=
  match prefix, s with
  | EmptyString, _ => true
  | String p prefix', String c s' => Ascii.eqb c p && startsWith s' prefix'
  | String _ _, EmptyString => false
  end.

(** [s.slice(n)] *)
Fixpoint slice (s : string) (n : nat) : string :=
  match n, s with
  | O, _ => s
  | S n', String _ s' => slice s' n'
  | S _, EmptyString => EmptyString
  end.

(** [s.replace(pattern, replacement)] for a string pattern: the first
    occurrence is replaced, if there is one. *)
Fixpoint replace (s pattern replacement : string) : string :=
  if startsWith s pattern then (replacement ++ slice s (String.length pattern))%string
  else
    match s with
    | EmptyString => EmptyString
    | String c s' => String c (replace s' pattern replacement)
    end.

(** How far the middleware gets with the [Authorization] header before it
    verifies the token. *)
Inductive Extraction :=
| noAuthorizationHeader
| invalidTokenFormat
| noTokenProvided
| bearer (token : string).

Definition extractToken (authHeader : option string) : Extraction :=
  match truthyString authHeader with
  | None => noAuthorizationHeader
  | Some authHeader =>
      if negb (startsWith authHeader "Bearer ") then invalidTokenFormat
      else
        let token := replace authHeader "Bearer " "" in
        if String.eqb token "" then noTokenProvided else bearer token
  end.

(* ------------------------------------------------------------------ *)
(** ** Examples: the helpers on concrete values *)

Example formatTime_8 : formatTime 8 0 = "8:00 AM".
Proof. reflexivity. Qed.

Example formatTime_noon : formatTime 12 5 = "12:05 PM".
Proof. reflexivity. Qed.

Example formatTime_midnight : formatTime 0 30 = "12:30 AM".
Proof. reflexivity. Qed.

Example addMinutes_wrap : addMinutes 23 50 25 = mkClock 0 15.
Proof. reflexivity. Qed.

Example matchTime_example : JS.matchTime "ends 12:05pm" = Some ("12", "05", "pm").
Proof. reflexivity. Qed.

(** The end time of the last session is read back as the next start. *)
Example nextStart_afternoon :
  nextStart
    {| Day.dayOfWeek := 0; Day.dayName := "Monday";
       Day.sessions := [breakSession "12:55 PM" "1:05 PM" 10];
       Day.totalStudyMinutes := 0; Day.totalBreakMinutes := 10 |}
  = (13, 5).
Proof. reflexivity. Qed.

Example nextStart_after_midnight :
  nextStart
    {| Day.dayOfWeek := 0; Day.dayName := "Monday";
       Day.sessions := [breakSession "11:55 PM" "12:05 AM" 10];
       Day.totalStudyMinutes := 0; Day.totalBreakMinutes := 10 |}
  = (0, 5).
Proof. reflexivity. Qed.

Example shuffleArray_example : shuffleArray [5; 7; 1]%nat [1; 2; 3; 4] = [1; 3; 4; 2].
Proof. reflexivity. Qed.

Example sort_is_stable :
  JS.sort (fun a b => inject_Z (fst b - fst a))
          [(1, "a"); (3, "b"); (1, "c"); (3, "d"); (2, "e")]
  = [(3, "b"); (3, "d"); (2, "e"); (1, "a"); (1, "c")].
Proof. reflexivity. Qed.

Example priority_math : (comparable (calculatePriority Sample.math) == 2)%Q.
Proof. reflexivity. Qed.

Example priority_toString :
  calculatePriority (Subject.mk "s4" "Art" 5 "toString" (Some 5%Q) "#F59E0B") = JS.NaN.
Proof. reflexivity. Qed.

(* ------------------------------------------------------------------ *)
(** ** Properties of the time arithmetic *)

Section TimeArithmetic.

Lemma addMinutes_nonneg (h m d : Z) :
  0 <= h -> 0 <= m -> 0 <= d ->
  addMinutes h m d = clockOfMinutes (h * 60 + m + d).
Proof.
  intros Hh Hm Hd. unfold addMinutes, clockOfMinutes.
  set (t := h * 60 + m + d).
  assert (Ht : 0 <= t) by (unfold t; lia).
  assert (Hq : 0 <= t / 60) by (apply Z.div_pos; lia).
  rewrite !Z.rem_mod_nonneg by lia.
  f_equal; Z.div_mod_to_equations; lia.
Qed.

Lemma clockOfMinutes_range (t : Z) :
  0 <= hours (clockOfMinutes t) < 24 /\ 0 <= minutes (clockOfMinutes t) < 60.
Proof.
  unfold clockOfMinutes; simpl.
  pose proof (Z.mod_pos_bound t 1440 ltac:(lia)) as Hb.
  split.
  - split; [apply Z.div_pos; lia | apply Z.div_lt_upper_bound; lia].
  - apply Z.mod_pos_bound; lia.
Qed.

Lemma clockOfMinutes_total (t : Z) :
  hours (clockOfMinutes t) * 60 + minutes (clockOfMinutes t) = t mod 1440.
Proof.
  unfold clockOfMinutes; simpl.
  pose proof (Z.div_mod (t mod 1440) 60 ltac:(lia)). lia.
Qed.

End TimeArithmetic.

(** C8. [addMinutes] composes modulo one day: for non-negative hours,
    minutes, d1 and d2, adding d1 and then d2 gives the same (hours, minutes)
    pair as adding d1 + d2 at once, and both are the total number of minutes
    modulo 1440 split into hour of day and minute. *)
Theorem addMinutes_compose (h m d1 d2 : Z) :
  0 <= h -> 0 <= m -> 0 <= d1 -> 0 <= d2 ->
  let t1 := addMinutes h m d1 in
  addMinutes (hours t1) (minutes t1) d2 = addMinutes h m (d1 + d2)
  /\ addMinutes h m (d1 + d2) = clockOfMinutes (h * 60 + m + d1 + d2).
Proof.
  intros Hh Hm H1 H2 t1. subst t1.
  rewrite (addMinutes_nonneg h m d1) by assumption.
  destruct (clockOfMinutes_range (h * 60 + m + d1)) as [Hhr Hmr].
  rewrite addMinutes_nonneg by lia.
  rewrite (addMinutes_nonneg h m (d1 + d2)) by lia.
  rewrite clockOfMinutes_total.
  replace (h * 60 + m + (d1 + d2)) with (h * 60 + m + d1 + d2) by lia.
  split; [|reflexivity].
  unfold clockOfMinutes.
  rewrite Z.add_mod_idemp_l by lia. reflexivity.
Qed.

Lemma addMinutes_compose_witness :
  (0 <= 23 /\ 0 <= 50 /\ 0 <= 25 /\ 0 <= 1500)
  /\ addMinutes (hours (addMinutes 23 50 25)) (minutes (addMinutes 23 50 25)) 1500
      = addMinutes 23 50 (25 + 1500)
  /\ addMinutes 23 50 (25 + 1500) = clockOfMinutes (23 * 60 + 50 + 25 + 1500).
Proof.
  split; [lia|]. apply (addMinutes_compose 23 50 25 1500); lia.
Defined.

(* ------------------------------------------------------------------ *)
(** ** Priority scorer and demand calculator *)

Section Scoring.

Lemma lookup_weights (d : string) :
  JS.orElse (lookup DIFFICULTY_WEIGHTS d) 1 =
  if String.eqb d "easy" then 1%Q
  else if String.eqb d "medium" then (3 # 2)%Q
  else if String.eqb d "hard" then 2%Q
  else 1%Q.
Proof.
  unfold DIFFICULTY_WEIGHTS, lookup.
  rewrite (String.eqb_sym "easy" d), (String.eqb_sym "medium" d),
          (String.eqb_sym "hard" d).
  destruct (String.eqb d "easy"); [reflexivity|].
  destruct (String.eqb d "medium"); [reflexivity|].
  destruct (String.eqb d "hard"); reflexivity.
Qed.

Lemma inherited_iff (d : string) :
  existsb (String.eqb d) OBJECT_PROTOTYPE = true <-> In d OBJECT_PROTOTYPE.
Proof.
  rewrite existsb_exists. split.
  - intros (k & Hin & E). apply String.eqb_eq in E. subst k. exact Hin.
  - intro Hin. exists d. split; [exact Hin | apply String.eqb_refl].
Qed.

(** A difficulty that names no member of [Object.prototype] weighs what the
    table says, and 1 when the table does not hold it. *)
Lemma weight_of_difficulty (d : string) :
  ~ In d OBJECT_PROTOTYPE ->
  JS.logicalOr (getProperty DIFFICULTY_WEIGHTS d) (JS.number 1)
  = JS.number (if String.eqb d "easy" then 1%Q
               else if String.eqb d "medium" then (3 # 2)%Q
               else if String.eqb d "hard" then 2%Q
               else 1%Q).
Proof.
  intro Hd. unfold getProperty, DIFFICULTY_WEIGHTS, lookup.
  rewrite (String.eqb_sym "easy" d), (String.eqb_sym "medium" d),
          (String.eqb_sym "hard" d).
  destruct (String.eqb d "easy"); [reflexivity|].
  destruct (String.eqb d "medium"); [reflexivity|].
  destruct (String.eqb d "hard"); [reflexivity|].
  destruct (existsb (String.eqb d) OBJECT_PROTOTYPE) eqn:E; [|reflexivity].
  apply inherited_iff in E. contradiction.
Qed.

(** A difficulty that names a member of [Object.prototype] finds that
    member, which is truthy: the fallback is not taken. *)
Lemma weight_of_inherited (d : string) :
  In d OBJECT_PROTOTYPE ->
  JS.logicalOr (getProperty DIFFICULTY_WEIGHTS d) (JS.number 1) = JS.object.
Proof.
  intro Hd. unfold getProperty.
  assert (Hown : lookup DIFFICULTY_WEIGHTS d = None).
  { simpl in Hd.
    repeat (destruct Hd as [<- | Hd]; [reflexivity|]). destruct Hd. }
  rewrite Hown. apply inherited_iff in Hd. rewrite Hd. reflexivity.
Qed.

Lemma orElse_zero (x : option Q) :
  (JS.orElse x 0 == match x with Some e => e | None => 0 end)%Q.
Proof.
  destruct x as [e|]; simpl; [|reflexivity].
  destruct (Qeq_bool e 0) eqn:E; [|reflexivity].
  apply Qeq_bool_iff in E. symmetry. exact E.
Qed.

Lemma Qmin_cases (x y : Q) :
  (Qmin x y == if Qle_bool x y then x else y)%Q.
Proof.
  destruct (Qle_bool x y) eqn:E.
  - apply Q.min_l. apply Qle_bool_iff. exact E.
  - apply Q.min_r. apply Qlt_le_weak. apply Qnot_le_lt.
    intro H. apply Qle_bool_iff in H. congruence.
Qed.

End Scoring.

(** For a difficulty that names no member of [Object.prototype] the priority
    is the number difficultyWeight * examWeight * hoursWeight, with
    difficultyWeight 1 for easy, 1.5 for medium, 2 for hard and 1 for every
    other such difficulty, examWeight = 1 + 0.2 * examPriority where an
    absent examPriority counts as 0, and
    hoursWeight = min(weeklyHours / 10, 2). *)
Lemma calculatePriority_number (s : Subject.t) :
  let d := Subject.difficulty s in
  let difficultyWeight :=
    if String.eqb d "easy" then 1%Q
    else if String.eqb d "medium" then (15 # 10)%Q
    else if String.eqb d "hard" then 2%Q
    else 1%Q in
  let examPriority :=
    match Subject.examPriority s with Some e => e | None => 0%Q end in
  let examWeight := (1 + (2 # 10) * examPriority)%Q in
  let hoursWeight :=
    if Qle_bool (Subject.weeklyHours s / 10) 2
    then (Subject.weeklyHours s / 10)%Q else 2%Q in
  ~ In d OBJECT_PROTOTYPE ->
  exists priority,
    calculatePriority s = JS.number priority
    /\ (priority == difficultyWeight * examWeight * hoursWeight)%Q.
Proof.
  intros d dw ep ew hw Hd. unfold calculatePriority.
  rewrite (weight_of_difficulty (Subject.difficulty s) Hd). fold d. cbn [JS.mul].
  eexists. split; [reflexivity|].
  rewrite orElse_zero. fold ep.
  rewrite Qmin_cases. fold hw.
  assert (Hdw : ((if String.eqb d "easy" then 1
                  else if String.eqb d "medium" then 3 # 2
                  else if String.eqb d "hard" then 2 else 1) == dw)%Q).
  { unfold dw. destruct (String.eqb d "easy"); [reflexivity|].
    destruct (String.eqb d "medium"); [reflexivity|].
    destruct (String.eqb d "hard"); reflexivity. }
  rewrite Hdw. unfold ew. rewrite (Qmult_comm ep). reflexivity.
Qed.

(** For a difficulty that names a member of [Object.prototype] the priority
    is [NaN]. *)
Lemma calculatePriority_inherited (s : Subject.t) :
  In (Subject.difficulty s) OBJECT_PROTOTYPE -> calculatePriority s = JS.NaN.
Proof.
  intro Hd. unfold calculatePriority.
  rewrite (weight_of_inherited _ Hd). reflexivity.
Qed.

(** C6. The priority score is not 1 * examWeight * hoursWeight for every
    unknown difficulty. A subject whose difficulty is ["constructor"] gets
    the score [NaN], whatever its other fields: the read
    [DIFFICULTY_WEIGHTS[subject.difficulty]] finds the member the object
    literal inherits from [Object.prototype], which is truthy, so that the
    fallback [|| 1] is not taken and the product with it is not a number. *)
Theorem calculatePriority_inherited_difficulty (_id name color : string)
    (weeklyHours : Q) (examPriority : option Q) :
  calculatePriority (Subject.mk _id name weeklyHours "constructor" examPriority color)
  = JS.NaN.
Proof.
  apply calculatePriority_inherited. cbn [Subject.difficulty].
  left. reflexivity.
Qed.



(* ------------------------------------------------------------------ *)
(** ** Arrays: updates, the stable sort *)

Section Arrays.

Context {A : Type}.

Lemma set_nth_length (i : nat) (v : A) (a : list A) :
  List.length (JS.set_nth i v a) = List.length a.
Proof.
  revert i; induction a as [|x r IH]; intros [|i]; simpl; auto.
Qed.

Lemma nth_set_nth_same (i : nat) (v dflt : A) (a : list A) :
  (i < List.length a)%nat -> nth i (JS.set_nth i v a) dflt = v.
Proof.
  revert i; induction a as [|x r IH]; intros [|i] H; simpl in *; try lia; auto.
  apply IH. lia.
Qed.

Lemma nth_set_nth_other (i j : nat) (v dflt : A) (a : list A) :
  i <> j -> nth j (JS.set_nth i v a) dflt = nth j a dflt.
Proof.
  revert i j; induction a as [|x r IH]; intros [|i] [|j] H; simpl; auto.
  - congruence.
Qed.

Lemma insert_length (cmp : A -> A -> Q) (x : A) (l : list A) :
  List.length (JS.insert cmp x l) = S (List.length l).
Proof.
  induction l as [|y r IH]; simpl; [reflexivity|].
  destruct (Qle_bool (cmp x y) 0); simpl; congruence.
Qed.

Lemma sort_length (cmp : A -> A -> Q) (l : list A) :
  List.length (JS.sort cmp l) = List.length l.
Proof.
  induction l as [|x r IH]; simpl; [reflexivity|].
  rewrite insert_length. congruence.
Qed.

Lemma insert_Forall (P : A -> Prop) (cmp : A -> A -> Q) (x : A) (l : list A) :
  P x -> Forall P l -> Forall P (JS.insert cmp x l).
Proof.
  intros Hx Hl. induction Hl as [|y r Hy Hr IH]; simpl.
  - constructor; [exact Hx | constructor].
  - destruct (Qle_bool (cmp x y) 0); repeat constructor; assumption.
Qed.

Lemma sort_Forall (P : A -> Prop) (cmp : A -> A -> Q) (l : list A) :
  Forall P l -> Forall P (JS.sort cmp l).
Proof.
  induction 1 as [|x r Hx Hr IH]; simpl; [constructor|].
  apply insert_Forall; assumption.
Qed.

Lemma Forall_set_nth (P : A -> Prop) (i : nat) (v : A) (a : list A) :
  Forall P a -> P v -> Forall P (JS.set_nth i v a).
Proof.
  intros Ha Hv. revert i. induction Ha as [|x r Hx Hr IH]; intros [|i]; simpl;
    constructor; auto.
Qed.

Lemma set_nth_repeat (x : A) (i n : nat) : JS.set_nth i x (repeat x n) = repeat x n.
Proof.
  revert i. induction n as [|n IH]; intros [|i]; simpl; try reflexivity.
  rewrite IH. reflexivity.
Qed.

Lemma swap_repeat (x : A) (n i j : nat) : JS.swap (repeat x n) i j = repeat x n.
Proof.
  unfold JS.swap.
  destruct (nth_error (repeat x n) i) as [y|] eqn:Ei; [|reflexivity].
  destruct (nth_error (repeat x n) j) as [z|] eqn:Ej; [|reflexivity].
  apply nth_error_In, repeat_spec in Ei. apply nth_error_In, repeat_spec in Ej.
  subst. rewrite !set_nth_repeat. reflexivity.
Qed.

Lemma shuffleArray_repeat (rnd : list nat) (x : A) (n : nat) :
  shuffleArray rnd (repeat x n) = repeat x n.
Proof.
  unfold shuffleArray. generalize (List.length (repeat x n) - 1)%nat as i.
  intro i. revert rnd. induction i as [|i IH]; intro rnd; simpl; [reflexivity|].
  rewrite swap_repeat. apply IH.
Qed.

Lemma sort_repeat (cmp : A -> A -> Q) (x : A) (n : nat) :
  Qle_bool (cmp x x) 0 = true -> JS.sort cmp (repeat x n) = repeat x n.
Proof.
  intro H. induction n as [|n IH]; simpl; [reflexivity|].
  rewrite IH. destruct n; simpl; [reflexivity|]. rewrite H. reflexivity.
Qed.

Lemma nth_error_set_nth (l : list A) (i j : nat) (y : A) :
  nth_error l j = Some y -> nth_error (JS.set_nth i y l) j = Some y.
Proof.
  revert i j. induction l as [|x l IH]; intros [|i] [|j] H; simpl in *;
    try discriminate; auto.
Qed.

Lemma set_nth_count (p : A -> bool) (l : list A) (i : nat) (old v : A) :
  nth_error l i = Some old ->
  (List.length (filter p (JS.set_nth i v l)) + (if p old then 1 else 0)
   = List.length (filter p l) + (if p v then 1 else 0))%nat.
Proof.
  revert i. induction l as [|x l IH]; intros [|i] H; simpl in *; try discriminate.
  - injection H as ->. destruct (p old), (p v); simpl; lia.
  - specialize (IH i H). destruct (p x); simpl; lia.
Qed.

Lemma swap_count (p : A -> bool) (l : list A) (i j : nat) :
  List.length (filter p (JS.swap l i j)) = List.length (filter p l).
Proof.
  unfold JS.swap.
  destruct (nth_error l i) as [x|] eqn:Ei; [|reflexivity].
  destruct (nth_error l j) as [y|] eqn:Ej; [|reflexivity].
  pose proof (set_nth_count p l i x y Ei) as H1.
  pose proof (set_nth_count p (JS.set_nth i y l) j y x (nth_error_set_nth l i j y Ej)) as H2.
  destruct (p x), (p y); lia.
Qed.

Lemma swap_Forall (P : A -> Prop) (l : list A) (i j : nat) :
  Forall P l -> Forall P (JS.swap l i j).
Proof.
  intro H. unfold JS.swap.
  destruct (nth_error l i) as [x|] eqn:Ei; [|exact H].
  destruct (nth_error l j) as [y|] eqn:Ej; [|exact H].
  rewrite Forall_forall in H.
  pose proof (H x (nth_error_In _ _ Ei)). pose proof (H y (nth_error_In _ _ Ej)).
  apply Forall_set_nth; [apply Forall_set_nth|]; try assumption.
  apply Forall_forall. exact H.
Qed.

Lemma shuffleArray_count (p : A -> bool) (rnd : list nat) (l : list A) :
  List.length (filter p (shuffleArray rnd l)) = List.length (filter p l).
Proof.
  unfold shuffleArray. generalize (List.length l - 1)%nat as i.
  intro i. revert rnd l. induction i as [|i IH]; intros rnd l; simpl; [reflexivity|].
  rewrite IH. apply swap_count.
Qed.

Lemma shuffleArray_Forall (P : A -> Prop) (rnd : list nat) (l : list A) :
  Forall P l -> Forall P (shuffleArray rnd l).
Proof.
  unfold shuffleArray. generalize (List.length l - 1)%nat as i.
  intro i. revert rnd l. induction i as [|i IH]; intros rnd l H; simpl; [exact H|].
  apply IH. apply swap_Forall. exact H.
Qed.

End Arrays.

Lemma dayAt_set_nth_same (t : nat) (day : Day.t) (tt : list Day.t) :
  (t < List.length tt)%nat -> dayAt (JS.set_nth t day tt) t = day.
Proof. intro H. unfold dayAt. apply nth_set_nth_same. exact H. Qed.

Lemma dayAt_set_nth_other (t d : nat) (day : Day.t) (tt : list Day.t) :
  d <> t -> dayAt (JS.set_nth t day tt) d = dayAt tt d.
Proof. intro H. unfold dayAt. apply nth_set_nth_other. congruence. Qed.

(* ------------------------------------------------------------------ *)
(** ** The ordered pool does not depend on the shuffle when tokens of equal
       priority are equal *)

Section OrderedPool.

Variables a b : Token.t.
Variable cls : Token.t -> bool.
Hypothesis cls_a : cls a = true.
Hypothesis cls_b : cls b = false.
Hypothesis lower : (Token.priority b < Token.priority a)%Q.

Lemma cmp_same (x : Token.t) : Qle_bool (byPriority x x) 0 = true.
Proof.
  apply Qle_bool_iff. unfold byPriority.
  destruct (Token.priority x) as [n d].
  unfold Qle, Qminus, Qplus, Qopp. simpl. lia.
Qed.

Lemma cmp_a_b : Qle_bool (byPriority a b) 0 = true.
Proof.
  apply Qle_bool_iff. unfold byPriority. revert lower.
  destruct (Token.priority a) as [na da], (Token.priority b) as [nb db].
  unfold Qlt, Qle, Qminus, Qplus, Qopp. simpl. lia.
Qed.

Lemma cmp_b_a : Qle_bool (byPriority b a) 0 = false.
Proof.
  destruct (Qle_bool (byPriority b a) 0) eqn:E; [|reflexivity].
  apply Qle_bool_iff in E. unfold byPriority in E. revert lower E.
  destruct (Token.priority a) as [na da], (Token.priority b) as [nb db].
  unfold Qlt, Qle, Qminus, Qplus, Qopp. simpl. lia.
Qed.

Lemma insert_a (m n : nat) :
  JS.insert byPriority a (repeat a m ++ repeat b n) = a :: repeat a m ++ repeat b n.
Proof.
  destruct m as [|m]; simpl.
  - destruct n as [|n]; simpl; [reflexivity|]. rewrite cmp_a_b. reflexivity.
  - rewrite cmp_same. reflexivity.
Qed.

Lemma insert_b (m n : nat) :
  JS.insert byPriority b (repeat a m ++ repeat b n) = repeat a m ++ b :: repeat b n.
Proof.
  induction m as [|m IH]; simpl.
  - destruct n as [|n]; simpl; [reflexivity|]. rewrite cmp_same. reflexivity.
  - rewrite cmp_b_a, IH. reflexivity.
Qed.

Lemma sort_two_classes (l : list Token.t) :
  Forall (fun x => x = if cls x then a else b) l ->
  JS.sort byPriority l
  = repeat a (List.length (filter cls l))
    ++ repeat b (List.length (filter (fun x => negb (cls x)) l)).
Proof.
  induction 1 as [|x l Hx Hl IH]; simpl; [reflexivity|].
  rewrite IH. destruct (cls x) eqn:E; rewrite Hx; simpl.
  - apply insert_a.
  - apply insert_b.
Qed.

Lemma sort_shuffle_two_classes (rnd : list nat) (m n : nat) :
  JS.sort byPriority (shuffleArray rnd (repeat a m ++ repeat b n))
  = repeat a m ++ repeat b n.
Proof.
  assert (Ha : forall k, filter cls (repeat a k) = repeat a k).
  { induction k; simpl; [reflexivity|]. rewrite cls_a, IHk. reflexivity. }
  assert (Hb : forall k, filter cls (repeat b k) = []).
  { induction k; simpl; [reflexivity|]. rewrite cls_b. exact IHk. }
  assert (Ha' : forall k, filter (fun x => negb (cls x)) (repeat a k) = []).
  { induction k; simpl; [reflexivity|]. rewrite cls_a. exact IHk. }
  assert (Hb' : forall k, filter (fun x => negb (cls x)) (repeat b k) = repeat b k).
  { induction k; simpl; [reflexivity|]. rewrite cls_b. simpl. rewrite IHk. reflexivity. }
  rewrite sort_two_classes.
  - rewrite !shuffleArray_count, !filter_app, Ha, Hb, Ha', Hb', app_nil_r.
    simpl. rewrite !repeat_length. reflexivity.
  - apply shuffleArray_Forall. apply Forall_app. split; apply Forall_forall;
      intros x Hin; apply repeat_spec in Hin; subst x.
    + rewrite cls_a. reflexivity.
    + rewrite cls_b. reflexivity.
Qed.


End OrderedPool.

(** With one subject the pool is its tokens, whatever the draws. *)
Lemma sessionPoolOf_single (rnd : list nat) (subject : Subject.t) (sessionDuration : Z) :
  sessionPoolOf rnd [subject] sessionDuration
  = tokensOf (subjectDatum sessionDuration subject).
Proof.
  unfold sessionPoolOf. cbn [map JS.sort JS.insert flat_map]. rewrite app_nil_r.
  unfold tokensOf. rewrite shuffleArray_repeat. apply sort_repeat. apply cmp_same.
Qed.

(* ------------------------------------------------------------------ *)
(** ** The scan for the target day *)

Section Scan.

Variable tt : list Day.t.
Variable maxSessionsPerDay : Z.
Variable cur : nat.

(** The day [d] below [S a] is the day [a] just scanned or a day scanned
    before it. *)
Ltac last_or_before d a H :=
  assert (d = a \/ (d < a)%nat) as [->|H] by lia.

Lemma scanDay_inv (a : nat) (st : nat * option nat) :
  scanInv tt maxSessionsPerDay cur a st ->
  scanInv tt maxSessionsPerDay cur (S a) (scanDay tt maxSessionsPerDay st a).
Proof.
  destruct st as [t m]. unfold scanDay.
  destruct (Z.ltb_spec (Z.of_nat (studyCount (dayAt tt a))) maxSessionsPerDay)
    as [Hlt|Hge].
  - destruct m as [k|]; cbn [snd belowMin].
    + destruct (Nat.ltb_spec (studyCount (dayAt tt a)) k) as [Hk|Hk];
        unfold scanInv; cbn [fst snd]; intros (Ek & Ht & Hc & Hmin).
      * split; [reflexivity|]. split; [lia|]. split; [exact Hlt|].
        intros d Hd Hdc.
        last_or_before d a Hd'; [lia|].
        destruct (Hmin d Hd' Hdc) as [Hle _]. lia.
      * split; [exact Ek|]. split; [lia|]. split; [exact Hc|].
        intros d Hd Hdc.
        last_or_before d a Hd'; [lia|].
        apply Hmin; assumption.
    + unfold scanInv; cbn [fst snd]; intros (Et & Hfull).
      split; [reflexivity|]. split; [lia|]. split; [exact Hlt|].
      intros d Hd Hdc.
      last_or_before d a Hd'; [lia|].
      specialize (Hfull d Hd'). lia.
  - unfold scanInv. destruct m as [k|]; cbn [fst snd].
    + intros (Ek & Ht & Hc & Hmin).
      split; [exact Ek|]. split; [lia|]. split; [exact Hc|].
      intros d Hd Hdc.
      last_or_before d a Hd'; [lia|].
      apply Hmin; assumption.
    + intros (Et & Hfull). split; [exact Et|].
      intros d Hd.
      last_or_before d a Hd'; [exact Hge|].
      apply Hfull; assumption.
Qed.

Lemma scan_fold_inv (n a : nat) (st : nat * option nat) :
  scanInv tt maxSessionsPerDay cur a st ->
  scanInv tt maxSessionsPerDay cur (a + n)
          (fold_left (scanDay tt maxSessionsPerDay) (seq a n) st).
Proof.
  revert a st. induction n as [|n IH]; intros a st H; simpl.
  - rewrite Nat.add_0_r. exact H.
  - replace (a + S n)%nat with (S a + n)%nat by lia.
    apply IH. apply scanDay_inv. exact H.
Qed.

(** The scan either finds every day at capacity and keeps [cur], or returns
    the least filled day under the capacity. *)
Lemma findTargetDay_spec :
  (allFull tt maxSessionsPerDay /\ findTargetDay tt maxSessionsPerDay cur = cur)
  \/ leastFilled tt maxSessionsPerDay (findTargetDay tt maxSessionsPerDay cur).
Proof.
  unfold findTargetDay.
  assert (H0 : scanInv tt maxSessionsPerDay cur 0 (cur, None)).
  { split; [reflexivity|]. intros d Hd. lia. }
  apply (scan_fold_inv 7 0) in H0. simpl Nat.add in H0.
  destruct (fold_left (scanDay tt maxSessionsPerDay) (seq 0 7) (cur, None))
    as [t [k|]]; unfold scanInv in H0; cbn [fst snd] in H0 |- *.
  - right. destruct H0 as (_ & Ht & Hc & Hmin).
    split; [exact Ht|]. split; [exact Hc | exact Hmin].
  - left. destruct H0 as [-> Hfull]. split; [exact Hfull | reflexivity].
Qed.

End Scan.

(* ------------------------------------------------------------------ *)
(** ** One step of the placement pass *)

Section PlacementStep.

Variables sessionDuration breakDuration maxSessionsPerDay : Z.

(** The two outcomes of [placeSession]: the token is dropped because every
    day is at capacity, or it lands on the least filled day. *)
Lemma placeSession_cases (st : Placement) (tok : Token.t) :
  wfPlacement st ->
  let st' := placeSession sessionDuration breakDuration maxSessionsPerDay st tok in
  (allFull (timetable st) maxSessionsPerDay /\ st' = st)
  \/ exists t day',
       leastFilled (timetable st) maxSessionsPerDay t
       /\ timetable st' = JS.set_nth t day' (timetable st)
       /\ currentDay st' = ((currentDay st + 1) mod 7)%nat
       /\ Day.dayOfWeek day' = Day.dayOfWeek (dayAt (timetable st) t)
       /\ exists s rest,
            Day.sessions day' = Day.sessions (dayAt (timetable st) t) ++ s :: rest
            /\ Session.type s = study
            /\ Session.subject s = Token.subject tok
            /\ Session.subjectId s = Some (Token.subjectId tok)
            /\ filter isStudy rest = [].
Proof.
  intros (Hlen & Hcur & Hdow) st'. subst st'. unfold placeSession.
  destruct (findTargetDay_spec (timetable st) maxSessionsPerDay (currentDay st))
    as [[Hfull Htarget] | Hleast].
  - left. split; [exact Hfull|].
    rewrite Htarget.
    destruct (Z.leb_spec maxSessionsPerDay
                (Z.of_nat (studyCount (dayAt (timetable st) (currentDay st)))))
      as [_|Hlt]; [reflexivity|].
    specialize (Hfull (currentDay st) Hcur). lia.
  - right.
    set (t := findTargetDay (timetable st) maxSessionsPerDay (currentDay st)) in *.
    pose proof Hleast as (Ht & Hc & Hmin).
    destruct (Z.leb_spec maxSessionsPerDay
                (Z.of_nat (studyCount (dayAt (timetable st) t)))) as [Hge|_];
      [lia|].
    destruct (nextStart (dayAt (timetable st) t)) as [h m].
    destruct (Z.of_nat (studyCount (dayAt (timetable st) t)) <? maxSessionsPerDay - 1).
    + eexists t, _. split; [exact Hleast|].
      split; [reflexivity|]. split; [reflexivity|]. split; [reflexivity|].
      cbn [Day.sessions]. rewrite <- app_assoc. cbn [app].
      eexists _, [_]. split; [reflexivity|].
      repeat split; reflexivity.
    + eexists t, _. split; [exact Hleast|].
      split; [reflexivity|]. split; [reflexivity|]. split; [reflexivity|].
      cbn [Day.sessions].
      eexists _, []. split; [reflexivity|].
      repeat split; reflexivity.
Qed.

Lemma placeSession_wf (st : Placement) (tok : Token.t) :
  wfPlacement st ->
  wfPlacement (placeSession sessionDuration breakDuration maxSessionsPerDay st tok).
Proof.
  intro Hwf.
  destruct (placeSession_cases st tok Hwf)
    as [[_ ->] | (t & day' & Hleast & Ett & Ecur & Edow & _)];
    [exact Hwf|].
  destruct Hwf as (Hlen & Hcur & Hdow). unfold wfPlacement.
  rewrite Ett, Ecur, set_nth_length. split; [exact Hlen|].
  split; [apply Nat.mod_upper_bound; lia|].
  intros d Hd. destruct (Nat.eq_dec d t) as [->|Hne].
  - rewrite dayAt_set_nth_same by lia. rewrite Edow. apply Hdow. exact Hd.
  - rewrite dayAt_set_nth_other by exact Hne. apply Hdow. exact Hd.
Qed.

End PlacementStep.

(* ------------------------------------------------------------------ *)
(** ** The placement pass as a whole *)

Section PlacementPass.

Variables sessionDuration breakDuration maxSessionsPerDay : Z.

Lemma initial_wf :
  wfPlacement {| timetable := initialTimetable; currentDay := O |}.
Proof.
  split; [reflexivity|]. split; [simpl; lia|].
  intros d Hd. simpl timetable.
  do 7 (destruct d as [|d]; [reflexivity|]). lia.
Qed.




Lemma studyCount_grow (day day' : Day.t) (s : Session.t) (rest : list Session.t) :
  Day.sessions day' = Day.sessions day ++ s :: rest ->
  Session.type s = study ->
  filter isStudy rest = [] ->
  studyCount day' = S (studyCount day).
Proof.
  intros E Hs Hrest. unfold studyCount. rewrite E, filter_app. simpl.
  unfold isStudy at 2. rewrite Hs, Hrest, length_app. simpl. lia.
Qed.




End PlacementPass.



(* ------------------------------------------------------------------ *)
(** ** The rebuild of a day *)

Section Rebuild.

Variables sessionDuration breakDuration : Z.

Lemma pushBreak_sessions (st : Layout) :
  filter isStudy (sessions (pushBreak breakDuration st)) = filter isStudy (sessions st).
Proof.
  unfold pushBreak. cbn [sessions]. rewrite filter_app. simpl. apply app_nil_r.
Qed.

Lemma layoutStudy_studies (count : nat) (st : Layout) (entry : nat * Session.t) :
  isStudy (snd entry) = true ->
  List.length (filter isStudy
                 (sessions (layoutStudy sessionDuration breakDuration count st entry)))
  = S (List.length (filter isStudy (sessions st))).
Proof.
  destruct entry as [idx session]. cbn [snd]. intro Hs. unfold layoutStudy.
  destruct (Z.of_nat idx <? Z.of_nat count - 1);
    [rewrite pushBreak_sessions|]; cbn [sessions];
    rewrite filter_app, length_app; simpl;
    unfold isStudy in Hs |- *; cbn [retimed Session.type]; rewrite Hs; simpl; lia.
Qed.

Lemma layout_fold_studies (count : nat) (entries : list (nat * Session.t)) (st : Layout) :
  Forall (fun e => isStudy (snd e) = true) entries ->
  List.length (filter isStudy
                 (sessions (fold_left (layoutStudy sessionDuration breakDuration count)
                                      entries st)))
  = (List.length (filter isStudy (sessions st)) + List.length entries)%nat.
Proof.
  intro H. revert st. induction H as [|e entries He _ IH]; intro st; simpl.
  - lia.
  - rewrite IH, layoutStudy_studies by exact He. lia.
Qed.

(** The rebuild keeps the number of study sessions of the day. *)
Lemma rebuildDay_studyCount (day : Day.t) :
  studyCount (rebuildDay sessionDuration breakDuration day) = studyCount day.
Proof.
  unfold studyCount at 1. unfold rebuildDay. cbn [Day.sessions].
  set (studySessions := JS.sort byDifficulty (filter isStudy (Day.sessions day))).
  assert (Hall : Forall (fun s => isStudy s = true) studySessions).
  { apply sort_Forall. apply Forall_forall. intros s Hin.
    apply filter_In in Hin. tauto. }
  rewrite layout_fold_studies.
  - cbn [sessions filter List.length]. rewrite length_combine, length_seq.
    unfold studySessions. rewrite sort_length. unfold studyCount. lia.
  - apply Forall_forall. intros [i s] Hin. cbn [snd].
    apply in_combine_r in Hin.
    rewrite Forall_forall in Hall. apply Hall. exact Hin.
Qed.


End Rebuild.




(* ------------------------------------------------------------------ *)
(** ** Degenerate inputs *)

Lemma placeSession_zero_capacity (sessionDuration breakDuration : Z)
    (st : Placement) (tok : Token.t) :
  placeSession sessionDuration breakDuration 0 st tok = st.
Proof.
  unfold placeSession.
  destruct (Z.leb_spec 0 (Z.of_nat (studyCount
              (dayAt (timetable st) (findTargetDay (timetable st) 0 (currentDay st))))));
    [reflexivity | lia].
Qed.

Lemma placeSessions_zero_capacity (sessionDuration breakDuration : Z)
    (pool : list Token.t) :
  placeSessions sessionDuration breakDuration 0 pool
  = {| timetable := initialTimetable; currentDay := O |}.
Proof.
  unfold placeSessions.
  generalize {| timetable := initialTimetable; currentDay := O |} as st.
  induction pool as [|tok pool IH]; intro st; simpl; [reflexivity|].
  rewrite placeSession_zero_capacity. apply IH.
Qed.

(** C9. [generateTimetable] degrades instead of failing. It is a total
    function; for an empty list of subjects it returns the seven days
    Monday to Sunday, dayOfWeek 0..6, each with no session and both totals
    zero; and when floor(dailyHours * 60 / sessionDuration) is 0 (for a
    positive sessionDuration) it returns the same seven empty days, so no
    study session is placed on any day. *)
Theorem generateTimetable_degrades (rnd : list nat) (subjects : list Subject.t)
    (preferences : Preferences.t) :
  let dailyHours := withDefault (Preferences.dailyHours preferences) 4%Q in
  let sessionDuration := withDefault (Preferences.sessionDuration preferences) 25 in
  generateTimetable rnd [] preferences = emptyWeek
  /\ (0 < sessionDuration ->
      maxSessionsOf dailyHours sessionDuration = 0 ->
      generateTimetable rnd subjects preferences = emptyWeek
      /\ Forall (fun day => studyCount day = O)
                (generateTimetable rnd subjects preferences)).
Proof.
  intros dailyHours sessionDuration. split; [reflexivity|].
  intros _ Hmax.
  assert (E : generateTimetable rnd subjects preferences = emptyWeek).
  { unfold generateTimetable, provisionalTimetable.
    fold dailyHours sessionDuration. rewrite Hmax.
    rewrite placeSessions_zero_capacity. reflexivity. }
  split; [exact E|]. rewrite E. repeat constructor.
Qed.

Lemma generateTimetable_degrades_witness :
  (0 < 25 /\ maxSessionsOf (1 # 3) 25 = 0)
  /\ generateTimetable [] [] Sample.tooShort = emptyWeek
  /\ generateTimetable [] [Sample.math] Sample.tooShort = emptyWeek
  /\ Forall (fun day => studyCount day = O)
            (generateTimetable [] [Sample.math] Sample.tooShort).
Proof.
  split; [split; reflexivity|].
  split.
  - exact (proj1 (generateTimetable_degrades [] [Sample.math] Sample.tooShort)).
  - exact (proj2 (generateTimetable_degrades [] [Sample.math] Sample.tooShort)
                 eq_refl eq_refl).
Defined.

(* ------------------------------------------------------------------ *)
(** ** Totals: what the two passes keep and what they lose *)

Section Totals.

Variables sessionDuration breakDuration : Z.

Lemma sumDurations_app (a b : list Session.t) :
  sumDurations (a ++ b) = sumDurations a + sumDurations b.
Proof.
  induction a as [|x a IH]; simpl; [reflexivity|]. rewrite IH. lia.
Qed.

Lemma studyMinutes_app (a b : list Session.t) :
  studyMinutes (a ++ b) = studyMinutes a + studyMinutes b.
Proof. unfold studyMinutes. rewrite filter_app. apply sumDurations_app. Qed.

Lemma breakMinutes_app (a b : list Session.t) :
  breakMinutes (a ++ b) = breakMinutes a + breakMinutes b.
Proof. unfold breakMinutes. rewrite filter_app. apply sumDurations_app. Qed.

Lemma Forall_dayAt (P : Day.t -> Prop) (tt : list Day.t) (d : nat) :
  Forall P tt -> P (emptyDay d "") -> P (dayAt tt d).
Proof.
  intros Hall Hdflt. unfold dayAt.
  destruct (nth_in_or_default d tt (emptyDay d "")) as [Hin | ->];
    [|exact Hdflt].
  rewrite Forall_forall in Hall. apply Hall. exact Hin.
Qed.

(** During the placement pass the totals follow the sessions. *)
Lemma placeSession_totals (maxSessionsPerDay : Z) (st : Placement) (tok : Token.t) :
  Forall totalsMatch (timetable st) ->
  Forall totalsMatch
    (timetable (placeSession sessionDuration breakDuration maxSessionsPerDay st tok)).
Proof.
  intro Hall. unfold placeSession.
  set (t := findTargetDay (timetable st) maxSessionsPerDay (currentDay st)).
  assert (Hday : totalsMatch (dayAt (timetable st) t)).
  { apply Forall_dayAt; [exact Hall | split; reflexivity]. }
  destruct Hday as [Hs Hb].
  destruct (maxSessionsPerDay <=? Z.of_nat (studyCount (dayAt (timetable st) t)));
    [exact Hall|].
  destruct (nextStart (dayAt (timetable st) t)) as [h m].
  destruct (Z.of_nat (studyCount (dayAt (timetable st) t)) <? maxSessionsPerDay - 1);
    cbn [timetable]; apply Forall_set_nth; try exact Hall;
    split; cbn [Day.sessions Day.totalStudyMinutes Day.totalBreakMinutes];
    rewrite ?studyMinutes_app, ?breakMinutes_app, Hs || rewrite ?breakMinutes_app, Hb;
    unfold studyMinutes, breakMinutes; simpl; lia.
Qed.

Lemma provisional_totals (maxSessionsPerDay : Z) (pool : list Token.t) :
  Forall totalsMatch
    (timetable (placeSessions sessionDuration breakDuration maxSessionsPerDay pool)).
Proof.
  unfold placeSessions.
  assert (H0 : Forall totalsMatch
                 (timetable {| timetable := initialTimetable; currentDay := O |})).
  { simpl. unfold initialTimetable. simpl. repeat constructor. }
  revert H0. generalize {| timetable := initialTimetable; currentDay := O |} as st.
  induction pool as [|tok pool IH]; intros st H; simpl; [exact H|].
  apply IH. apply placeSession_totals. exact H.
Qed.

End Totals.

(* ------------------------------------------------------------------ *)
(** ** The layout a rebuilt day gets *)

Section Layout.

Variables sessionDuration breakDuration : Z.

(** The loop of the rebuild pushes exactly [laidOut]. *)
Lemma layout_fold_laidOut (count : nat) (l : list Session.t) (a : nat) (st : Layout) :
  (a + List.length l = count)%nat ->
  sessions (fold_left (layoutStudy sessionDuration breakDuration count)
                      (combine (seq a (List.length l)) l) st)
  = sessions st
    ++ laidOut sessionDuration breakDuration (currentHour st) (currentMinute st) l.
Proof.
  revert a st. induction l as [|x r IH]; intros a st Hlen.
  - simpl. rewrite app_nil_r. reflexivity.
  - cbn [List.length seq combine fold_left].
    simpl in Hlen.
    rewrite (IH (S a)) by lia.
    unfold layoutStudy.
    destruct r as [|y r'].
    + simpl in Hlen.
      destruct (Z.ltb_spec (Z.of_nat a) (Z.of_nat count - 1)) as [H|H]; [lia|].
      cbn [sessions laidOut]. rewrite app_nil_r. reflexivity.
    + simpl in Hlen.
      destruct (Z.ltb_spec (Z.of_nat a) (Z.of_nat count - 1)) as [H|H]; [|lia].
      unfold pushBreak. cbn [sessions currentHour currentMinute].
      cbn [laidOut]. rewrite <- !app_assoc. reflexivity.
Qed.

Lemma rebuildDay_sessions (day : Day.t) :
  Day.sessions (rebuildDay sessionDuration breakDuration day)
  = laidOut sessionDuration breakDuration startHour 0
            (JS.sort byDifficulty (filter isStudy (Day.sessions day))).
Proof.
  unfold rebuildDay. cbn [Day.sessions].
  rewrite layout_fold_laidOut by reflexivity. reflexivity.
Qed.

(** The placed sessions have no difficulty to compare: the sort of the
    rebuild returns its argument. *)
Lemma sort_byDifficulty (l : list Session.t) : JS.sort byDifficulty l = l.
Proof.
  induction l as [|x r IH]; simpl; [reflexivity|].
  rewrite IH. destruct r; reflexivity.
Qed.

Lemma laidOut_types (h m : Z) (l : list Session.t) :
  Forall (fun s => Session.type s = study) l ->
  types (laidOut sessionDuration breakDuration h m l) = interleaved (List.length l).
Proof.
  intro H. revert h m. induction H as [|x r Hx Hr IH]; intros h m; [reflexivity|].
  cbn [laidOut types map List.length interleaved retimed Session.type].
  rewrite Hx. f_equal.
  destruct r as [|y r']; [reflexivity|].
  change (interleaved (List.length (y :: r')))
    with (study :: match List.length r' with
                   | O => []
                   | S _ => break :: interleaved (List.length r')
                   end) in IH |- *.
  cbn [map breakSession Session.type List.length]. f_equal.
  apply IH.
Qed.

Lemma laidOut_contiguous (h m : Z) (l : list Session.t) :
  contiguous (laidOut sessionDuration breakDuration h m l)
  /\ match laidOut sessionDuration breakDuration h m l with
     | [] => True
     | first :: _ => Session.startTime first = formatTime h m
     end.
Proof.
  revert h m. induction l as [|x r IH]; intros h m; [split; exact I|].
  cbn [laidOut]. destruct r as [|y r'].
  - repeat split.
  - set (e := addMinutes h m sessionDuration).
    set (b := addMinutes (hours e) (minutes e) breakDuration).
    destruct (IH (hours b) (minutes b)) as [Hc Hfirst].
    cbn [laidOut] in Hc, Hfirst. fold b in Hc, Hfirst.
    split; [|reflexivity].
    cbn [contiguous]. split; [reflexivity|]. split; [|exact Hc].
    cbn [laidOut]. rewrite Hfirst. reflexivity.
Qed.

Lemma studyMinutes_cons (x : Session.t) (l : list Session.t) :
  studyMinutes (x :: l)
  = (if isStudy x then Session.duration x else 0) + studyMinutes l.
Proof. unfold studyMinutes. simpl. destruct (isStudy x); reflexivity. Qed.

Lemma breakMinutes_cons (x : Session.t) (l : list Session.t) :
  breakMinutes (x :: l)
  = (if isBreak x then Session.duration x else 0) + breakMinutes l.
Proof. unfold breakMinutes. simpl. destruct (isBreak x); reflexivity. Qed.

Lemma laidOut_studyMinutes (h m : Z) (l : list Session.t) :
  Forall (fun s => Session.type s = study) l ->
  studyMinutes (laidOut sessionDuration breakDuration h m l) = sumDurations l.
Proof.
  intro H. revert h m. induction H as [|x r Hx Hr IH]; intros h m; [reflexivity|].
  cbn [laidOut]. rewrite studyMinutes_cons.
  unfold isStudy at 1. cbn [retimed Session.type Session.duration]. rewrite Hx.
  cbn [sumDurations fold_right]. f_equal.
  destruct r as [|y r']; [reflexivity|].
  rewrite studyMinutes_cons. unfold isStudy at 1.
  cbn [breakSession Session.type]. rewrite IH. reflexivity.
Qed.

Lemma laidOut_breakMinutes (h m : Z) (l : list Session.t) :
  Forall (fun s => Session.type s = study) l ->
  breakMinutes (laidOut sessionDuration breakDuration h m l)
  = breakDuration * Z.of_nat (pred (List.length l)).
Proof.
  intro H. revert h m. induction H as [|x r Hx Hr IH]; intros h m.
  - cbn [laidOut List.length pred]. change (breakMinutes []) with 0. lia.
  - cbn [laidOut]. rewrite breakMinutes_cons.
    unfold isBreak at 1. cbn [retimed Session.type]. rewrite Hx.
    destruct r as [|y r'].
    + cbn [List.length pred]. change (breakMinutes []) with 0. lia.
    + rewrite breakMinutes_cons. unfold isBreak at 1.
      cbn [breakSession Session.type Session.duration]. rewrite IH.
      cbn [List.length pred]. lia.
Qed.

End Layout.

(* ------------------------------------------------------------------ *)
(** ** What every returned day looks like *)

Section ReturnedDays.

Variable rnd : list nat.
Variable subjects : list Subject.t.
Variable preferences : Preferences.t.

Lemma filter_isStudy_types (l : list Session.t) :
  Forall (fun s => Session.type s = study) (filter isStudy l).
Proof.
  apply Forall_forall. intros s Hin. apply filter_In in Hin.
  destruct Hin as [_ H]. unfold isStudy in H.
  destruct (Session.type s); [reflexivity | discriminate].
Qed.

Lemma laidOut_studies (sessionDuration breakDuration h m : Z) (l : list Session.t) :
  Forall (fun s => Session.type s = study) l ->
  subjectsOf (filter isStudy (laidOut sessionDuration breakDuration h m l))
  = subjectsOf l.
Proof.
  intro H. revert h m. induction H as [|x r Hx Hr IH]; intros h m; [reflexivity|].
  cbn [laidOut filter]. unfold isStudy at 1. cbn [retimed Session.type]. rewrite Hx.
  cbn [subjectsOf map retimed Session.subject]. f_equal.
  destruct r as [|y r']; [reflexivity|].
  cbn [filter]. unfold isStudy at 1. cbn [breakSession Session.type].
  apply IH.
Qed.

(** A returned day is the rebuild of a day of the placement pass. *)
Lemma returned_day_origin (day : Day.t) :
  In day (generateTimetable rnd subjects preferences) ->
  exists provisional,
    In provisional (provisionalTimetable rnd subjects preferences)
    /\ day = rebuildDay (withDefault (Preferences.sessionDuration preferences) 25)
                        (withDefault (Preferences.breakDuration preferences) 5)
                        provisional.
Proof.
  unfold generateTimetable. intro Hin. apply in_map_iff in Hin.
  destruct Hin as (prov & E & Hin). exists prov. split; [exact Hin | symmetry; exact E].
Qed.

(** The totals of a returned day: the study total agrees with the returned
    sessions; the break total is the one of the placement pass, while the
    returned sessions hold one break less than study sessions. *)
Lemma returned_day_totals (day : Day.t) :
  In day (generateTimetable rnd subjects preferences) ->
  Day.totalStudyMinutes day = studyMinutes (Day.sessions day)
  /\ breakMinutes (Day.sessions day)
     = withDefault (Preferences.breakDuration preferences) 5
       * Z.of_nat (pred (studyCount day))
  /\ exists provisional,
       In provisional (provisionalTimetable rnd subjects preferences)
       /\ Day.totalBreakMinutes day = breakMinutes (Day.sessions provisional).
Proof.
  intro Hin. destruct (returned_day_origin day Hin) as (prov & Hprov & ->).
  set (sd := withDefault (Preferences.sessionDuration preferences) 25).
  set (bd := withDefault (Preferences.breakDuration preferences) 5).
  assert (Hmatch : totalsMatch prov).
  { pose proof (provisional_totals sd bd
        (maxSessionsOf (withDefault (Preferences.dailyHours preferences) 4%Q) sd)
        (sessionPoolOf rnd subjects sd)) as Hall.
    rewrite Forall_forall in Hall. apply Hall. exact Hprov. }
  destruct Hmatch as [Hs Hb].
  pose proof (filter_isStudy_types (Day.sessions prov)) as Hty.
  split; [|split].
  - rewrite rebuildDay_sessions, sort_byDifficulty, laidOut_studyMinutes by exact Hty.
    cbn [rebuildDay Day.totalStudyMinutes]. exact Hs.
  - rewrite rebuildDay_studyCount.
    rewrite rebuildDay_sessions, sort_byDifficulty, laidOut_breakMinutes by exact Hty.
    reflexivity.
  - exists prov. split; [exact Hprov|]. cbn [rebuildDay Day.totalBreakMinutes]. exact Hb.
Qed.

(** The layout of a returned day: its study sessions with exactly one break
    between two of them and none at the end, contiguous from 8:00 AM, the
    study sessions in the order in which the placement pass put them on the
    day. *)
Lemma returned_day_layout (day : Day.t) :
  In day (generateTimetable rnd subjects preferences) ->
  types (Day.sessions day) = interleaved (studyCount day)
  /\ contiguous (Day.sessions day)
  /\ match Day.sessions day with
     | [] => True
     | first :: _ => Session.startTime first = "8:00 AM"
     end
  /\ exists provisional,
       In provisional (provisionalTimetable rnd subjects preferences)
       /\ subjectsOf (filter isStudy (Day.sessions day))
          = subjectsOf (filter isStudy (Day.sessions provisional)).
Proof.
  intro Hin. destruct (returned_day_origin day Hin) as (prov & Hprov & ->).
  set (sd := withDefault (Preferences.sessionDuration preferences) 25).
  set (bd := withDefault (Preferences.breakDuration preferences) 5).
  pose proof (filter_isStudy_types (Day.sessions prov)) as Hty.
  rewrite rebuildDay_studyCount, rebuildDay_sessions, sort_byDifficulty.
  destruct (laidOut_contiguous sd bd startHour 0 (filter isStudy (Day.sessions prov)))
    as [Hc Hfirst].
  split; [|split; [exact Hc|split; [exact Hfirst|]]].
  - rewrite laidOut_types by exact Hty. reflexivity.
  - exists prov. split; [exact Hprov|]. apply laidOut_studies. exact Hty.
Qed.

End ReturnedDays.

(* ------------------------------------------------------------------ *)
(** ** What the day regenerator returns *)

Section Regenerator.

Lemma swap_length {A : Type} (a : list A) (i j : nat) :
  List.length (JS.swap a i j) = List.length a.
Proof.
  unfold JS.swap.
  destruct (nth_error a i); [|reflexivity].
  destruct (nth_error a j); [|reflexivity].
  rewrite !set_nth_length. reflexivity.
Qed.

Lemma shuffleFrom_length {A : Type} (i : nat) (rnd : list nat) (a : list A) :
  List.length (shuffleFrom i rnd a) = List.length a.
Proof.
  revert rnd a. induction i as [|i IH]; intros rnd a; simpl; [reflexivity|].
  rewrite IH. apply swap_length.
Qed.

Lemma shuffleArray_length {A : Type} (rnd : list nat) (a : list A) :
  List.length (shuffleArray rnd a) = List.length a.
Proof. apply shuffleFrom_length. Qed.

Variables sessionDuration breakDuration maxSessions : Z.
Variable shuffledSubjects : list Subject.t.
Hypothesis nonempty : shuffledSubjects <> [].



Lemma regenerate_fold_types (indices : list nat) (st : Layout) :
  types (sessions (fold_left
                     (regenerateStep sessionDuration breakDuration maxSessions
                                     shuffledSubjects)
                     indices st))
  = types (sessions st) ++ flat_map (stepTypes maxSessions) indices.
Proof.
  revert st. induction indices as [|i indices IH]; intro st; simpl.
  - rewrite app_nil_r. reflexivity.
  - rewrite IH. unfold regenerateStep.
    destruct (nth_error shuffledSubjects (i mod List.length shuffledSubjects)) as [subject|] eqn:E.
    + unfold stepTypes.
      destruct (Z.of_nat i <? maxSessions - 1); unfold pushBreak, types; cbn [sessions];
        rewrite ?map_app, <- ?app_assoc; reflexivity.
    + apply nth_error_None in E.
      assert (List.length shuffledSubjects <> 0)%nat.
      { destruct shuffledSubjects; [congruence | simpl; lia]. }
      pose proof (Nat.mod_upper_bound i (List.length shuffledSubjects) H). lia.
Qed.

End Regenerator.



(** The types of the sessions [regenerateDay] returns, whatever the draws. *)
Lemma regenerateDay_types (rnd : list nat) (day : Day.t) (subjects : list Subject.t)
    (preferences : Preferences.t) :
  let maxSessions :=
    maxSessionsOf (withDefault (Preferences.dailyHours preferences) 4%Q)
                  (withDefault (Preferences.sessionDuration preferences) 25) in
  types (regenerateDay rnd day subjects preferences)
  = flat_map (stepTypes maxSessions)
             (seq 0 (Z.to_nat (Z.min maxSessions (Z.of_nat (List.length subjects))))).
Proof.
  intro maxSessions. unfold regenerateDay. fold maxSessions.
  rewrite shuffleArray_length.
  destruct (Nat.eq_dec (List.length subjects) 0) as [E0|Hpos].
  - rewrite E0. simpl Z.of_nat.
    replace (Z.to_nat (Z.min maxSessions 0)) with O by lia. reflexivity.
  - assert (Hne : shuffleArray rnd subjects <> []).
    { intro E. apply (f_equal (@List.length _)) in E.
      rewrite shuffleArray_length in E. simpl in E. lia. }
    rewrite regenerate_fold_types by exact Hne.
    reflexivity.
Qed.

(** C10. The result of [regenerateDay] does not depend on the existing day
    it is handed: with the same subjects, preferences and shuffle draws, any
    two days give the same sessions. *)
Theorem regenerateDay_ignores_day (rnd : list nat) (d1 d2 : Day.t)
    (subjects : list Subject.t) (preferences : Preferences.t) :
  regenerateDay rnd d1 subjects preferences = regenerateDay rnd d2 subjects preferences.
Proof. reflexivity. Qed.

(* ------------------------------------------------------------------ *)
(** ** Where the generator departs from its intent *)

Section Departures.

Variable rnd : list nat.

(** The pool for Reading and Physics: the seven tokens of Reading, whose
    priority is higher, then the token of Physics, whatever the draws. *)
Lemma sessionPoolOf_reading_physics :
  sessionPoolOf rnd [Sample.physics; Sample.reading] 60
  = repeat (tokenOf (subjectDatum 60 Sample.reading)) 7
    ++ repeat (tokenOf (subjectDatum 60 Sample.physics)) 1.
Proof.
  unfold sessionPoolOf.
  change (flat_map tokensOf
            (JS.sort bySubjectPriority
                     (map (subjectDatum 60) [Sample.physics; Sample.reading])))
    with (repeat (tokenOf (subjectDatum 60 Sample.reading)) 7
          ++ repeat (tokenOf (subjectDatum 60 Sample.physics)) 1).
  apply (sort_shuffle_two_classes
           (tokenOf (subjectDatum 60 Sample.reading))
           (tokenOf (subjectDatum 60 Sample.physics))
           (fun x => String.eqb (Token.subject x) "Reading"));
    reflexivity.
Qed.

End Departures.

(** C1. The totals of a returned day are meant to match its final session
    list. On the subject Math (5 hours a week, hard, exam priority 5) with
    4 daily hours, 25-minute sessions and 5-minute breaks, whatever the
    shuffle draws, Monday comes back as study, break, study: its study total
    is right (50 = 50), but totalBreakMinutes is 10 while the breaks of the
    list sum to 5. The placement pass counted a break after the second
    session, the rebuild removed that break, and the total was not computed
    again. *)
Theorem generateTimetable_break_total_stale (rnd : list nat) :
  let day := dayAt (generateTimetable rnd [Sample.math] Sample.pomodoro) 0 in
  types (Day.sessions day) = [study; break; study]
  /\ Day.totalStudyMinutes day = 50
  /\ studyMinutes (Day.sessions day) = 50
  /\ Day.totalBreakMinutes day = 10
  /\ breakMinutes (Day.sessions day) = 5.
Proof.
  change (generateTimetable rnd [Sample.math] Sample.pomodoro)
    with (map (rebuildDay 25 5)
              (timetable (placeSessions 25 5 (maxSessionsOf 4 25)
                            (sessionPoolOf rnd [Sample.math] 25)))).
  rewrite sessionPoolOf_single.
  vm_compute. repeat split; reflexivity.
Qed.

(** C2. With three subjects and room for four sessions a day,
    [regenerateDay] returns, whatever the existing day and the shuffle
    draws, three study sessions, as min(4, 3) asks, but three breaks, the
    last of which ends the sequence: the loop tests [i < maxSessions - 1],
    not whether another study session follows. *)
Theorem regenerateDay_trailing_break (rnd : list nat) (day : Day.t) :
  let result :=
    regenerateDay rnd day [Sample.math; Sample.reading; Sample.physics] Sample.hourly in
  maxSessionsOf 4 60 = 4
  /\ types result = [study; break; study; break; study; break]
  /\ last (types result) study = break.
Proof.
  cbv zeta. rewrite regenerateDay_types. vm_compute. repeat split; reflexivity.
Qed.

(** C4. The study sessions of a day are meant to come hardest first. With
    Reading (easy, priority score 2.1, seven sessions needed) and Physics
    (hard, priority score 0.2, one session needed), whatever the shuffle
    draws, Monday comes back as Reading, Break, Physics: the easy session
    precedes the hard one. The placed sessions carry no difficulty, so the
    sort by difficulty weight compares 1 with 1 and leaves the placement
    order. The rest of the layout holds there: one break between the two
    sessions, none at the end, each start time the end time before. *)
Theorem generateTimetable_easy_before_hard (rnd : list nat) :
  let subjects := [Sample.physics; Sample.reading] in
  let day := dayAt (generateTimetable rnd subjects Sample.hourly) 0 in
  subjectsOf (Day.sessions day) = ["Reading"; "Break"; "Physics"]
  /\ types (Day.sessions day) = [study; break; study]
  /\ map Session.startTime (Day.sessions day) = ["8:00 AM"; "9:00 AM"; "9:05 AM"]
  /\ map Session.endTime (Day.sessions day) = ["9:00 AM"; "9:05 AM"; "10:05 AM"]
  /\ lookup DIFFICULTY_WEIGHTS (Subject.difficulty Sample.reading) = Some 1%Q
  /\ lookup DIFFICULTY_WEIGHTS (Subject.difficulty Sample.physics) = Some 2%Q.
Proof.
  cbv zeta.
  change (generateTimetable rnd [Sample.physics; Sample.reading] Sample.hourly)
    with (map (rebuildDay 60 5)
              (timetable (placeSessions 60 5 (maxSessionsOf 4 60)
                            (sessionPoolOf rnd [Sample.physics; Sample.reading] 60)))).
  rewrite sessionPoolOf_reading_physics.
  vm_compute. repeat split; reflexivity.
Qed.

(* ------------------------------------------------------------------ *)
(** ** Spreading a number of sessions over the days *)

Section Distribution.

Lemma set_nth_middle {A : Type} (l1 l2 : list A) (x v : A) :
  JS.set_nth (List.length l1) v (l1 ++ x :: l2) = l1 ++ v :: l2.
Proof. induction l1 as [|y l1 IH]; simpl; [reflexivity|]. rewrite IH. reflexivity. Qed.

Lemma repeat_snoc {A : Type} (x : A) (k : nat) : repeat x (S k) = repeat x k ++ [x].
Proof. induction k as [|k IH]; simpl in *; [reflexivity|]. rewrite <- IH. reflexivity. Qed.

Lemma sumZ_app (a b : list Z) : sumZ (a ++ b) = sumZ a + sumZ b.
Proof. induction a as [|x a IH]; simpl; [reflexivity|]. rewrite IH. lia. Qed.

Lemma sumZ_repeat (x : Z) (n : nat) : sumZ (repeat x n) = x * Z.of_nat n.
Proof. induction n as [|n IH]; [simpl; lia|]. cbn [repeat sumZ fold_right] in *. fold (sumZ (repeat x n)). lia. Qed.

(** After [k] rounds of the loop the first [k] days hold one session more. *)
Lemma distribute_loop (base : Z) (n k : nat) :
  (k <= n)%nat ->
  fold_left (fun distribution i => increment_nth (i mod n) distribution)
            (seq 0 k) (repeat base n)
  = repeat (base + 1) k ++ repeat base (n - k).
Proof.
  induction k as [|k IH]; intro Hk.
  - simpl. rewrite Nat.sub_0_r. reflexivity.
  - rewrite seq_S, fold_left_app, IH by lia. cbn [fold_left Nat.add].
    rewrite Nat.mod_small by lia.
    replace (repeat base (n - k)) with (base :: repeat base (n - S k))
      by (replace (n - k)%nat with (S (n - S k)) by lia; reflexivity).
    unfold increment_nth.
    assert (Hlen : List.length (repeat (base + 1) k) = k) by apply repeat_length.
    rewrite nth_error_app2 by lia. rewrite Hlen, Nat.sub_diag. cbn [nth_error].
    rewrite <- Hlen at 1. rewrite set_nth_middle.
    rewrite repeat_snoc, <- app_assoc. reflexivity.
Qed.

End Distribution.

(** X1. [distributeSessionsPerDay] spreads a non-negative number of sessions
    over a positive number of days: one entry per day, the entries add up to
    the number of sessions, and every day gets the quotient, the first
    (remainder) days one session more. *)
Theorem distributeSessionsPerDay_spec (totalSessions : Z) (daysCount : option nat) :
  let n := withDefault daysCount 7%nat in
  0 <= totalSessions ->
  (0 < n)%nat ->
  let distribution := distributeSessionsPerDay totalSessions daysCount in
  List.length distribution = n
  /\ sumZ distribution = totalSessions
  /\ forall i, (i < n)%nat ->
       nth i distribution 0
       = totalSessions / Z.of_nat n
         + (if Z.of_nat i <? totalSessions mod Z.of_nat n then 1 else 0).
Proof.
  intros n Htot Hn distribution. subst distribution.
  unfold distributeSessionsPerDay. fold n.
  rewrite Z.rem_mod_nonneg by lia.
  set (base := totalSessions / Z.of_nat n).
  set (r := totalSessions mod Z.of_nat n).
  assert (Hr : 0 <= r < Z.of_nat n) by (apply Z.mod_pos_bound; lia).
  rewrite distribute_loop by lia.
  split; [|split].
  - rewrite length_app, !repeat_length. lia.
  - rewrite sumZ_app, !sumZ_repeat.
    pose proof (Z.div_mod totalSessions (Z.of_nat n) ltac:(lia)) as Hdm.
    fold base r in Hdm. rewrite Nat2Z.inj_sub by lia. rewrite Z2Nat.id by lia. lia.
  - intros i Hi.
    destruct (Z.ltb_spec (Z.of_nat i) r) as [Hlt|Hge].
    + rewrite app_nth1 by (rewrite repeat_length; lia).
      apply nth_repeat_lt. lia.
    + rewrite app_nth2 by (rewrite repeat_length; lia).
      rewrite repeat_length, nth_repeat_lt by lia. lia.
Qed.

Lemma distributeSessionsPerDay_spec_witness :
  (0 <= 12 /\ (0 < 7)%nat)
  /\ List.length (distributeSessionsPerDay 12 None) = 7%nat
  /\ sumZ (distributeSessionsPerDay 12 None) = 12
  /\ forall i, (i < 7)%nat ->
       nth i (distributeSessionsPerDay 12 None) 0
       = 12 / Z.of_nat 7 + (if Z.of_nat i <? 12 mod Z.of_nat 7 then 1 else 0).
Proof.
  split; [lia|]. apply (distributeSessionsPerDay_spec 12 None); simpl; lia.
Defined.

(* ------------------------------------------------------------------ *)
(** ** The shuffle and the sort rearrange, they do not add or lose *)

Section Rearrangements.

Context {A : Type}.

Lemma set_nth_Permutation (l : list A) (i : nat) (old v : A) :
  nth_error l i = Some old ->
  Permutation (old :: JS.set_nth i v l) (v :: l).
Proof.
  revert i. induction l as [|x l IH]; intros [|i] H; simpl in *; try discriminate.
  - injection H as ->. apply perm_swap.
  - specialize (IH i H).
    apply perm_trans with (x :: old :: JS.set_nth i v l); [apply perm_swap|].
    apply perm_trans with (x :: v :: l); [apply perm_skip; exact IH | apply perm_swap].
Qed.

Lemma swap_Permutation (l : list A) (i j : nat) : Permutation (JS.swap l i j) l.
Proof.
  unfold JS.swap.
  destruct (nth_error l i) as [x|] eqn:Ei; [|apply Permutation_refl].
  destruct (nth_error l j) as [y|] eqn:Ej; [|apply Permutation_refl].
  pose proof (set_nth_Permutation l i x y Ei) as H1.
  pose proof (set_nth_Permutation (JS.set_nth i y l) j y x
                (nth_error_set_nth l i j y Ej)) as H2.
  apply Permutation_cons_inv with y.
  apply perm_trans with (x :: JS.set_nth i y l); assumption.
Qed.

Lemma insert_Permutation (cmp : A -> A -> Q) (x : A) (l : list A) :
  Permutation (JS.insert cmp x l) (x :: l).
Proof.
  induction l as [|y l IH]; simpl; [apply Permutation_refl|].
  destruct (Qle_bool (cmp x y) 0); [apply Permutation_refl|].
  apply perm_trans with (y :: x :: l); [apply perm_skip; exact IH | apply perm_swap].
Qed.

Lemma sort_Permutation (cmp : A -> A -> Q) (l : list A) :
  Permutation (JS.sort cmp l) l.
Proof.
  induction l as [|x l IH]; simpl; [apply Permutation_refl|].
  apply perm_trans with (x :: JS.sort cmp l);
    [apply insert_Permutation | apply perm_skip; exact IH].
Qed.

End Rearrangements.

Lemma shuffleFrom_Permutation {A : Type} (i : nat) (rnd : list nat) (array : list A) :
  Permutation (shuffleFrom i rnd array) array.
Proof.
  revert rnd array. induction i as [|i IH]; intros rnd array; simpl.
  - apply Permutation_refl.
  - apply perm_trans with (JS.swap array (S i) (hd O rnd mod (S i + 1))).
    + apply IH.
    + apply swap_Permutation.
Qed.

(** X2. [shuffleArray] returns a permutation of its argument, whatever the
    random draws: every element is kept, with its multiplicity. *)
Theorem shuffleArray_Permutation {A : Type} (rnd : list nat) (array : list A) :
  Permutation (shuffleArray rnd array) array.
Proof. unfold shuffleArray. apply shuffleFrom_Permutation. Qed.

Section SortedPool.




End SortedPool.

Lemma sessionPoolOf_Permutation (rnd : list nat) (subjects : list Subject.t)
    (sessionDuration : Z) :
  Permutation (sessionPoolOf rnd subjects sessionDuration)
              (flat_map (fun subject =>
                           repeat (tokenOf (subjectDatum sessionDuration subject))
                                  (Z.to_nat (sessionsNeededOf subject sessionDuration)))
                        subjects).
Proof.
  unfold sessionPoolOf.
  eapply perm_trans; [apply sort_Permutation|].
  eapply perm_trans; [apply shuffleFrom_Permutation|].
  eapply perm_trans.
  - apply Permutation_flat_map. apply sort_Permutation.
  - rewrite flat_map_concat_map, map_map, <- flat_map_concat_map.
    apply Permutation_refl.
Qed.


(* ------------------------------------------------------------------ *)
(** ** Times written by [formatTime] and read back by the placement pass *)

Section ClockStrings.

Lemma readsBack_all :
  forallb (fun h => forallb (readsBack h) (seq 0 60)) (seq 0 24) = true.
Proof. vm_compute. reflexivity. Qed.

Lemma readClock_formatTime (h m : Z) :
  0 <= h < 24 -> 0 <= m < 60 -> readClock (formatTime h m) = (h, m).
Proof.
  intros Hh Hm.
  pose proof readsBack_all as Hall.
  rewrite forallb_forall in Hall.
  specialize (Hall (Z.to_nat h)). rewrite in_seq in Hall.
  specialize (Hall ltac:(lia)).
  rewrite forallb_forall in Hall.
  specialize (Hall (Z.to_nat m)). rewrite in_seq in Hall.
  specialize (Hall ltac:(lia)).
  unfold readsBack in Hall. rewrite !Z2Nat.id in Hall by lia.
  destruct (readClock (formatTime h m)) as [h' m'].
  apply andb_true_iff in Hall. destruct Hall as [E1 E2].
  apply Z.eqb_eq in E1. apply Z.eqb_eq in E2. congruence.
Qed.

Lemma nextStart_last (day : Day.t) (l : list Session.t) (s : Session.t) :
  Day.sessions day = l ++ [s] -> nextStart day = readClock (Session.endTime s).
Proof.
  intro E. unfold readClock, nextStart. rewrite E, rev_app_distr. reflexivity.
Qed.

Lemma addMinutes_time_of_day (h m d : Z) :
  0 <= h -> 0 <= m -> 0 <= d ->
  0 <= hours (addMinutes h m d) < 24 /\ 0 <= minutes (addMinutes h m d) < 60.
Proof.
  intros Hh Hm Hd. rewrite addMinutes_nonneg by assumption.
  apply clockOfMinutes_range.
Qed.

Lemma contiguous_snoc (l : list Session.t) (x : Session.t) :
  contiguous l ->
  match rev l with
  | [] => True
  | lastSession :: _ => Session.endTime lastSession = Session.startTime x
  end ->
  contiguous (l ++ [x]).
Proof.
  induction l as [|a r IH]; intros Hc Hlast; [simpl; auto|].
  cbn [app contiguous] in *. destruct Hc as [Hhead Hrest].
  destruct r as [|b r'].
  - simpl in *. auto.
  - split; [exact Hhead|]. apply IH; [exact Hrest|].
    cbn [rev] in Hlast |- *.
    destruct (rev r' ++ [b]) as [|z zs] eqn:E.
    + destruct (rev r'); discriminate.
    + exact Hlast.
Qed.

End ClockStrings.

(** X4. The placement pass reads back what [formatTime] wrote: when the
    last session of a day ends at the formatted time of [h]:[m], a time of
    day, the next session of the day starts at [h]:[m]. *)
Theorem nextStart_reads_formatTime (day : Day.t) (l : list Session.t) (s : Session.t)
    (h m : Z) :
  0 <= h < 24 -> 0 <= m < 60 ->
  Day.sessions day = l ++ [s] ->
  Session.endTime s = formatTime h m ->
  nextStart day = (h, m).
Proof.
  intros Hh Hm Hs He.
  rewrite (nextStart_last day l s Hs), He.
  apply readClock_formatTime; assumption.
Qed.

Lemma nextStart_reads_formatTime_witness :
  let s := breakSession "11:55 PM" (formatTime 0 5) 10 in
  let day := {| Day.dayOfWeek := 0; Day.dayName := "Monday";
                Day.sessions := [] ++ [s];
                Day.totalStudyMinutes := 0; Day.totalBreakMinutes := 10 |} in
  (0 <= 0 < 24 /\ 0 <= 5 < 60)
  /\ nextStart day = (0, 5).
Proof.
  intros s day. split; [lia|].
  apply (nextStart_reads_formatTime day [] s 0 5); try lia; reflexivity.
Defined.

Section PlacementTimes.

Variables sessionDuration breakDuration maxSessionsPerDay : Z.
Hypothesis sessionDuration_nonneg : 0 <= sessionDuration.
Hypothesis breakDuration_nonneg : 0 <= breakDuration.

Lemma nextStart_timed (day : Day.t) :
  timed day ->
  exists h m,
    nextStart day = (h, m)
    /\ 0 <= h < 24 /\ 0 <= m < 60
    /\ match rev (Day.sessions day) with
       | [] => formatTime h m = "8:00 AM"
       | lastSession :: _ => Session.endTime lastSession = formatTime h m
       end.
Proof.
  intros (_ & _ & Hlast).
  destruct (rev (Day.sessions day)) as [|s r] eqn:E.
  - exists startHour, 0. unfold nextStart. rewrite E.
    split; [reflexivity|]. unfold startHour. repeat split; lia.
  - destruct Hlast as (h & m & Hh & Hm & He). exists h, m.
    assert (Hs : Day.sessions day = rev r ++ [s]).
    { rewrite <- (rev_involutive (Day.sessions day)), E. reflexivity. }
    split; [rewrite (nextStart_last day (rev r) s Hs), He;
            apply readClock_formatTime; assumption|].
    split; [exact Hh|]. split; [exact Hm | exact He].
Qed.

Lemma timed_push (day day' : Day.t) (x : Session.t) (h m : Z) :
  timed day ->
  Day.sessions day' = Day.sessions day ++ [x] ->
  match rev (Day.sessions day) with
  | [] => Session.startTime x = "8:00 AM"
  | lastSession :: _ => Session.endTime lastSession = Session.startTime x
  end ->
  0 <= h < 24 -> 0 <= m < 60 ->
  Session.endTime x = formatTime h m ->
  timed day'.
Proof.
  intros (Hc & Hfirst & _) E Hjoin Hh Hm He. unfold timed. rewrite E.
  split; [|split].
  - apply contiguous_snoc; [exact Hc|].
    destruct (rev (Day.sessions day)); [exact I | exact Hjoin].
  - destruct (Day.sessions day) as [|a r]; [exact Hjoin | exact Hfirst].
  - rewrite rev_app_distr. cbn [rev app]. exists h, m. auto.
Qed.

Lemma placeSession_timed (st : Placement) (tok : Token.t) :
  Forall timed (timetable st) ->
  Forall timed
    (timetable (placeSession sessionDuration breakDuration maxSessionsPerDay st tok)).
Proof.
  intro Hall. unfold placeSession.
  set (t := findTargetDay (timetable st) maxSessionsPerDay (currentDay st)).
  assert (Hday : timed (dayAt (timetable st) t)).
  { apply Forall_dayAt; [exact Hall | repeat split]. }
  destruct (maxSessionsPerDay <=? Z.of_nat (studyCount (dayAt (timetable st) t)));
    [exact Hall|].
  destruct (nextStart_timed _ Hday) as (h & m & -> & Hh & Hm & Hjoin).
  destruct (addMinutes_time_of_day h m sessionDuration) as [Heh Hem]; try lia.
  set (e := addMinutes h m sessionDuration) in *.
  destruct (addMinutes_time_of_day (hours e) (minutes e) breakDuration) as [Hbh Hbm];
    try lia.
  set (day1 :=
         {| Day.dayOfWeek := Day.dayOfWeek (dayAt (timetable st) t);
            Day.dayName := Day.dayName (dayAt (timetable st) t);
            Day.sessions := Day.sessions (dayAt (timetable st) t) ++
              [{| Session.subject := Token.subject tok;
                  Session.subjectId := Some (Token.subjectId tok);
                  Session.startTime := formatTime h m;
                  Session.endTime := formatTime (hours e) (minutes e);
                  Session.duration := sessionDuration;
                  Session.type := study;
                  Session.completed := false;
                  Session.color := Token.color tok |}];
            Day.totalStudyMinutes :=
              Day.totalStudyMinutes (dayAt (timetable st) t) + sessionDuration;
            Day.totalBreakMinutes := Day.totalBreakMinutes (dayAt (timetable st) t) |}).
  assert (H1 : timed day1).
  { eapply (timed_push _ day1 _ (hours e) (minutes e) Hday); try reflexivity;
      assumption. }
  destruct (Z.of_nat (studyCount (dayAt (timetable st) t)) <? maxSessionsPerDay - 1);
    cbn [timetable]; apply Forall_set_nth; try exact Hall; [|exact H1].
  eapply (timed_push day1 _ _ _ _ H1); try reflexivity.
  - cbn [Day.sessions day1]. rewrite rev_app_distr. reflexivity.
  - exact Hbh.
  - exact Hbm.
Qed.

Lemma placeSessions_timed (pool : list Token.t) :
  Forall timed
    (timetable (placeSessions sessionDuration breakDuration maxSessionsPerDay pool)).
Proof.
  unfold placeSessions.
  assert (H0 : Forall timed
                 (timetable {| timetable := initialTimetable; currentDay := O |})).
  { simpl. unfold initialTimetable. simpl. repeat constructor. }
  revert H0. generalize {| timetable := initialTimetable; currentDay := O |} as st.
  induction pool as [|tok pool IH]; intros st H; simpl; [exact H|].
  apply IH. apply placeSession_timed. exact H.
Qed.

End PlacementTimes.

(** X5. The placement pass of [generateTimetable] lays every day out in
    time: for a positive session duration and a break duration that is not
    negative, on every day of the provisional timetable each session starts
    at the end time of the session before it, and the first session starts
    at 8:00 AM; reading the last end time back never falls back to the start
    of the day. *)
Theorem provisional_days_contiguous (rnd : list nat) (subjects : list Subject.t)
    (preferences : Preferences.t) (day : Day.t) :
  0 < withDefault (Preferences.sessionDuration preferences) 25 ->
  0 <= withDefault (Preferences.breakDuration preferences) 5 ->
  In day (provisionalTimetable rnd subjects preferences) ->
  contiguous (Day.sessions day)
  /\ match Day.sessions day with
     | [] => True
     | first :: _ => Session.startTime first = "8:00 AM"
     end.
Proof.
  intros Hsd Hbd Hin.
  pose proof (placeSessions_timed
                (withDefault (Preferences.sessionDuration preferences) 25)
                (withDefault (Preferences.breakDuration preferences) 5)
                (maxSessionsOf (withDefault (Preferences.dailyHours preferences) 4%Q)
                               (withDefault (Preferences.sessionDuration preferences) 25))
                ltac:(lia) Hbd
                (sessionPoolOf rnd subjects
                   (withDefault (Preferences.sessionDuration preferences) 25))) as Hall.
  rewrite Forall_forall in Hall. destruct (Hall day Hin) as (Hc & Hfirst & _).
  split; assumption.
Qed.

Lemma provisional_days_contiguous_witness :
  let day := dayAt (provisionalTimetable [] [Sample.math] Sample.pomodoro) 0 in
  (0 < 25 /\ 0 <= 5 /\ In day (provisionalTimetable [] [Sample.math] Sample.pomodoro))
  /\ contiguous (Day.sessions day)
  /\ match Day.sessions day with
     | [] => True
     | first :: _ => Session.startTime first = "8:00 AM"
     end.
Proof.
  intro day.
  assert (Hin : In day (provisionalTimetable [] [Sample.math] Sample.pomodoro)).
  { vm_compute. left. reflexivity. }
  split; [split; [reflexivity | split; [discriminate | exact Hin]]|].
  apply (provisional_days_contiguous [] [Sample.math] Sample.pomodoro day);
    [reflexivity | discriminate | exact Hin].
Defined.

(* ------------------------------------------------------------------ *)
(** ** The week [generateTimetable] returns *)

Section ReturnedWeek.

Lemma map_set_nth {A B : Type} (f : A -> B) (i : nat) (v : A) (l : list A) :
  (forall x, nth_error l i = Some x -> f v = f x) ->
  map f (JS.set_nth i v l) = map f l.
Proof.
  revert i. induction l as [|y l IH]; intros [|i] H; simpl in *; try reflexivity.
  - rewrite (H y eq_refl). reflexivity.
  - rewrite IH by exact H. reflexivity.
Qed.

Lemma nth_error_dayAt (tt : list Day.t) (d : nat) (day : Day.t) :
  nth_error tt d = Some day -> dayAt tt d = day.
Proof. intro H. unfold dayAt. apply nth_error_nth. exact H. Qed.

(** The placement pass never renames or renumbers a day. *)
Lemma placeSession_labels (sessionDuration breakDuration maxSessionsPerDay : Z)
    (st : Placement) (tok : Token.t) :
  map (fun day => (Day.dayOfWeek day, Day.dayName day))
      (timetable (placeSession sessionDuration breakDuration maxSessionsPerDay st tok))
  = map (fun day => (Day.dayOfWeek day, Day.dayName day)) (timetable st).
Proof.
  unfold placeSession.
  set (t := findTargetDay (timetable st) maxSessionsPerDay (currentDay st)).
  destruct (maxSessionsPerDay <=? Z.of_nat (studyCount (dayAt (timetable st) t)));
    [reflexivity|].
  destruct (nextStart (dayAt (timetable st) t)) as [h m].
  destruct (Z.of_nat (studyCount (dayAt (timetable st) t)) <? maxSessionsPerDay - 1);
    cbn [timetable]; apply map_set_nth; intros x Hx;
    apply nth_error_dayAt in Hx; rewrite Hx; reflexivity.
Qed.

Lemma placeSessions_labels (sessionDuration breakDuration maxSessionsPerDay : Z)
    (pool : list Token.t) :
  map (fun day => (Day.dayOfWeek day, Day.dayName day))
      (timetable (placeSessions sessionDuration breakDuration maxSessionsPerDay pool))
  = combine (seq 0 7) DAYS.
Proof.
  unfold placeSessions.
  change (combine (seq 0 7) DAYS)
    with (map (fun day => (Day.dayOfWeek day, Day.dayName day))
              (timetable {| timetable := initialTimetable; currentDay := O |})).
  generalize {| timetable := initialTimetable; currentDay := O |} as st.
  induction pool as [|tok pool IH]; intro st; simpl; [reflexivity|].
  rewrite IH. apply placeSession_labels.
Qed.

Lemma dayAt_rebuild (sessionDuration breakDuration : Z) (tt : list Day.t) (d : nat) :
  dayAt (map (rebuildDay sessionDuration breakDuration) tt) d
  = rebuildDay sessionDuration breakDuration (dayAt tt d).
Proof.
  unfold dayAt.
  change (emptyDay d "") with (rebuildDay sessionDuration breakDuration (emptyDay d "")) at 1.
  apply map_nth.
Qed.

End ReturnedWeek.

(** X6. For a positive session duration [generateTimetable] returns seven
    days, numbered 0 to 6 in this order and named Monday to Sunday, whatever
    the subjects, the other preferences and the shuffle draws. *)
Theorem generateTimetable_days (rnd : list nat) (subjects : list Subject.t)
    (preferences : Preferences.t) :
  0 < withDefault (Preferences.sessionDuration preferences) 25 ->
  map Day.dayOfWeek (generateTimetable rnd subjects preferences)
  = [0; 1; 2; 3; 4; 5; 6]%nat
  /\ map Day.dayName (generateTimetable rnd subjects preferences) = DAYS.
Proof.
  intros _.
  pose proof (placeSessions_labels
                (withDefault (Preferences.sessionDuration preferences) 25)
                (withDefault (Preferences.breakDuration preferences) 5)
                (maxSessionsOf (withDefault (Preferences.dailyHours preferences) 4%Q)
                               (withDefault (Preferences.sessionDuration preferences) 25))
                (sessionPoolOf rnd subjects
                   (withDefault (Preferences.sessionDuration preferences) 25))) as H.
  unfold generateTimetable, provisionalTimetable. rewrite !map_map.
  cbn [rebuildDay Day.dayOfWeek Day.dayName].
  split.
  - apply (f_equal (map fst)) in H. rewrite map_map in H. exact H.
  - apply (f_equal (map snd)) in H. rewrite map_map in H. exact H.
Qed.

Lemma generateTimetable_days_witness :
  0 < 25
  /\ map Day.dayOfWeek (generateTimetable [] [Sample.math] Sample.pomodoro)
     = [0; 1; 2; 3; 4; 5; 6]%nat
  /\ map Day.dayName (generateTimetable [] [Sample.math] Sample.pomodoro) = DAYS.
Proof.
  split; [reflexivity|].
  apply (generateTimetable_days [] [Sample.math] Sample.pomodoro). reflexivity.
Defined.

(* ------------------------------------------------------------------ *)
(** ** How the study sessions spread over the week *)

Section Spread.

Variables sessionDuration breakDuration maxSessionsPerDay : Z.

(** What a step of the placement pass does to the numbers of study
    sessions. *)
Lemma placeSession_counts (st : Placement) (tok : Token.t) :
  wfPlacement st ->
  let st' := placeSession sessionDuration breakDuration maxSessionsPerDay st tok in
  (allFull (timetable st) maxSessionsPerDay /\ st' = st)
  \/ exists t,
       leastFilled (timetable st) maxSessionsPerDay t
       /\ studyCount (dayAt (timetable st') t) = S (studyCount (dayAt (timetable st) t))
       /\ forall d, d <> t ->
            studyCount (dayAt (timetable st') d) = studyCount (dayAt (timetable st) d).
Proof.
  intros Hwf st'. subst st'.
  destruct (placeSession_cases sessionDuration breakDuration maxSessionsPerDay st tok Hwf)
    as [H | (t & day' & Hleast & Ett & _ & _ & s & rest & Es & Hs & _ & _ & Hrest)];
    [left; exact H|].
  right. exists t. split; [exact Hleast|].
  destruct Hwf as (Hlen & _). destruct Hleast as (Ht & _).
  rewrite Ett. split.
  - rewrite dayAt_set_nth_same by lia.
    apply (studyCount_grow _ _ _ _ Es Hs Hrest).
  - intros d Hd. rewrite dayAt_set_nth_other by exact Hd. reflexivity.
Qed.

Lemma placeSession_balanced (st : Placement) (tok : Token.t) :
  wfPlacement st ->
  balanced (timetable st) ->
  balanced (timetable (placeSession sessionDuration breakDuration maxSessionsPerDay st tok)).
Proof.
  intros Hwf Hbal.
  destruct (placeSession_counts st tok Hwf) as [[_ ->] | (t & Hleast & Et & Eother)];
    [exact Hbal|].
  destruct Hleast as (Ht & Hc & Hmin).
  intros d d' Hdd Hd'.
  pose proof (Hbal t 6%nat ltac:(lia) ltac:(lia)) as [Ht6 _].
  pose proof (Hmin 6%nat ltac:(lia)) as Hmin6.
  pose proof (Hbal d d' Hdd Hd') as Hb.
  pose proof (Hbal d 6%nat ltac:(lia) ltac:(lia)) as Hd6.
  pose proof (Hbal d' 6%nat ltac:(lia) ltac:(lia)) as Hd'6.
  pose proof (Hmin d ltac:(lia)) as Hmind.
  destruct (Nat.eq_dec d t) as [->|Hnd]; destruct (Nat.eq_dec d' t) as [->|Hnd'];
    rewrite ?Et, ?(Eother d Hnd), ?(Eother d' Hnd'); lia.
Qed.

Lemma placeSessions_balanced (pool : list Token.t) :
  balanced (timetable (placeSessions sessionDuration breakDuration maxSessionsPerDay pool)).
Proof.
  unfold placeSessions.
  assert (H0 : balanced (timetable {| timetable := initialTimetable; currentDay := O |})).
  { intros d d' Hdd Hd'. simpl timetable.
    do 7 (destruct d' as [|d']; [do 7 (destruct d as [|d]; [vm_compute; lia|]); lia|]).
    lia. }
  pose proof initial_wf as Hwf. revert Hwf H0.
  generalize {| timetable := initialTimetable; currentDay := O |} as st.
  induction pool as [|tok pool IH]; intros st Hwf H; simpl; [exact H|].
  apply IH; [apply placeSession_wf | apply placeSession_balanced]; assumption.
Qed.

Lemma total_of_seven (tt : list Day.t) :
  List.length tt = 7%nat ->
  totalStudySessions tt
  = (studyCount (dayAt tt 0) + studyCount (dayAt tt 1) + studyCount (dayAt tt 2)
     + studyCount (dayAt tt 3) + studyCount (dayAt tt 4) + studyCount (dayAt tt 5)
     + studyCount (dayAt tt 6))%nat.
Proof.
  intro H.
  do 7 (destruct tt as [|? tt]; [discriminate|]).
  destruct tt; [|discriminate].
  unfold totalStudySessions, dayAt. simpl. lia.
Qed.




End Spread.



(** X7. The week [generateTimetable] returns (for a positive session
    duration) is balanced: a later day never holds more study sessions than
    an earlier day, and no two days differ by more than one study session. *)
Theorem generateTimetable_balanced (rnd : list nat) (subjects : list Subject.t)
    (preferences : Preferences.t) (d d' : nat) :
  0 < withDefault (Preferences.sessionDuration preferences) 25 ->
  (d <= d')%nat -> (d' < 7)%nat ->
  let week := generateTimetable rnd subjects preferences in
  (studyCount (dayAt week d') <= studyCount (dayAt week d))%nat
  /\ (studyCount (dayAt week d) <= studyCount (dayAt week d') + 1)%nat.
Proof.
  intros _ Hdd Hd' week. subst week.
  unfold generateTimetable, provisionalTimetable.
  rewrite !dayAt_rebuild, !rebuildDay_studyCount.
  apply placeSessions_balanced; assumption.
Qed.

Lemma generateTimetable_balanced_witness :
  let week := generateTimetable [] [Sample.math] Sample.pomodoro in
  (0 < 25 /\ (4 <= 5)%nat /\ (5 < 7)%nat)
  /\ (studyCount (dayAt week 5) <= studyCount (dayAt week 4))%nat
  /\ (studyCount (dayAt week 4) <= studyCount (dayAt week 5) + 1)%nat.
Proof.
  intro week. split; [split; [reflexivity | lia]|].
  apply (generateTimetable_balanced [] [Sample.math] Sample.pomodoro 4 5);
    [reflexivity | lia | lia].
Defined.



(* ------------------------------------------------------------------ *)
(** ** Where the sessions of the returned week come from *)

Section Provenance.

Variable subjects : list Subject.t.
Variables sessionDuration breakDuration maxSessionsPerDay : Z.

Lemma pool_tokens_from_subjects (rnd : list nat) (tok : Token.t) :
  In tok (sessionPoolOf rnd subjects sessionDuration) ->
  exists subject,
    In subject subjects /\ tok = tokenOf (subjectDatum sessionDuration subject).
Proof.
  intro Hin.
  apply (Permutation_in _ (sessionPoolOf_Permutation rnd subjects sessionDuration)) in Hin.
  apply in_flat_map in Hin. destruct Hin as (subject & Hs & Hrep).
  apply repeat_spec in Hrep. exists subject. split; assumption.
Qed.

Lemma placeSession_generated (st : Placement) (tok : Token.t) :
  (exists subject,
      In subject subjects /\ tok = tokenOf (subjectDatum sessionDuration subject)) ->
  Forall (fun day => Forall (generated subjects sessionDuration breakDuration)
                            (Day.sessions day)) (timetable st) ->
  Forall (fun day => Forall (generated subjects sessionDuration breakDuration)
                            (Day.sessions day))
         (timetable (placeSession sessionDuration breakDuration maxSessionsPerDay st tok)).
Proof.
  intros (subject & Hin & ->) Hall. unfold placeSession.
  set (t := findTargetDay (timetable st) maxSessionsPerDay (currentDay st)).
  assert (Hday : Forall (generated subjects sessionDuration breakDuration)
                        (Day.sessions (dayAt (timetable st) t))).
  { apply (Forall_dayAt
             (fun day => Forall (generated subjects sessionDuration breakDuration)
                                (Day.sessions day)));
      [exact Hall | constructor]. }
  destruct (maxSessionsPerDay <=? Z.of_nat (studyCount (dayAt (timetable st) t)));
    [exact Hall|].
  destruct (nextStart (dayAt (timetable st) t)) as [h m].
  assert (Hstudy : forall a b,
             generated subjects sessionDuration breakDuration
               {| Session.subject := Token.subject (tokenOf (subjectDatum sessionDuration subject));
                  Session.subjectId :=
                    Some (Token.subjectId (tokenOf (subjectDatum sessionDuration subject)));
                  Session.startTime := a;
                  Session.endTime := b;
                  Session.duration := sessionDuration;
                  Session.type := study;
                  Session.completed := false;
                  Session.color := Token.color (tokenOf (subjectDatum sessionDuration subject)) |}).
  { intros a b. split; [reflexivity|]. cbn. split; [reflexivity|].
    exists subject. repeat split; assumption || reflexivity. }
  assert (Hbreak : forall a b,
             generated subjects sessionDuration breakDuration
                       (breakSession a b breakDuration)).
  { intros a b. repeat split. }
  destruct (Z.of_nat (studyCount (dayAt (timetable st) t)) <? maxSessionsPerDay - 1);
    cbn [timetable]; apply Forall_set_nth; try exact Hall;
    cbn [Day.sessions]; repeat (apply Forall_app; split);
    try exact Hday;
    (constructor; [first [apply Hstudy | apply Hbreak] | constructor]).
Qed.

Lemma fold_placeSession_generated (pool : list Token.t) (st : Placement) :
  Forall (fun tok => exists subject,
              In subject subjects
              /\ tok = tokenOf (subjectDatum sessionDuration subject)) pool ->
  Forall (fun day => Forall (generated subjects sessionDuration breakDuration)
                            (Day.sessions day)) (timetable st) ->
  Forall (fun day => Forall (generated subjects sessionDuration breakDuration)
                            (Day.sessions day))
         (timetable (fold_left (placeSession sessionDuration breakDuration
                                             maxSessionsPerDay) pool st)).
Proof.
  intro Hpool. revert st. induction Hpool as [|tok pool Htok _ IH]; intros st H;
    simpl; [exact H|].
  apply IH. apply placeSession_generated; assumption.
Qed.

Lemma laidOut_Forall (P : Session.t -> Prop) (h m : Z) (l : list Session.t) :
  (forall s a b, P s -> P (retimed s a b)) ->
  (forall a b, P (breakSession a b breakDuration)) ->
  Forall P l ->
  Forall P (laidOut sessionDuration breakDuration h m l).
Proof.
  intros Hre Hbr Hl. revert h m.
  induction Hl as [|x r Hx Hr IH]; intros h m; [constructor|].
  cbn [laidOut]. constructor; [apply Hre; exact Hx|].
  destruct r as [|y r']; [constructor|].
  constructor; [apply Hbr|]. apply IH.
Qed.

Lemma rebuildDay_generated (day : Day.t) :
  Forall (generated subjects sessionDuration breakDuration) (Day.sessions day) ->
  Forall (generated subjects sessionDuration breakDuration)
         (Day.sessions (rebuildDay sessionDuration breakDuration day)).
Proof.
  intro H. rewrite rebuildDay_sessions, sort_byDifficulty.
  apply laidOut_Forall.
  - intros s a b Hs. exact Hs.
  - intros a b. repeat split.
  - apply Forall_forall. intros s Hin. apply filter_In in Hin.
    rewrite Forall_forall in H. apply H. tauto.
Qed.

End Provenance.

(** X9. For subjects handed in as plain objects, every session of the week
    [generateTimetable] returns (for a positive session duration) is one the
    generator made: a study session carries the name, the id and the colour
    of one of the subjects and lasts sessionDuration minutes, a break is the
    standard break of breakDuration minutes, and no session is marked
    completed. The name, the id and the colour travel through the spread
    [{ ...subject }], which copies own properties only. *)
Theorem generateTimetable_sessions_generated (rnd : list nat)
    (subjects : list Subject.t) (preferences : Preferences.t)
    (day : Day.t) (s : Session.t) :
  0 < withDefault (Preferences.sessionDuration preferences) 25 ->
  In day (generateTimetable rnd subjects preferences) ->
  In s (Day.sessions day) ->
  generated subjects
            (withDefault (Preferences.sessionDuration preferences) 25)
            (withDefault (Preferences.breakDuration preferences) 5) s.
Proof.
  intros _ Hday Hs.
  destruct (returned_day_origin rnd subjects preferences day Hday) as (prov & Hprov & ->).
  set (sd := withDefault (Preferences.sessionDuration preferences) 25) in *.
  set (bd := withDefault (Preferences.breakDuration preferences) 5) in *.
  assert (Hall : Forall (fun day => Forall (generated subjects sd bd) (Day.sessions day))
                        (provisionalTimetable rnd subjects preferences)).
  { unfold provisionalTimetable, placeSessions. fold sd bd.
    apply fold_placeSession_generated.
    - apply Forall_forall. intros tok Hin.
      apply (pool_tokens_from_subjects subjects sd rnd tok Hin).
    - simpl. unfold initialTimetable. simpl. repeat constructor. }
  rewrite Forall_forall in Hall. specialize (Hall prov Hprov).
  apply (rebuildDay_generated subjects sd bd) in Hall.
  rewrite Forall_forall in Hall. apply Hall. exact Hs.
Qed.

Lemma generateTimetable_sessions_generated_witness :
  let week := generateTimetable [] [Sample.math] Sample.pomodoro in
  let day := dayAt week 0 in
  let s := nth 0 (Day.sessions day) (breakSession "" "" 0) in
  (0 < 25 /\ In day week /\ In s (Day.sessions day))
  /\ generated [Sample.math] 25 5 s.
Proof.
  intros week day s.
  assert (Hday : In day week) by (vm_compute; left; reflexivity).
  assert (Hs : In s (Day.sessions day)) by (vm_compute; left; reflexivity).
  split; [split; [reflexivity | split; assumption]|].
  apply (generateTimetable_sessions_generated [] [Sample.math] Sample.pomodoro day s);
    [reflexivity | exact Hday | exact Hs].
Defined.

(* ------------------------------------------------------------------ *)
(** ** The sessions each subject gets *)

Section PerSubject.

Variable name : string.
Variables sessionDuration breakDuration maxSessionsPerDay : Z.


Lemma weekCount_set_nth (tt : list Day.t) (t : nat) (day' : Day.t) :
  (t < List.length tt)%nat ->
  (weekCount name (JS.set_nth t day' tt) + sessionsOfSubject name (dayAt tt t)
   = weekCount name tt + sessionsOfSubject name day')%nat.
Proof.
  unfold dayAt. revert t. induction tt as [|day tt IH]; intros [|t] H; simpl in *;
    try lia.
  specialize (IH t ltac:(lia)).
  rewrite (nth_indep tt _ (emptyDay t "")) by lia. lia.
Qed.

Lemma filter_study_named_nil (l : list Session.t) :
  filter isStudy l = [] ->
  filter (fun s => isStudy s && String.eqb (Session.subject s) name) l = [].
Proof.
  induction l as [|x l IH]; simpl; [reflexivity|].
  destruct (isStudy x); [discriminate|]. simpl. exact IH.
Qed.

(** A step of the pass adds one session under the name of its token, or
    drops the token and changes nothing. *)
Lemma placeSession_weekCount (st : Placement) (tok : Token.t) :
  wfPlacement st ->
  let st' := placeSession sessionDuration breakDuration maxSessionsPerDay st tok in
  st' = st
  \/ (totalStudySessions (timetable st') <> totalStudySessions (timetable st)
      /\ weekCount name (timetable st')
         = (weekCount name (timetable st)
            + if String.eqb (Token.subject tok) name then 1 else 0)%nat).
Proof.
  intros Hwf st'. subst st'.
  destruct (placeSession_cases sessionDuration breakDuration maxSessionsPerDay st tok Hwf)
    as [[_ H] | (t & day' & Hleast & Ett & _ & _ & s & rest & Es & Hs & Hsub & _ & Hrest)];
    [left; exact H|].
  right.
  pose proof (placeSession_wf sessionDuration breakDuration maxSessionsPerDay st tok Hwf)
    as (Hlen' & _).
  pose proof Hwf as (Hlen & _). pose proof Hleast as (Ht & _).
  split.
  - rewrite (total_of_seven _ Hlen), (total_of_seven _ Hlen').
    destruct (placeSession_counts sessionDuration breakDuration maxSessionsPerDay
                                  st tok Hwf)
      as [[Hfull _] | (t' & Hleast' & Et & Eother)].
    + destruct Hleast as (_ & Hc & _). specialize (Hfull t Ht). lia.
    + destruct Hleast' as (Ht' & _).
      assert (Hcases : (t' = 0 \/ t' = 1 \/ t' = 2 \/ t' = 3 \/ t' = 4 \/ t' = 5 \/ t' = 6)%nat)
        by lia.
      destruct Hcases as [-> | [-> | [-> | [-> | [-> | [-> | ->] ] ] ] ] ];
        rewrite Et, !Eother by lia; lia.
  - rewrite Ett.
    pose proof (weekCount_set_nth (timetable st) t day' ltac:(lia)) as Hsum.
    assert (Hday : sessionsOfSubject name day'
                   = (sessionsOfSubject name (dayAt (timetable st) t)
                      + if String.eqb (Token.subject tok) name then 1 else 0)%nat).
    { unfold sessionsOfSubject. rewrite Es, filter_app, length_app. cbn [filter].
      rewrite (filter_study_named_nil rest Hrest).
      unfold isStudy at 2. rewrite Hs, Hsub. cbn [andb].
      destruct (String.eqb (Token.subject tok) name); reflexivity. }
    lia.
Qed.

Lemma fold_placeSession_weekCount_le (pool : list Token.t) (st : Placement) :
  wfPlacement st ->
  (weekCount name (timetable (fold_left (placeSession sessionDuration breakDuration
                                                      maxSessionsPerDay) pool st))
   <= weekCount name (timetable st) + tokensNamed name pool)%nat.
Proof.
  revert st. induction pool as [|tok pool IH]; intros st Hwf.
  - simpl. lia.
  - cbn [fold_left].
    specialize (IH _ (placeSession_wf sessionDuration breakDuration maxSessionsPerDay
                                      st tok Hwf)).
    unfold tokensNamed in *. cbn [filter].
    destruct (placeSession_weekCount st tok Hwf) as [E | [_ E]];
      [rewrite E in IH |- * | rewrite E in IH];
      destruct (String.eqb (Token.subject tok) name); cbn [List.length]; lia.
Qed.


Lemma laidOut_named (h m : Z) (l : list Session.t) :
  Forall (fun s => Session.type s = study) l ->
  List.length (filter (fun s => isStudy s && String.eqb (Session.subject s) name)
                      (laidOut sessionDuration breakDuration h m l))
  = List.length (filter (fun s => String.eqb (Session.subject s) name) l).
Proof.
  intro H. revert h m. induction H as [|x r Hx Hr IH]; intros h m; [reflexivity|].
  cbn [laidOut filter]. unfold isStudy at 1.
  cbn [retimed Session.type Session.subject]. rewrite Hx. cbn [andb].
  assert (Hrest :
            List.length
              (filter (fun s => isStudy s && String.eqb (Session.subject s) name)
                 match r with
                 | [] => []
                 | _ :: _ =>
                     breakSession
                       (formatTime (hours (addMinutes h m sessionDuration))
                                   (minutes (addMinutes h m sessionDuration)))
                       (formatTime
                          (hours (addMinutes (hours (addMinutes h m sessionDuration))
                                             (minutes (addMinutes h m sessionDuration))
                                             breakDuration))
                          (minutes (addMinutes (hours (addMinutes h m sessionDuration))
                                               (minutes (addMinutes h m sessionDuration))
                                               breakDuration)))
                       breakDuration
                     :: laidOut sessionDuration breakDuration
                          (hours (addMinutes (hours (addMinutes h m sessionDuration))
                                             (minutes (addMinutes h m sessionDuration))
                                             breakDuration))
                          (minutes (addMinutes (hours (addMinutes h m sessionDuration))
                                               (minutes (addMinutes h m sessionDuration))
                                               breakDuration)) r
                 end)
            = List.length (filter (fun s => String.eqb (Session.subject s) name) r)).
  { destruct r as [|y r']; [reflexivity|]. cbn [filter]. unfold isStudy at 1.
    cbn [breakSession Session.type andb]. apply IH. }
  destruct (String.eqb (Session.subject x) name); cbn [List.length]; rewrite Hrest;
    reflexivity.
Qed.

Lemma filter_filter_named (l : list Session.t) :
  filter (fun s => String.eqb (Session.subject s) name) (filter isStudy l)
  = filter (fun s => isStudy s && String.eqb (Session.subject s) name) l.
Proof.
  induction l as [|x l IH]; simpl; [reflexivity|].
  destruct (isStudy x); simpl; [|exact IH].
  destruct (String.eqb (Session.subject x) name); rewrite IH; reflexivity.
Qed.

Lemma rebuildDay_named (day : Day.t) :
  sessionsOfSubject name (rebuildDay sessionDuration breakDuration day)
  = sessionsOfSubject name day.
Proof.
  unfold sessionsOfSubject.
  rewrite rebuildDay_sessions, sort_byDifficulty.
  rewrite laidOut_named by apply filter_isStudy_types.
  rewrite filter_filter_named. reflexivity.
Qed.

Lemma weekCount_rebuild (tt : list Day.t) :
  weekCount name (map (rebuildDay sessionDuration breakDuration) tt) = weekCount name tt.
Proof.
  induction tt as [|day tt IH]; [reflexivity|].
  cbn [map weekCount fold_right].
  fold (weekCount name (map (rebuildDay sessionDuration breakDuration) tt)).
  fold (weekCount name tt).
  rewrite rebuildDay_named, IH. reflexivity.
Qed.

End PerSubject.

Section TokensOfASubject.

Variable sessionDuration : Z.

Lemma insert_count {A : Type} (p : A -> bool) (cmp : A -> A -> Q) (x : A) (l : list A) :
  List.length (filter p (JS.insert cmp x l)) = List.length (filter p (x :: l)).
Proof.
  induction l as [|y l IH]; [reflexivity|].
  cbn [JS.insert]. destruct (Qle_bool (cmp x y) 0); [reflexivity|].
  cbn [filter] in *. destruct (p y), (p x); cbn [List.length] in *; lia.
Qed.

Lemma sort_count {A : Type} (p : A -> bool) (cmp : A -> A -> Q) (l : list A) :
  List.length (filter p (JS.sort cmp l)) = List.length (filter p l).
Proof.
  induction l as [|x l IH]; [reflexivity|].
  cbn [JS.sort]. rewrite insert_count. cbn [filter].
  destruct (p x); cbn [List.length]; rewrite IH; reflexivity.
Qed.

Lemma flat_map_insert_count {A B : Type} (p : B -> bool) (f : A -> list B)
    (cmp : A -> A -> Q) (x : A) (l : list A) :
  List.length (filter p (flat_map f (JS.insert cmp x l)))
  = List.length (filter p (flat_map f (x :: l))).
Proof.
  induction l as [|y l IH]; [reflexivity|].
  cbn [JS.insert]. destruct (Qle_bool (cmp x y) 0); [reflexivity|].
  cbn [flat_map] in *. rewrite !filter_app, !length_app in *. lia.
Qed.

Lemma flat_map_sort_count {A B : Type} (p : B -> bool) (f : A -> list B)
    (cmp : A -> A -> Q) (l : list A) :
  List.length (filter p (flat_map f (JS.sort cmp l)))
  = List.length (filter p (flat_map f l)).
Proof.
  induction l as [|x l IH]; [reflexivity|].
  cbn [JS.sort]. rewrite flat_map_insert_count. cbn [flat_map].
  rewrite !filter_app, !length_app, IH. reflexivity.
Qed.

Lemma tokensNamed_repeat (name : string) (tok : Token.t) (n : nat) :
  tokensNamed name (repeat tok n)
  = if String.eqb (Token.subject tok) name then n else O.
Proof.
  unfold tokensNamed. induction n as [|n IH]; cbn [repeat filter].
  - destruct (String.eqb (Token.subject tok) name); reflexivity.
  - destruct (String.eqb (Token.subject tok) name); cbn [List.length]; rewrite IH;
      reflexivity.
Qed.

Lemma tokensNamed_absent (name : string) (subjects : list Subject.t) :
  ~ In name (map Subject.name subjects) ->
  tokensNamed name (flat_map tokensOf (map (subjectDatum sessionDuration) subjects)) = O.
Proof.
  induction subjects as [|s0 rest IH]; intro Hnot; [reflexivity|].
  cbn [map flat_map]. unfold tokensNamed in *. rewrite filter_app, length_app.
  rewrite IH by (intro H; apply Hnot; right; exact H).
  fold (tokensNamed name (tokensOf (subjectDatum sessionDuration s0))).
  unfold tokensOf. rewrite tokensNamed_repeat.
  cbn [tokenOf subjectDatum SubjectData.subject Token.subject].
  destruct (String.eqb_spec (Subject.name s0) name) as [E|_]; [|reflexivity].
  exfalso. apply Hnot. left. exact E.
Qed.

(** With distinct names, the tokens under the name of a subject are the
    tokens of that subject. *)
Lemma tokensNamed_subject (subjects : list Subject.t) (subject : Subject.t) :
  NoDup (map Subject.name subjects) ->
  In subject subjects ->
  tokensNamed (Subject.name subject)
              (flat_map tokensOf (map (subjectDatum sessionDuration) subjects))
  = Z.to_nat (sessionsNeededOf subject sessionDuration).
Proof.
  induction subjects as [|s0 rest IH]; intros Hnd Hin; [contradiction|].
  cbn [map] in Hnd. apply NoDup_cons_iff in Hnd. destruct Hnd as [Hfresh Hnd].
  cbn [map flat_map]. unfold tokensNamed in *. rewrite filter_app, length_app.
  fold (tokensNamed (Subject.name subject) (tokensOf (subjectDatum sessionDuration s0))).
  unfold tokensOf at 1. rewrite tokensNamed_repeat.
  cbn [tokenOf subjectDatum SubjectData.subject SubjectData.sessionsNeeded Token.subject].
  destruct (String.eqb_spec (Subject.name s0) (Subject.name subject)) as [E|Hne].
  - assert (Hs : subject = s0).
    { destruct Hin as [H|H]; [symmetry; exact H|].
      exfalso. apply Hfresh. rewrite E. apply in_map. exact H. }
    subst s0.
    pose proof (tokensNamed_absent (Subject.name subject) rest Hfresh) as H0.
    unfold tokensNamed in H0. rewrite H0. lia.
  - destruct Hin as [H|H]; [subst s0; congruence|].
    rewrite (IH Hnd H). lia.
Qed.

Lemma tokensNamed_pool (rnd : list nat) (subjects : list Subject.t) (name : string) :
  tokensNamed name (sessionPoolOf rnd subjects sessionDuration)
  = tokensNamed name (flat_map tokensOf (map (subjectDatum sessionDuration) subjects)).
Proof.
  unfold tokensNamed, sessionPoolOf.
  rewrite sort_count, shuffleArray_count, flat_map_sort_count. reflexivity.
Qed.

End TokensOfASubject.

(** X10. A subject never gets more sessions than it needs: for subjects
    handed in as plain objects with distinct names (and a positive session
    duration), the number of study sessions of the returned week that carry
    the name of a subject is at most ceil(weeklyHours * 60 /
    sessionDuration). *)
Theorem sessions_of_subject_at_most_needed (rnd : list nat) (subjects : list Subject.t)
    (preferences : Preferences.t) (subject : Subject.t) :
  let sessionDuration := withDefault (Preferences.sessionDuration preferences) 25 in
  0 < sessionDuration ->
  NoDup (map Subject.name subjects) ->
  In subject subjects ->
  Z.of_nat (weekCount (Subject.name subject)
                      (generateTimetable rnd subjects preferences))
  <= Z.max 0 (sessionsNeededOf subject sessionDuration).
Proof.
  intros sessionDuration _ Hnd Hin.
  unfold generateTimetable, provisionalTimetable. fold sessionDuration.
  rewrite weekCount_rebuild. unfold placeSessions.
  pose proof (fold_placeSession_weekCount_le
                (Subject.name subject) sessionDuration
                (withDefault (Preferences.breakDuration preferences) 5)
                (maxSessionsOf (withDefault (Preferences.dailyHours preferences) 4%Q)
                               sessionDuration)
                (sessionPoolOf rnd subjects sessionDuration)
                _ initial_wf) as H.
  rewrite tokensNamed_pool, (tokensNamed_subject sessionDuration subjects subject Hnd Hin)
    in H.
  cbn [timetable] in H.
  change (weekCount (Subject.name subject) initialTimetable) with O in H.
  lia.
Qed.

Lemma sessions_of_subject_at_most_needed_witness :
  let subjects := [Sample.physics; Sample.reading] in
  (0 < 60 /\ NoDup (map Subject.name subjects) /\ In Sample.reading subjects)
  /\ Z.of_nat (weekCount (Subject.name Sample.reading)
                         (generateTimetable [] subjects Sample.hourly))
     <= Z.max 0 (sessionsNeededOf Sample.reading 60).
Proof.
  intro subjects.
  assert (Hnd : NoDup (map Subject.name subjects)).
  { repeat constructor; simpl; intuition discriminate. }
  assert (Hin : In Sample.reading subjects) by (right; left; reflexivity).
  split; [split; [reflexivity | split; assumption]|].
  apply (sessions_of_subject_at_most_needed [] subjects Sample.hourly Sample.reading);
    [reflexivity | exact Hnd | exact Hin].
Defined.



(* ------------------------------------------------------------------ *)
(** ** The sessions of a regenerated day *)

Section RegeneratedDay.

Variables sessionDuration breakDuration maxSessions : Z.
Variable shuffledSubjects : list Subject.t.

Lemma clocked_push (st : Layout) (x : Session.t) (h m : Z) :
  clocked st ->
  Session.startTime x = formatTime (currentHour st) (currentMinute st) ->
  Session.endTime x = formatTime h m ->
  clocked {| sessions := sessions st ++ [x]; currentHour := h; currentMinute := m |}.
Proof.
  intros (Hc & Hfirst & Hlast) Hstart Hend. unfold clocked. cbn [sessions currentHour currentMinute].
  split; [|split].
  - apply contiguous_snoc; [exact Hc|].
    destruct (rev (sessions st)); [exact I|]. rewrite Hlast, Hstart. reflexivity.
  - destruct (sessions st) as [|a r]; [|exact Hfirst].
    cbn [app]. cbn [rev] in Hlast. rewrite Hstart. exact Hlast.
  - rewrite rev_app_distr. cbn [rev app]. exact Hend.
Qed.

Lemma pushBreak_clocked (st : Layout) :
  clocked st -> clocked (pushBreak breakDuration st).
Proof.
  intro H. unfold pushBreak. apply clocked_push; [exact H | reflexivity | reflexivity].
Qed.

Lemma regenerateStep_clocked (st : Layout) (i : nat) :
  clocked st ->
  clocked (regenerateStep sessionDuration breakDuration maxSessions shuffledSubjects st i).
Proof.
  intro H. unfold regenerateStep.
  destruct (nth_error shuffledSubjects (i mod List.length shuffledSubjects));
    [|exact H].
  destruct (Z.of_nat i <? maxSessions - 1).
  - apply pushBreak_clocked.
    apply clocked_push; [exact H | reflexivity | reflexivity].
  - apply clocked_push; [exact H | reflexivity | reflexivity].
Qed.

Lemma regenerate_fold_clocked (indices : list nat) (st : Layout) :
  clocked st ->
  clocked (fold_left (regenerateStep sessionDuration breakDuration maxSessions
                                     shuffledSubjects) indices st).
Proof.
  revert st. induction indices as [|i indices IH]; intros st H; simpl; [exact H|].
  apply IH. apply regenerateStep_clocked. exact H.
Qed.

Lemma skipn_nth_error {A : Type} (l : list A) (a : nat) (x : A) :
  nth_error l a = Some x -> skipn a l = x :: skipn (S a) l.
Proof.
  revert a. induction l as [|y l IH]; intros [|a] H; simpl in *; try discriminate.
  - injection H as ->. reflexivity.
  - apply IH. exact H.
Qed.

(** The study sessions of the loop are for the subjects at the indices it
    walks, in this order. *)
Lemma regenerate_fold_subjects (k a : nat) (st : Layout) :
  (a + k <= List.length shuffledSubjects)%nat ->
  subjectsOf (filter isStudy
                (sessions (fold_left
                             (regenerateStep sessionDuration breakDuration maxSessions
                                             shuffledSubjects)
                             (seq a k) st)))
  = subjectsOf (filter isStudy (sessions st))
    ++ map Subject.name (firstn k (skipn a shuffledSubjects)).
Proof.
  revert a st. induction k as [|k IH]; intros a st Hlen.
  - simpl. rewrite app_nil_r. reflexivity.
  - cbn [seq fold_left]. rewrite IH by lia.
    assert (Ha : (a < List.length shuffledSubjects)%nat) by lia.
    destruct (nth_error shuffledSubjects a) as [subject|] eqn:E;
      [|apply nth_error_None in E; lia].
    rewrite (skipn_nth_error _ _ _ E). cbn [firstn map].
    unfold regenerateStep. rewrite Nat.mod_small by exact Ha. rewrite E.
    destruct (Z.of_nat a <? maxSessions - 1); unfold pushBreak, subjectsOf;
      cbn [sessions]; rewrite !filter_app, !map_app; cbn [filter isStudy Session.type
        breakSession map Session.subject]; rewrite <- ?app_assoc; reflexivity.
Qed.

End RegeneratedDay.

Lemma regenerateDay_subjects (rnd : list nat) (day : Day.t) (subjects : list Subject.t)
    (preferences : Preferences.t) :
  let maxSessions :=
    maxSessionsOf (withDefault (Preferences.dailyHours preferences) 4%Q)
                  (withDefault (Preferences.sessionDuration preferences) 25) in
  subjectsOf (filter isStudy (regenerateDay rnd day subjects preferences))
  = map Subject.name
        (firstn (Z.to_nat (Z.min maxSessions (Z.of_nat (List.length subjects))))
                (shuffleArray rnd subjects)).
Proof.
  intro maxSessions. unfold regenerateDay. fold maxSessions.
  rewrite regenerate_fold_subjects.
  - rewrite shuffleArray_length. reflexivity.
  - rewrite shuffleArray_length. lia.
Qed.

(** X12. [regenerateDay] gives every subject at most one session: when the
    names of the subjects are distinct (and the session duration is
    positive), the study sessions it returns carry pairwise different
    subject names, each the name of one of the subjects handed in. *)
Theorem regenerateDay_one_session_per_subject (rnd : list nat) (day : Day.t)
    (subjects : list Subject.t) (preferences : Preferences.t) :
  0 < withDefault (Preferences.sessionDuration preferences) 25 ->
  NoDup (map Subject.name subjects) ->
  let studied := subjectsOf (filter isStudy (regenerateDay rnd day subjects preferences)) in
  NoDup studied /\ incl studied (map Subject.name subjects).
Proof.
  intros _ Hnd studied. subst studied. rewrite regenerateDay_subjects.
  set (n := Z.to_nat _).
  assert (Hperm : Permutation (map Subject.name (shuffleArray rnd subjects))
                              (map Subject.name subjects)).
  { apply Permutation_map. unfold shuffleArray. apply shuffleFrom_Permutation. }
  assert (Hnd' : NoDup (map Subject.name (shuffleArray rnd subjects))).
  { apply (Permutation_NoDup (Permutation_sym Hperm)). exact Hnd. }
  rewrite <- firstn_map. split.
  - rewrite <- (firstn_skipn n (map Subject.name (shuffleArray rnd subjects))) in Hnd'.
    apply NoDup_app_remove_r in Hnd'. exact Hnd'.
  - intros x Hx.
    apply (Permutation_in _ Hperm).
    rewrite <- (firstn_skipn n (map Subject.name (shuffleArray rnd subjects))).
    apply in_or_app. left. exact Hx.
Qed.

Lemma regenerateDay_one_session_per_subject_witness :
  let subjects := [Sample.math; Sample.reading; Sample.physics] in
  let studied :=
    subjectsOf (filter isStudy (regenerateDay [2; 0]%nat (emptyDay 0 "Monday")
                                              subjects Sample.hourly)) in
  (0 < 60 /\ NoDup (map Subject.name subjects))
  /\ NoDup studied /\ incl studied (map Subject.name subjects).
Proof.
  intros subjects studied.
  assert (Hnd : NoDup (map Subject.name subjects)).
  { repeat constructor; simpl; intuition discriminate. }
  split; [split; [reflexivity | exact Hnd]|].
  apply (regenerateDay_one_session_per_subject [2; 0]%nat (emptyDay 0 "Monday")
           subjects Sample.hourly); [reflexivity | exact Hnd].
Defined.

(** X13. The sessions [regenerateDay] returns (for a positive session
    duration) are laid out in time: each session starts at the end time of
    the session before it, and the first one starts at 8:00 AM. *)
Theorem regenerateDay_contiguous (rnd : list nat) (day : Day.t)
    (subjects : list Subject.t) (preferences : Preferences.t) :
  0 < withDefault (Preferences.sessionDuration preferences) 25 ->
  let result := regenerateDay rnd day subjects preferences in
  contiguous result
  /\ match result with
     | [] => True
     | first :: _ => Session.startTime first = "8:00 AM"
     end.
Proof.
  intros _ result. subst result. unfold regenerateDay.
  pose proof (regenerate_fold_clocked
                (withDefault (Preferences.sessionDuration preferences) 25)
                (withDefault (Preferences.breakDuration preferences) 5)
                (maxSessionsOf (withDefault (Preferences.dailyHours preferences) 4%Q)
                               (withDefault (Preferences.sessionDuration preferences) 25))
                (shuffleArray rnd subjects)
                (seq 0 (Z.to_nat
                          (Z.min (maxSessionsOf
                                    (withDefault (Preferences.dailyHours preferences) 4%Q)
                                    (withDefault (Preferences.sessionDuration preferences) 25))
                                 (Z.of_nat (List.length (shuffleArray rnd subjects))))))
                {| sessions := []; currentHour := 8; currentMinute := 0 |}) as H.
  destruct H as (Hc & Hfirst & _); [repeat split|].
  split; assumption.
Qed.

Lemma regenerateDay_contiguous_witness :
  let result :=
    regenerateDay [2; 0]%nat (emptyDay 0 "Monday")
                  [Sample.math; Sample.reading; Sample.physics] Sample.hourly in
  0 < 60
  /\ contiguous result
  /\ match result with
     | [] => True
     | first :: _ => Session.startTime first = "8:00 AM"
     end.
Proof.
  intro result. split; [reflexivity|].
  apply (regenerateDay_contiguous [2; 0]%nat (emptyDay 0 "Monday")
           [Sample.math; Sample.reading; Sample.physics] Sample.hourly).
  reflexivity.
Defined.

(* ------------------------------------------------------------------ *)
(** ** The range of the priority score *)

Section PriorityRange.

Lemma difficultyWeight_range (d : string) :
  (1 <= (if String.eqb d "easy" then 1
         else if String.eqb d "medium" then 3 # 2
         else if String.eqb d "hard" then 2 else 1) <= 2)%Q.
Proof.
  destruct (String.eqb d "easy"); [split; discriminate|].
  destruct (String.eqb d "medium"); [split; discriminate|].
  destruct (String.eqb d "hard"); split; discriminate.
Qed.

Lemma hoursWeight_range (weeklyHours : Q) :
  (1 <= weeklyHours)%Q ->
  (1 # 10 <= Qmin (weeklyHours / 10) 2 <= 2)%Q.
Proof.
  intro H. split.
  - apply Q.min_glb; [|discriminate].
    apply Qle_shift_div_l; [reflexivity|]. lra.
  - apply Q.le_min_r.
Qed.

End PriorityRange.

(** X14. The priority score of a stored subject lies between 0.1 and 12:
    for weekly hours of at least 1, an exam priority between 0 and 10 (or
    absent) and a difficulty that names no member of [Object.prototype]
    (the three difficulties of the schema are such), [calculatePriority]
    returns a number in that range; in particular it is positive. *)
Theorem calculatePriority_range (s : Subject.t) :
  (1 <= Subject.weeklyHours s)%Q ->
  match Subject.examPriority s with
  | Some e => (0 <= e <= 10)%Q
  | None => True
  end ->
  ~ In (Subject.difficulty s) OBJECT_PROTOTYPE ->
  exists priority,
    calculatePriority s = JS.number priority
    /\ (1 # 10 <= priority <= 12)%Q.
Proof.
  intros Hw He Hown. unfold calculatePriority.
  rewrite (weight_of_difficulty (Subject.difficulty s) Hown). cbn [JS.mul].
  eexists. split; [reflexivity|].
  pose proof (difficultyWeight_range (Subject.difficulty s)) as Hd.
  pose proof (hoursWeight_range (Subject.weeklyHours s) Hw) as Hh.
  assert (Hx : (0 <= JS.orElse (Subject.examPriority s) 0 <= 10)%Q).
  { rewrite orElse_zero. destruct (Subject.examPriority s); [exact He|].
    split; discriminate. }
  set (dw := if String.eqb (Subject.difficulty s) "easy" then 1%Q
             else if String.eqb (Subject.difficulty s) "medium" then (3 # 2)%Q
             else if String.eqb (Subject.difficulty s) "hard" then 2%Q else 1%Q) in *.
  set (hw := Qmin (Subject.weeklyHours s / 10) 2) in *.
  set (ep := JS.orElse (Subject.examPriority s) 0) in *.
  clearbody dw hw ep.
  assert (Hew : (1 <= 1 + ep * (2 # 10) <= 3)%Q) by lra.
  set (ew := (1 + ep * (2 # 10))%Q) in *. clearbody ew.
  assert (H1 : (1 <= dw * ew)%Q) by nra.
  assert (H2 : (dw * ew <= 6)%Q) by nra.
  set (p := (dw * ew)%Q) in *. clearbody p.
  split; nra.
Qed.

Lemma calculatePriority_range_witness :
  ((1 <= Subject.weeklyHours Sample.reading)%Q
   /\ match Subject.examPriority Sample.reading with
      | Some e => (0 <= e <= 10)%Q
      | None => True
      end
   /\ ~ In (Subject.difficulty Sample.reading) OBJECT_PROTOTYPE)
  /\ exists priority,
       calculatePriority Sample.reading = JS.number priority
       /\ (1 # 10 <= priority <= 12)%Q.
Proof.
  assert (Hw : (1 <= Subject.weeklyHours Sample.reading)%Q) by discriminate.
  assert (He : match Subject.examPriority Sample.reading with
               | Some e => (0 <= e <= 10)%Q
               | None => True
               end) by (split; discriminate).
  assert (Hown : ~ In (Subject.difficulty Sample.reading) OBJECT_PROTOTYPE).
  { simpl. intuition discriminate. }
  split; [split; [assumption | split; assumption]|].
  apply (calculatePriority_range Sample.reading); assumption.
Defined.

(* ------------------------------------------------------------------ *)
(** ** The streak of [StudyStats.calculateStreak] *)

Section Streak.

Variable today : Z.

Lemma streakFrom_run (stats : list StudyStats.t) (i : nat) (streak : Z) :
  (i <> 0)%nat \/ (exists stat rest, stats = stat :: rest /\ StudyStats.date stat = today) ->
  exists k : nat,
    streakFrom today i stats streak = streak + Z.of_nat k
    /\ (k <= List.length stats)%nat
    /\ (forall j stat, (j < k)%nat -> nth_error stats j = Some stat ->
          studiedOn today (i + j) stat)
    /\ (forall stat, nth_error stats k = Some stat -> ~ studiedOn today (i + k) stat).
Proof.
  revert i streak. induction stats as [|stat rest IH]; intros i streak Hi.
  - exists O. simpl. split; [lia | split; [lia | split]].
    + intros j stat0 Hj. lia.
    + intros stat0 H. discriminate.
  - cbn [streakFrom].
    destruct ((StudyStats.date stat =? today - Z.of_nat i)
              && (0 <? StudyStats.sessionsCompleted stat)) eqn:Eok.
    + apply andb_true_iff in Eok. destruct Eok as [Ed Es].
      apply Z.eqb_eq in Ed. apply Z.ltb_lt in Es.
      destruct (IH (S i) (streak + 1)) as (k & Hk & Hlen & Hin & Hout); [left; lia|].
      exists (S k). rewrite Hk. split; [|split; [|split]].
      * lia.
      * simpl. lia.
      * intros j stat0 Hj Hnth. destruct j as [|j].
        -- simpl in Hnth. injection Hnth as <-. rewrite Nat.add_0_r. split; assumption.
        -- simpl in Hnth. replace (i + S j)%nat with (S i + j)%nat by lia.
           apply Hin; [lia | assumption].
      * intros stat0 Hnth. simpl in Hnth.
        replace (i + S k)%nat with (S i + k)%nat by lia. apply Hout. assumption.
    + assert (Hskip : (i =? 0)%nat && negb (StudyStats.date stat =? today - Z.of_nat i) = false).
      { destruct Hi as [Hi | (stat0 & rest0 & E & Hd)].
        - apply Nat.eqb_neq in Hi. rewrite Hi. reflexivity.
        - injection E as <- <-.
          destruct (Nat.eqb_spec i 0) as [-> | _]; [|reflexivity].
          simpl. replace (today - 0) with today by lia.
          rewrite (proj2 (Z.eqb_eq _ _) Hd). reflexivity. }
      rewrite Hskip. exists O. split; [|split; [|split]].
      * lia.
      * simpl. lia.
      * intros j stat0 Hj. lia.
      * intros stat0 Hnth [Hd Hs]. simpl in Hnth. injection Hnth as <-.
        rewrite Nat.add_0_r in Hd.
        apply andb_false_iff in Eok. destruct Eok as [E | E].
        -- apply Z.eqb_neq in E. contradiction.
        -- apply Z.ltb_ge in E. lia.
Qed.

Lemma streakFrom_bounds (stats : list StudyStats.t) (i : nat) (streak : Z) :
  streak <= streakFrom today i stats streak <= streak + Z.of_nat (List.length stats).
Proof.
  revert i streak. induction stats as [|stat rest IH]; intros i streak.
  - simpl. lia.
  - cbn [streakFrom List.length].
    destruct ((StudyStats.date stat =? today - Z.of_nat i)
              && (0 <? StudyStats.sessionsCompleted stat)).
    + specialize (IH (S i) (streak + 1)). lia.
    + destruct ((i =? 0)%nat && negb (StudyStats.date stat =? today - Z.of_nat i)).
      * specialize (IH (S i) streak). lia.
      * lia.
Qed.

Lemma streak_idle (stats : list StudyStats.t) :
  mostRecentFirst stats ->
  Forall (fun stat => StudyStats.date stat <= today) stats ->
  (forall stat, In stat stats -> ~ studiedOn today 0 stat) ->
  calculateStreak today stats = 0.
Proof.
  intros Hsorted Hpast Hnone.
  unfold calculateStreak.
  destruct stats as [|stat rest]; [reflexivity|].
  cbn [streakFrom]. replace (today - Z.of_nat 0) with today by (simpl; lia).
  destruct ((StudyStats.date stat =? today) && (0 <? StudyStats.sessionsCompleted stat))
    eqn:Eok.
  - exfalso. apply andb_true_iff in Eok. destruct Eok as [Ed Es].
    apply Z.eqb_eq in Ed. apply Z.ltb_lt in Es.
    apply (Hnone stat (or_introl eq_refl)).
    split; [simpl; lia | assumption].
  - cbn [Nat.eqb andb].
    destruct (StudyStats.date stat =? today) eqn:Ed; [reflexivity|].
    cbn [negb]. apply Z.eqb_neq in Ed.
    apply Forall_inv in Hpast.
    destruct rest as [|stat1 rest1]; [reflexivity|].
    cbn [streakFrom].
    apply StronglySorted_inv in Hsorted. destruct Hsorted as [_ Hlt].
    apply Forall_inv in Hlt.
    assert (E : (StudyStats.date stat1 =? today - Z.of_nat 1) = false).
    { apply Z.eqb_neq. simpl. lia. }
    rewrite E. reflexivity.
Qed.

End Streak.

(** X15. [calculateStreak] counts a run that starts today. When the most
    recent stat is the one of today, the streak is the length [k] of the
    longest prefix of the stats in which the stat at every index [i] is the
    one of the day [i] days ago and records a completed session: every stat
    before index [k] is such, and the stat at index [k], if there is one, is
    not. *)
Theorem calculateStreak_counts_run (today : Z) (stats : list StudyStats.t) :
  hd_error (map StudyStats.date stats) = Some today ->
  exists k : nat,
    calculateStreak today stats = Z.of_nat k
    /\ (k <= List.length stats)%nat
    /\ (forall i stat, (i < k)%nat -> nth_error stats i = Some stat ->
          studiedOn today i stat)
    /\ (forall stat, nth_error stats k = Some stat -> ~ studiedOn today k stat).
Proof.
  intro Hhd.
  destruct stats as [|stat rest]; [discriminate|].
  simpl in Hhd. injection Hhd as Hd.
  destruct (streakFrom_run today (stat :: rest) 0 0) as (k & Hk & Hlen & Hin & Hout).
  { right. exists stat, rest. split; [reflexivity | assumption]. }
  exists k. unfold calculateStreak. rewrite Hk. split; [lia | split; [assumption | split]].
  - intros i stat0 Hi Hnth. apply (Hin i stat0 Hi Hnth).
  - intros stat0 Hnth. apply (Hout stat0 Hnth).
Qed.

Lemma calculateStreak_counts_run_witness :
  let stats :=
    [StudyStats.mk 100 2 50 [] true; StudyStats.mk 99 1 25 [] true;
     StudyStats.mk 97 3 75 [] true] in
  hd_error (map StudyStats.date stats) = Some 100
  /\ exists k : nat,
       calculateStreak 100 stats = Z.of_nat k
       /\ (k <= List.length stats)%nat
       /\ (forall i stat, (i < k)%nat -> nth_error stats i = Some stat ->
             studiedOn 100 i stat)
       /\ (forall stat, nth_error stats k = Some stat -> ~ studiedOn 100 k stat).
Proof.
  intro stats. split; [reflexivity|].
  apply (calculateStreak_counts_run 100 stats). reflexivity.
Defined.

(** X16. The streak is zero unless a session was completed today. With one
    stat per day, most recent first and none dated after today, the streak
    is 0 as soon as no stat is the one of today with a completed session:
    days studied up to yesterday are not counted, although the loop skips a
    first stat that is not the one of today. *)
Theorem calculateStreak_zero_unless_today (today : Z) (stats : list StudyStats.t) :
  mostRecentFirst stats ->
  Forall (fun stat => StudyStats.date stat <= today) stats ->
  (forall stat, In stat stats -> ~ studiedOn today 0 stat) ->
  calculateStreak today stats = 0.
Proof. apply streak_idle. Qed.

Lemma calculateStreak_zero_unless_today_witness :
  let stats :=
    [StudyStats.mk 99 4 100 [] true; StudyStats.mk 98 2 50 [] true;
     StudyStats.mk 97 1 25 [] true] in
  mostRecentFirst stats
  /\ Forall (fun stat => StudyStats.date stat <= 100) stats
  /\ (forall stat, In stat stats -> ~ studiedOn 100 0 stat)
  /\ calculateStreak 100 stats = 0.
Proof.
  intro stats.
  assert (Hsorted : mostRecentFirst stats).
  { unfold mostRecentFirst, stats.
    repeat (constructor; [|repeat constructor; simpl; lia]). constructor. }
  assert (Hpast : Forall (fun stat => StudyStats.date stat <= 100) stats).
  { unfold stats. repeat constructor; simpl; lia. }
  assert (Hnone : forall stat, In stat stats -> ~ studiedOn 100 0 stat).
  { intros stat Hin [Hd _].
    simpl in Hin. destruct Hin as [<- | [<- | [<- | []]]]; simpl in Hd; lia. }
  split; [assumption | split; [assumption | split; [assumption|]]].
  apply (calculateStreak_zero_unless_today 100 stats Hsorted Hpast Hnone).
Defined.

(** X17. The streak is never negative and never more than the number of
    stats the query returned, whatever their dates and their order. *)
Theorem calculateStreak_bounds (today : Z) (stats : list StudyStats.t) :
  0 <= calculateStreak today stats <= Z.of_nat (List.length stats).
Proof.
  unfold calculateStreak.
  pose proof (streakFrom_bounds today stats 0 0). lia.
Qed.

(* ------------------------------------------------------------------ *)
(** ** Marking a session as completed, and undoing it *)

Section Marking.

Variable startOfDay : Z -> Z.

Lemma markCompleted_streak (now now' : Z) (session : Session.t)
    (statistics : Statistics.t) :
  startOfDay now' - startOfDay now < 2 * (1000 * 60 * 60 * 24) ->
  Statistics.streak (markCompleted startOfDay now now' session statistics)
  = Statistics.streak statistics + 1.
Proof.
  intro Hnear. unfold markCompleted. cbn [Statistics.streak].
  assert (H : (startOfDay now' - startOfDay now) / (1000 * 60 * 60 * 24) <= 1).
  { assert ((startOfDay now' - startOfDay now) / (1000 * 60 * 60 * 24) < 2); [|lia].
    apply Z.div_lt_upper_bound; lia. }
  apply Z.leb_le in H. rewrite H. reflexivity.
Qed.

End Marking.

Lemma findIndex_split {A : Type} (p : A -> bool) (a : list A) (i : nat) :
  findIndex p a = Some i ->
  exists l1 x l2,
    a = l1 ++ x :: l2 /\ List.length l1 = i /\ p x = true
    /\ Forall (fun y => p y = false) l1.
Proof.
  revert i. induction a as [|y a IH]; intros i H; simpl in H; [discriminate|].
  destruct (p y) eqn:Ey.
  - injection H as <-. exists [], y, a. repeat split; auto.
  - destruct (findIndex p a) as [k|]; [|discriminate].
    simpl in H. injection H as <-.
    destruct (IH k eq_refl) as (l1 & x & l2 & -> & Hlen & Hx & Hl1).
    exists (y :: l1), x, l2. simpl. repeat split; auto.
Qed.

Lemma findIndex_none {A : Type} (p : A -> bool) (a : list A) :
  findIndex p a = None -> Forall (fun y => p y = false) a.
Proof.
  induction a as [|y a IH]; intro H; simpl in H; [constructor|].
  destruct (p y) eqn:Ey; [discriminate|].
  destruct (findIndex p a); [discriminate|].
  constructor; auto.
Qed.

Lemma nth_error_middle {A : Type} (l1 l2 : list A) (x : A) :
  nth_error (l1 ++ x :: l2) (List.length l1) = Some x.
Proof. induction l1 as [|y l1 IH]; simpl; auto. Qed.

(** The two shapes of the breakdown after one more session. *)
Lemma addStudied_cases (session : Session.t) (l : list StudiedSubject.t) :
  (exists l1 entry l2,
     l = l1 ++ entry :: l2
     /\ StudiedSubject.subjectName entry = Session.subject session
     /\ addStudied session l = l1 ++ studiedAgain session entry :: l2)
  \/ (~ In (Session.subject session) (map StudiedSubject.subjectName l)
      /\ addStudied session l
         = l ++ [{| StudiedSubject.subjectId := Session.subjectId session;
                    StudiedSubject.subjectName := Session.subject session;
                    StudiedSubject.minutes := Session.duration session;
                    StudiedSubject.sessions := 1 |}]).
Proof.
  unfold addStudied.
  destruct (findIndex _ l) as [i|] eqn:E.
  - left. apply findIndex_split in E.
    destruct E as (l1 & entry & l2 & -> & <- & Hname & _).
    exists l1, entry, l2. rewrite nth_error_middle, set_nth_middle.
    apply String.eqb_eq in Hname. auto.
  - right. apply findIndex_none in E. split; [|reflexivity].
    intro Hin. apply in_map_iff in Hin. destruct Hin as (entry & Hname & Hin).
    rewrite Forall_forall in E. specialize (E entry Hin).
    apply String.eqb_neq in E. contradiction.
Qed.

Lemma addStudied_sums (session : Session.t) (l : list StudiedSubject.t) :
  minutesStudied (addStudied session l) = minutesStudied l + Session.duration session
  /\ sessionsStudied (addStudied session l) = sessionsStudied l + 1.
Proof.
  unfold minutesStudied, sessionsStudied.
  destruct (addStudied_cases session l)
    as [(l1 & entry & l2 & -> & _ & ->) | (_ & ->)];
    rewrite !map_app, !sumZ_app; simpl; lia.
Qed.

Lemma addStudied_names (session : Session.t) (l : list StudiedSubject.t) :
  NoDup (map StudiedSubject.subjectName l) ->
  NoDup (map StudiedSubject.subjectName (addStudied session l)).
Proof.
  intro Hnd.
  destruct (addStudied_cases session l)
    as [(l1 & entry & l2 & -> & _ & ->) | (Hnot & ->)].
  - rewrite map_app in *. exact Hnd.
  - rewrite map_app. simpl.
    apply NoDup_app; [assumption | repeat constructor; intros [] | ].
    intros name Hin [<- | []]. contradiction.
Qed.

(** X18. Completing a study session extends the streak, whatever the date of
    the previous study. The handler stores the current instant in
    [lastStudyDate] before it compares it with today: as soon as its two
    clock readings fall on the same day or on consecutive days, the streak
    grows by one and is never reset to 1. *)
Theorem completion_always_extends_streak (startOfDay : Z -> Z) (now now' : Z)
    (session : Session.t) (statistics : Statistics.t) :
  Session.type session = study ->
  Session.completed session = false ->
  startOfDay now' - startOfDay now < 2 * (1000 * 60 * 60 * 24) ->
  let statistics' := updateStatistics startOfDay now now' true session statistics in
  Statistics.streak statistics' = Statistics.streak statistics + 1
  /\ Statistics.lastStudyDate statistics' = Some now.
Proof.
  intros Htype Hnot Hnear. unfold updateStatistics, isStudy.
  rewrite Htype, Hnot. cbn [andb negb].
  split; [apply markCompleted_streak; assumption | reflexivity].
Qed.

Lemma completion_always_extends_streak_witness :
  let startOfDay := fun t => t - t mod 86400000 in
  let session := Session.mk "Math" (Some "m1") "8:00 AM" "8:25 AM" 25 study false "#3B82F6" in
  let statistics := Statistics.mk 7 175 3 (Some 1600000000000) in
  Session.type session = study
  /\ Session.completed session = false
  /\ startOfDay 1700000000005 - startOfDay 1700000000000 < 2 * (1000 * 60 * 60 * 24)
  /\ Statistics.streak
       (updateStatistics startOfDay 1700000000000 1700000000005 true session statistics)
     = 3 + 1
  /\ Statistics.lastStudyDate
       (updateStatistics startOfDay 1700000000000 1700000000005 true session statistics)
     = Some 1700000000000.
Proof.
  intros startOfDay session statistics.
  split; [reflexivity | split; [reflexivity | split; [vm_compute; reflexivity|]]].
  apply (completion_always_extends_streak startOfDay 1700000000000 1700000000005
           session statistics); [reflexivity | reflexivity | vm_compute; reflexivity].
Defined.

(** X19. Undoing a completion restores the counters of the user but not the
    streak. For a study session that was not completed and counters that are
    not negative, marking it completed and then incomplete gives back
    [completedSessions] and [totalStudyMinutes], while the streak stays one
    higher and [lastStudyDate] stays at the instant of the completion. *)
Theorem undo_restores_counters_not_streak (startOfDay : Z -> Z)
    (now now' later later' : Z) (session : Session.t) (statistics : Statistics.t) :
  Session.type session = study ->
  Session.completed session = false ->
  0 <= Statistics.completedSessions statistics ->
  0 <= Statistics.totalStudyMinutes statistics ->
  startOfDay now' - startOfDay now < 2 * (1000 * 60 * 60 * 24) ->
  let marked := updateStatistics startOfDay now now' true session statistics in
  let undone :=
    updateStatistics startOfDay later later' false (setCompleted true session) marked in
  Statistics.completedSessions undone = Statistics.completedSessions statistics
  /\ Statistics.totalStudyMinutes undone = Statistics.totalStudyMinutes statistics
  /\ Statistics.streak undone = Statistics.streak statistics + 1
  /\ Statistics.lastStudyDate undone = Some now.
Proof.
  intros Htype Hnot Hc Hm Hnear. unfold updateStatistics, isStudy, setCompleted.
  cbn [Session.type Session.completed]. rewrite Htype, Hnot. cbn [andb negb].
  unfold markIncomplete.
  cbn [Statistics.completedSessions Statistics.totalStudyMinutes Statistics.streak
       Statistics.lastStudyDate Session.duration].
  rewrite markCompleted_streak by assumption.
  unfold markCompleted.
  cbn [Statistics.completedSessions Statistics.totalStudyMinutes Statistics.lastStudyDate].
  repeat split; lia.
Qed.

Lemma undo_restores_counters_not_streak_witness :
  let startOfDay := fun t => t - t mod 86400000 in
  let session := Session.mk "Math" (Some "m1") "8:00 AM" "8:25 AM" 25 study false "#3B82F6" in
  let statistics := Statistics.mk 7 175 3 (Some 1600000000000) in
  let marked :=
    updateStatistics startOfDay 1700000000000 1700000000005 true session statistics in
  let undone :=
    updateStatistics startOfDay 1700000060000 1700000060000 false
                     (setCompleted true session) marked in
  Statistics.completedSessions undone = 7
  /\ Statistics.totalStudyMinutes undone = 175
  /\ Statistics.streak undone = 3 + 1
  /\ Statistics.lastStudyDate undone = Some 1700000000000.
Proof.
  intros startOfDay session statistics.
  apply (undo_restores_counters_not_streak startOfDay 1700000000000 1700000000005
           1700000060000 1700000060000 session statistics);
    [reflexivity | reflexivity | simpl; lia | simpl; lia | vm_compute; reflexivity].
Defined.

(** X20. Completing a session keeps the breakdown of the day by subject in
    step with its totals: if [totalStudyMinutes] and [sessionsCompleted] are
    the sums of the minutes and of the sessions of [subjectsStudied] and no
    subject name occurs twice there, the same holds after the completion
    branch, which also sets [streakDay]. *)
Theorem completion_keeps_breakdown (session : Session.t) (todayStats : StudyStats.t) :
  breakdownMatches todayStats ->
  NoDup (map StudiedSubject.subjectName (StudyStats.subjectsStudied todayStats)) ->
  let todayStats' := completeToday session todayStats in
  breakdownMatches todayStats'
  /\ NoDup (map StudiedSubject.subjectName (StudyStats.subjectsStudied todayStats'))
  /\ In (Session.subject session)
        (map StudiedSubject.subjectName (StudyStats.subjectsStudied todayStats'))
  /\ StudyStats.streakDay todayStats' = true.
Proof.
  intros [Hm Hs] Hnd. unfold completeToday, breakdownMatches.
  cbn [StudyStats.totalStudyMinutes StudyStats.sessionsCompleted
       StudyStats.subjectsStudied StudyStats.streakDay].
  destruct (addStudied_sums session (StudyStats.subjectsStudied todayStats)) as [Em Es].
  split; [split; lia|].
  split; [apply addStudied_names; assumption|].
  split; [|reflexivity].
  destruct (addStudied_cases session (StudyStats.subjectsStudied todayStats))
    as [(l1 & entry & l2 & _ & Hname & ->) | (_ & ->)];
    rewrite map_app; apply in_or_app; right; simpl; left; auto.
Qed.

Lemma completion_keeps_breakdown_witness :
  let session := Session.mk "Math" (Some "m1") "8:00 AM" "8:25 AM" 25 study false "#3B82F6" in
  let todayStats :=
    StudyStats.mk 100 3 75
      [StudiedSubject.mk (Some "p1") "Physics" 50 2;
       StudiedSubject.mk (Some "m1") "Math" 25 1] false in
  breakdownMatches (completeToday session todayStats)
  /\ NoDup (map StudiedSubject.subjectName
              (StudyStats.subjectsStudied (completeToday session todayStats)))
  /\ In (Session.subject session)
        (map StudiedSubject.subjectName
           (StudyStats.subjectsStudied (completeToday session todayStats)))
  /\ StudyStats.streakDay (completeToday session todayStats) = true.
Proof.
  intros session todayStats.
  apply (completion_keeps_breakdown session todayStats).
  - split; reflexivity.
  - simpl. repeat constructor; simpl; intuition discriminate.
Defined.

(** X21. Undoing a completion leaves the breakdown by subject behind. For a
    study session that was not completed and a day whose breakdown matches
    totals that are not negative, completing the session and then undoing it
    on the same day restores [sessionsCompleted] and [totalStudyMinutes], but
    [subjectsStudied] still counts the session: its minutes exceed the total
    by the duration of the session and its sessions by one, and [streakDay]
    stays set. *)
Theorem undo_leaves_breakdown (session : Session.t) (todayStats : StudyStats.t) :
  Session.type session = study ->
  Session.completed session = false ->
  breakdownMatches todayStats ->
  0 <= StudyStats.sessionsCompleted todayStats ->
  0 <= StudyStats.totalStudyMinutes todayStats ->
  let undone :=
    updateToday false (setCompleted true session) (updateToday true session todayStats) in
  StudyStats.sessionsCompleted undone = StudyStats.sessionsCompleted todayStats
  /\ StudyStats.totalStudyMinutes undone = StudyStats.totalStudyMinutes todayStats
  /\ minutesStudied (StudyStats.subjectsStudied undone)
     = StudyStats.totalStudyMinutes undone + Session.duration session
  /\ sessionsStudied (StudyStats.subjectsStudied undone)
     = StudyStats.sessionsCompleted undone + 1
  /\ StudyStats.streakDay undone = true.
Proof.
  intros Htype Hnot [Hm Hs] Hc Ht. unfold updateToday, isStudy, setCompleted.
  cbn [Session.type Session.completed]. rewrite Htype, Hnot. cbn [andb negb].
  unfold uncompleteToday, completeToday.
  cbn [StudyStats.totalStudyMinutes StudyStats.sessionsCompleted
       StudyStats.subjectsStudied StudyStats.streakDay Session.duration].
  destruct (addStudied_sums session (StudyStats.subjectsStudied todayStats)) as [Em Es].
  rewrite Em, Es. repeat split; lia.
Qed.

Lemma undo_leaves_breakdown_witness :
  let session := Session.mk "Math" (Some "m1") "8:00 AM" "8:25 AM" 25 study false "#3B82F6" in
  let todayStats :=
    StudyStats.mk 100 2 50 [StudiedSubject.mk (Some "p1") "Physics" 50 2] false in
  let undone :=
    updateToday false (setCompleted true session) (updateToday true session todayStats) in
  StudyStats.sessionsCompleted undone = 2
  /\ StudyStats.totalStudyMinutes undone = 50
  /\ minutesStudied (StudyStats.subjectsStudied undone)
     = StudyStats.totalStudyMinutes undone + 25
  /\ sessionsStudied (StudyStats.subjectsStudied undone)
     = StudyStats.sessionsCompleted undone + 1
  /\ StudyStats.streakDay undone = true.
Proof.
  intros session todayStats.
  apply (undo_leaves_breakdown session todayStats);
    [reflexivity | reflexivity | split; reflexivity | simpl; lia | simpl; lia].
Defined.

(* ------------------------------------------------------------------ *)
(** ** The day the regenerate route saves *)

Section SavedDays.



Variables sessionDuration breakDuration : Z.





End SavedDays.



(* ------------------------------------------------------------------ *)
(** ** Preferences and subjects as the routes store them *)

Section StoredRanges.

Lemma preferencesUpdate_allowed (request : option Preferences.t) :
  allowedPreferences (preferencesUpdate request).
Proof.
  unfold allowedPreferences, preferencesUpdate.
  destruct request as [[dh sd bd]|]; cbn; [|tauto].
  split; [|split].
  - destruct dh as [h|]; [|exact I].
    destruct (Qeq_bool h 0); [exact I|].
    split.
    + apply Q.min_glb; [discriminate | apply Q.le_max_l].
    + apply Q.le_min_l.
  - destruct sd as [d|]; [|exact I].
    destruct (d =? 0); [exact I|].
    destruct ((d =? 25) || ((d =? 45) || ((d =? 60) || false))) eqn:E; [|exact I].
    rewrite !orb_true_iff, !Z.eqb_eq in E. simpl.
    destruct E as [E | [E | [E | E]]]; [auto | auto | auto | discriminate].
  - destruct bd as [d|]; [|exact I].
    destruct (d =? 0); [exact I|].
    destruct ((d =? 5) || ((d =? 10) || ((d =? 15) || false))) eqn:E; [|exact I].
    rewrite !orb_true_iff, !Z.eqb_eq in E. simpl.
    destruct E as [E | [E | [E | E]]]; [auto | auto | auto | discriminate].
Qed.

Lemma setPreferences_allowed (stored updateData : Preferences.t) :
  allowedPreferences stored -> allowedPreferences updateData ->
  allowedPreferences (setPreferences stored updateData).
Proof.
  unfold allowedPreferences, setPreferences.
  destruct stored as [dh sd bd], updateData as [dh' sd' bd']; cbn.
  intros (H1 & H2 & H3) (H1' & H2' & H3').
  destruct dh', sd', bd'; auto.
Qed.

Lemma capacity_of_range (dailyHours : Q) (sessionDuration : Z) :
  (1 <= dailyHours <= 12)%Q -> In sessionDuration [25; 45; 60] ->
  1 <= maxSessionsOf dailyHours sessionDuration <= 28.
Proof.
  intros [Hlo Hhi] Hsd. unfold maxSessionsOf.
  set (x := (dailyHours * 60 / inject_Z sessionDuration)%Q).
  assert (Hx : (1 <= x /\ x <= 144 # 5)%Q).
  { unfold x. simpl in Hsd.
    destruct Hsd as [<- | [<- | [<- | []]]];
      match goal with |- context [inject_Z ?k] => change (inject_Z k) with (k # 1) end;
      (split; [apply Qle_shift_div_l | apply Qle_shift_div_r];
       [reflexivity | lra | reflexivity | lra]). }
  destruct Hx as [Hx1 Hx2].
  pose proof (Qfloor_le x) as Hfl. pose proof (Qlt_floor x) as Hlt.
  assert (H1 : (inject_Z (Qfloor x) <= 144 # 5)%Q) by (eapply Qle_trans; eassumption).
  assert (H2 : (1 < inject_Z (Qfloor x + 1))%Q) by (eapply Qle_lt_trans; eassumption).
  unfold Qle, Qlt, inject_Z in H1, H2. cbn [Qnum Qden] in H1, H2. lia.
Qed.

Lemma demand_of_range (weeklyHours : Q) (sessionDuration : Z) :
  (1 <= weeklyHours <= 40)%Q -> In sessionDuration [25; 45; 60] ->
  1 <= Qceiling (weeklyHours * 60 / inject_Z sessionDuration) <= 96.
Proof.
  intros [Hlo Hhi] Hsd.
  set (x := (weeklyHours * 60 / inject_Z sessionDuration)%Q).
  assert (Hx : (1 <= x /\ x <= 96)%Q).
  { unfold x. simpl in Hsd.
    destruct Hsd as [<- | [<- | [<- | []]]];
      match goal with |- context [inject_Z ?k] => change (inject_Z k) with (k # 1) end;
      (split; [apply Qle_shift_div_l | apply Qle_shift_div_r];
       [reflexivity | lra | reflexivity | lra]). }
  destruct Hx as [Hx1 Hx2].
  pose proof (Qle_ceiling x) as Hce. pose proof (Qceiling_lt x) as Hlt.
  assert (H1 : (1 <= inject_Z (Qceiling x))%Q) by (eapply Qle_trans; eassumption).
  assert (H2 : (inject_Z (Qceiling x - 1) < 96)%Q) by (eapply Qlt_le_trans; eassumption).
  unfold Qle, Qlt, inject_Z in H1, H2. cbn [Qnum Qden] in H1, H2. lia.
Qed.

End StoredRanges.

(** X24. The profile route keeps the preferences in range. If the stored
    preferences are in range (dailyHours between 1 and 12, sessionDuration
    one of 25, 45, 60 and breakDuration one of 5, 10, 15, where present),
    then whatever the request holds they still are once the update the
    handler builds is applied, and the
    capacity the generator derives from them, with its defaults for absent
    fields, is between 1 and 28 sessions a day. *)
Theorem profile_update_keeps_capacity (stored : Preferences.t)
    (request : option Preferences.t) :
  allowedPreferences stored ->
  let updated := setPreferences stored (preferencesUpdate request) in
  allowedPreferences updated
  /\ 1 <= maxSessionsOf (withDefault (Preferences.dailyHours updated) 4%Q)
                        (withDefault (Preferences.sessionDuration updated) 25)
       <= 28.
Proof.
  intros Hstored updated.
  assert (Hupd : allowedPreferences updated).
  { apply setPreferences_allowed; [assumption | apply preferencesUpdate_allowed]. }
  split; [exact Hupd|].
  destruct Hupd as (Hdh & Hsd & _).
  apply capacity_of_range.
  - destruct (Preferences.dailyHours updated); [exact Hdh|].
    simpl. split; discriminate.
  - destruct (Preferences.sessionDuration updated); [exact Hsd|].
    simpl. auto.
Qed.

Lemma profile_update_keeps_capacity_witness :
  let request :=
    Some {| Preferences.dailyHours := Some 30%Q;
            Preferences.sessionDuration := Some 30;
            Preferences.breakDuration := Some 15 |} in
  let updated := setPreferences Sample.pomodoro (preferencesUpdate request) in
  allowedPreferences Sample.pomodoro
  /\ allowedPreferences updated
  /\ 1 <= maxSessionsOf (withDefault (Preferences.dailyHours updated) 4%Q)
                        (withDefault (Preferences.sessionDuration updated) 25)
       <= 28.
Proof.
  intros request updated.
  assert (H : allowedPreferences Sample.pomodoro).
  { unfold allowedPreferences. simpl. repeat split; try discriminate; auto. }
  split; [exact H|].
  apply (profile_update_keeps_capacity Sample.pomodoro request H).
Defined.

(** X25. A subject the create route builds is within the generator's reach.
    Whatever the request, the document has weeklyHours between 1 and 40, so
    that for each session duration the profile route allows it needs
    between 1 and 96 sessions a week; and when the request names no colour,
    the colour is one of the palette. *)
Theorem newSubject_demand (trim : string -> string) (request : SubjectRequest.t)
    (existingSubject : bool) (subjectCount : nat) (_id : string)
    (subject : Subject.t) (sessionDuration : Z) :
  newSubject trim request existingSubject subjectCount _id = Some subject ->
  In sessionDuration [25; 45; 60] ->
  (1 <= Subject.weeklyHours subject <= 40)%Q
  /\ 1 <= sessionsNeededOf subject sessionDuration <= 96
  /\ (truthyString (SubjectRequest.color request) = None ->
      In (Subject.color subject) colorPalette).
Proof.
  intros Hnew Hsd.
  assert (Hpal : In (nth (subjectCount mod List.length colorPalette) colorPalette "")
                    colorPalette).
  { apply nth_In. apply Nat.mod_upper_bound. discriminate. }
  unfold newSubject in Hnew.
  destruct (truthyString (SubjectRequest.name request)) as [name|]; [|discriminate].
  destruct (truthyNumber (SubjectRequest.weeklyHours request)) as [wh|]; [|discriminate].
  destruct existingSubject; [discriminate|].
  injection Hnew as <-. cbn [Subject.weeklyHours Subject.color].
  assert (Hwh : (1 <= Qmin 40 (Qmax 1 wh) <= 40)%Q).
  { split; [apply Q.min_glb; [discriminate | apply Q.le_max_l] | apply Q.le_min_l]. }
  split; [exact Hwh|]. split.
  - unfold sessionsNeededOf. cbn [Subject.weeklyHours].
    apply demand_of_range; assumption.
  - intros ->. exact Hpal.
Qed.

Lemma newSubject_demand_witness :
  let request :=
    SubjectRequest.mk (Some "Chemistry") (Some 100%Q) None None None in
  exists subject,
    newSubject (fun s => s) request false 13 "c1" = Some subject
    /\ In 45 [25; 45; 60]
    /\ (1 <= Subject.weeklyHours subject <= 40)%Q
    /\ 1 <= sessionsNeededOf subject 45 <= 96
    /\ (truthyString (SubjectRequest.color request) = None ->
        In (Subject.color subject) colorPalette).
Proof.
  intro request. eexists. split; [reflexivity|].
  split; [simpl; auto|].
  apply (newSubject_demand (fun s => s) request false 13 "c1" _ 45);
    [reflexivity | simpl; auto].
Defined.

(* ------------------------------------------------------------------ *)
(** ** The dashboard reads the stored week *)

Section Dashboard.

Lemma find_dayOfWeek (timetable : list Day.t) (i : nat) :
  match find (fun t => (Day.dayOfWeek t =? i)%nat) timetable with
  | Some day => In day timetable /\ Day.dayOfWeek day = i
  | None => forall day, In day timetable -> Day.dayOfWeek day <> i
  end.
Proof.
  induction timetable as [|d timetable IH]; cbn [find].
  - intros day [].
  - destruct (Nat.eqb_spec (Day.dayOfWeek d) i) as [E | E].
    + split; [left; reflexivity | exact E].
    + destruct (find _ timetable) as [day|].
      * destruct IH as [Hin Hnum]. split; [right; exact Hin | exact Hnum].
      * intros day [<- | Hin]; [exact E | apply IH; exact Hin].
Qed.

End Dashboard.

(** X26. The dashboard looks today's day up under the right name. For a
    value [today] of [getDay()] (0 for Sunday to 6 for Saturday) and stored
    days that carry the name of their number, the index
    [today === 0 ? 6 : today - 1] of [renderTodaySchedule] is between 0 and
    6 and the conversion of [renderWeeklyChart] maps it back to [today]; the
    day the lookup finds is a stored day with that number, whose name begins
    with the label the weekly chart gives the column of that index; and the
    lookup finds nothing only when no stored day has that number. *)
Theorem todayTimetable_finds_today (timetable : list Day.t) (today : nat) :
  (today <= 6)%nat ->
  labelled timetable ->
  (dayIndexOf today <= 6)%nat
  /\ getDayOf (dayIndexOf today) = today
  /\ match todayTimetable today timetable with
     | Some day =>
         In day timetable
         /\ Day.dayOfWeek day = dayIndexOf today
         /\ String.prefix (nth (dayIndexOf today) chartDays "") (Day.dayName day) = true
     | None => forall day, In day timetable -> Day.dayOfWeek day <> dayIndexOf today
     end.
Proof.
  intros Htoday Hlab.
  assert (Hidx : (dayIndexOf today <= 6)%nat
                 /\ getDayOf (dayIndexOf today) = today
                 /\ String.prefix (nth (dayIndexOf today) chartDays "")
                                  (nth (dayIndexOf today) DAYS "") = true).
  { do 7 (destruct today as [|today];
          [split; [cbv; lia | split; reflexivity]|]).
    lia. }
  destruct Hidx as (Hle & Hback & Hprefix).
  split; [exact Hle|]. split; [exact Hback|].
  unfold todayTimetable.
  pose proof (find_dayOfWeek timetable (dayIndexOf today)) as Hfind.
  destruct (find _ timetable) as [day|]; [|exact Hfind].
  destruct Hfind as [Hin Hnum].
  split; [exact Hin|]. split; [exact Hnum|].
  unfold labelled in Hlab. rewrite Forall_forall in Hlab.
  rewrite (Hlab day Hin), Hnum. exact Hprefix.
Qed.

Lemma todayTimetable_finds_today_witness :
  let timetable := generateTimetable [] [Sample.math] Sample.tooShort in
  ((3 <= 6)%nat /\ labelled timetable)
  /\ (dayIndexOf 3 <= 6)%nat
  /\ getDayOf (dayIndexOf 3) = 3%nat
  /\ match todayTimetable 3 timetable with
     | Some day =>
         In day timetable
         /\ Day.dayOfWeek day = dayIndexOf 3
         /\ String.prefix (nth (dayIndexOf 3) chartDays "") (Day.dayName day) = true
     | None => forall day, In day timetable -> Day.dayOfWeek day <> dayIndexOf 3
     end.
Proof.
  intro timetable.
  assert (Hlab : labelled timetable).
  { unfold labelled, timetable. vm_compute. repeat constructor. }
  split; [split; [lia | exact Hlab]|].
  apply (todayTimetable_finds_today timetable 3); [lia | exact Hlab].
Defined.

(* ------------------------------------------------------------------ *)
(** ** Recording a session *)

(** X27. The first session recorded on a day sets the streak of the user to
    1. [POST /api/stats/session] computes the streak before it updates the
    statistics of the day: with one stat per day, most recent first and none
    after today, and no stat of today with a completed session yet, a
    request with a duration stores [streak = 1], however many days in a row
    the user studied before. *)
Theorem recordSession_first_of_day (now today : Z) (stats : list StudyStats.t)
    (duration : Z) (statistics : Statistics.t) :
  duration <> 0 ->
  mostRecentFirst stats ->
  Forall (fun stat => StudyStats.date stat <= today) stats ->
  (forall stat, In stat stats -> ~ studiedOn today 0 stat) ->
  exists statistics',
    recordSession now today stats duration statistics = Some statistics'
    /\ Statistics.streak statistics' = 1
    /\ Statistics.completedSessions statistics'
       = Statistics.completedSessions statistics + 1
    /\ Statistics.totalStudyMinutes statistics'
       = Statistics.totalStudyMinutes statistics + duration.
Proof.
  intros Hd Hsorted Hpast Hnone. unfold recordSession.
  apply Z.eqb_neq in Hd. rewrite Hd.
  eexists. split; [reflexivity|].
  cbn [Statistics.streak Statistics.completedSessions Statistics.totalStudyMinutes].
  rewrite (streak_idle today stats Hsorted Hpast Hnone).
  repeat split.
Qed.

Lemma recordSession_first_of_day_witness :
  let stats :=
    [StudyStats.mk 99 4 100 [] true; StudyStats.mk 98 2 50 [] true;
     StudyStats.mk 97 1 25 [] true] in
  let statistics := Statistics.mk 7 175 3 (Some 1600000000000) in
  exists statistics',
    recordSession 1700000000000 100 stats 25 statistics = Some statistics'
    /\ Statistics.streak statistics' = 1
    /\ Statistics.completedSessions statistics' = 7 + 1
    /\ Statistics.totalStudyMinutes statistics' = 175 + 25.
Proof.
  intros stats statistics.
  apply (recordSession_first_of_day 1700000000000 100 stats 25 statistics).
  - discriminate.
  - unfold mostRecentFirst, stats.
    repeat (constructor; [|repeat constructor; simpl; lia]). constructor.
  - unfold stats. repeat constructor; simpl; lia.
  - intros stat Hin [Hdate _].
    simpl in Hin. destruct Hin as [<- | [<- | [<- | []]]]; simpl in Hdate; lia.
Defined.

(* ------------------------------------------------------------------ *)
(** ** The bearer token *)

Section BearerToken.

Lemma startsWith_app (s prefix : string) :
  startsWith s prefix = true <-> exists rest, s = (prefix ++ rest)%string.
Proof.
  revert s. induction prefix as [|p prefix IH]; intro s.
  - split; [intros _; exists s; reflexivity | reflexivity].
  - destruct s as [|c s]; cbn [startsWith String.append].
    + split; [discriminate | intros (rest & E); discriminate].
    + rewrite andb_true_iff, Ascii.eqb_eq, IH. split.
      * intros (-> & rest & ->). exists rest. reflexivity.
      * intros (rest & E). injection E as -> ->. split; [reflexivity | exists rest; reflexivity].
Qed.

Lemma slice_app (prefix rest : string) :
  slice (prefix ++ rest) (String.length prefix) = rest.
Proof. induction prefix as [|p prefix IH]; simpl; [destruct rest|]; auto. Qed.

Lemma replace_at_start (s pattern replacement : string) :
  startsWith s pattern = true ->
  replace s pattern replacement
  = (replacement ++ slice s (String.length pattern))%string.
Proof. intro H. destruct s; simpl; rewrite H; reflexivity. Qed.

End BearerToken.

(** X28. The middleware hands to the verification exactly what follows the
    first ["Bearer "]. The extraction yields a token if and only if the
    header is ["Bearer "] followed by that token and the token is not empty,
    so a token that itself contains ["Bearer "] is passed on whole; a
    missing or empty header, a header with another beginning and the bare
    ["Bearer "] are refused. *)
Theorem extractToken_bearer (authHeader : option string) (token : string) :
  extractToken authHeader = bearer token
  <-> authHeader = Some ("Bearer " ++ token)%string /\ token <> "".
Proof.
  unfold extractToken, truthyString. split.
  - destruct authHeader as [h|]; [|discriminate].
    destruct (String.eqb h ""); [discriminate|].
    destruct (startsWith h "Bearer ") eqn:Es; [|discriminate].
    cbn [negb]. rewrite replace_at_start by exact Es.
    apply startsWith_app in Es. destruct Es as (rest & ->).
    rewrite slice_app. cbn [String.append].
    destruct (String.eqb_spec rest ""); [discriminate|].
    intro E. injection E as <-. split; [reflexivity | assumption].
  - intros [-> Hne].
    assert (Es : startsWith ("Bearer " ++ token) "Bearer " = true).
    { apply startsWith_app. exists token. reflexivity. }
    assert (En : String.eqb ("Bearer " ++ token) "" = false) by reflexivity.
    rewrite En, Es. cbn [negb].
    rewrite replace_at_start by exact Es.
    rewrite slice_app. cbn [String.append].
    destruct (String.eqb_spec token ""); [contradiction | reflexivity].
Qed.
